(** * github-repo-jutsu: the profile, badge and avatar pipeline

    A shallow embedding of [getUserProfileData]
    (services/githubService.ts) and of [getAnimeBadge] and the two
    variants of [generateAvatar] (services/geminiService.ts), with the
    properties of the pipeline that hold of them.

    - Strings are [string]: a character stands for one code unit, in
      the range 0..255.
    - An asynchronous function is a computation [Eff A]: the requests
      it issued, in order, and how it completed, by [Return] or by
      [Throw].
    - The network and [process.env] are a [World]; what the language
      implementation decides ([JSON.parse] and its messages, the
      messages of a [TypeError], coercions of values that are not
      strings) is an [Engine].  Both are parameters of every function.
    - The timer of a request is part of the [World]: a request that is
      aborted is a rejected request whose error is named [AbortError].
    - Console output is left out.  What is thrown and caught is an
      error object with a [name] and a [message]. *)

From Stdlib Require Import Ascii String List NArith ZArith Lia Bool DecimalString.
From stdpp Require Import gmap strings.
Import ListNotations.

Local Open Scope string_scope.
Local Open Scope list_scope.

(** ** Code units and strings *)

Definition chars := list ascii.

Definition str (s : string) : chars := list_ascii_of_string s.
Definition unstr (l : chars) : string := string_of_list_ascii l.

(** [WhiteSpace] and [LineTerminator] code units below 256: TAB, LF, VT,
    FF, CR, SP and NBSP.  Both the regular-expression class [\s] and
    [String.prototype.trim] use this set. *)
Definition isWhiteSpace (c : ascii) : bool :=
  match N_of_ascii c with
  | 9 | 10 | 11 | 12 | 13 | 32 | 160 => true
  | _ => false
  end%N.

Definition anyChar (c : ascii) : bool := true.
Definition notWhiteSpace (c : ascii) : bool := negb (isWhiteSpace c).

Fixpoint trimStartChars (l : chars) : chars :=
  match l with
  | c :: l' => if isWhiteSpace c then trimStartChars l' else l
  | [] => []
  end.

Definition trimEndChars (l : chars) : chars := rev (trimStartChars (rev l)).

Definition trimChars (l : chars) : chars := trimEndChars (trimStartChars l).

(** [String.prototype.trim] *)
Definition trim (s : string) : string := unstr (trimChars (str s)).

(** A run of whitespace, and a text that is not empty and has no
    whitespace at either end. *)
Definition allWhite (w : chars) : Prop := forallb isWhiteSpace w = true.

Definition trimmed (l : chars) : Prop :=
  (exists c l', l = c :: l' /\ isWhiteSpace c = false) /\
  (exists l' c, l = l' ++ [c] /\ isWhiteSpace c = false).

Fixpoint startsWithChars (pre l : chars) : bool :=
  match pre, l with
  | [], _ => true
  | p :: pre', c :: l' => Ascii.eqb p c && startsWithChars pre' l'
  | _ :: _, [] => false
  end.

Fixpoint includesChars (needle hay : chars) : bool :=
  startsWithChars needle hay ||
  match hay with
  | _ :: hay' => includesChars needle hay'
  | [] => false
  end.

(** [String.prototype.startsWith], [endsWith] and [includes] *)
Definition startsWith (s pre : string) : bool := startsWithChars (str pre) (str s).
Definition endsWith (s suf : string) : bool :=
  startsWithChars (rev (str suf)) (rev (str s)).
Definition includes (s needle : string) : bool := includesChars (str needle) (str s).

(** ** Regular expressions

    The two regular expressions of the source use literals, character
    classes, sequencing, the greedy [?], greedy and lazy [*] and greedy
    [+] on a character class, one capture group and the two anchors.  The
    matcher below is the backtracking matcher of ECMAScript, written
    with continuations as in the language definition: a matcher takes
    the current state and the continuation that matches the rest of the
    pattern, and the first alternative that leads to overall success is
    taken. *)

Inductive regex : Type :=
| Empty
| Lit (c : ascii)
| Class (p : ascii -> bool)
| Seq (r1 r2 : regex)
| Opt (r : regex)
| Star (p : ascii -> bool)
| LazyStar (p : ascii -> bool)
| Plus (p : ascii -> bool)
| Group (r : regex)
| Bol
| Eol.

Record MatchState : Type := mkState {
  endIndex : nat;
  rest : chars;
  capture1 : option chars
}.

Definition Continuation := MatchState -> option MatchState.

Fixpoint greedyStar (p : ascii -> bool) (k : Continuation)
    (i : nat) (s : chars) (cap : option chars) : option MatchState :=
  match s with
  | c :: s' =>
      if p c then
        match greedyStar p k (S i) s' cap with
        | Some y => Some y
        | None => k (mkState i s cap)
        end
      else k (mkState i s cap)
  | [] => k (mkState i s cap)
  end.

Fixpoint lazyStar (p : ascii -> bool) (k : Continuation)
    (i : nat) (s : chars) (cap : option chars) : option MatchState :=
  match k (mkState i s cap) with
  | Some y => Some y
  | None =>
      match s with
      | c :: s' => if p c then lazyStar p k (S i) s' cap else None
      | [] => None
      end
  end.

Definition oneChar (p : ascii -> bool) (k : Continuation) (x : MatchState)
    : option MatchState :=
  match rest x with
  | c :: s' => if p c then k (mkState (S (endIndex x)) s' (capture1 x)) else None
  | [] => None
  end.

Fixpoint run (r : regex) (k : Continuation) (x : MatchState) : option MatchState :=
  match r with
  | Empty => k x
  | Lit c => oneChar (Ascii.eqb c) k x
  | Class p => oneChar p k x
  | Seq r1 r2 => run r1 (run r2 k) x
  | Opt r1 =>
      match run r1 k x with
      | Some y => Some y
      | None => k x
      end
  | Star p => greedyStar p k (endIndex x) (rest x) (capture1 x)
  | LazyStar p => lazyStar p k (endIndex x) (rest x) (capture1 x)
  | Plus p =>
      oneChar p (fun y => greedyStar p k (endIndex y) (rest y) (capture1 y)) x
  | Group r1 =>
      run r1
        (fun y => k (mkState (endIndex y) (rest y)
                       (Some (firstn (endIndex y - endIndex x) (rest x)))))
        x
  | Bol => if Nat.eqb (endIndex x) 0 then k x else None
  | Eol => match rest x with [] => k x | _ :: _ => None end
  end.

(** A literal string, as a sequence of [Lit]. *)
Fixpoint lit (l : chars) : regex :=
  match l with
  | [] => Empty
  | c :: l' => Seq (Lit c) (lit l')
  end.

(** The match attempt at start index [i], where [s] is the input from
    [i] on. *)
Definition matchAt (r : regex) (i : nat) (s : chars) : option MatchState :=
  run r Some (mkState i s None).

(** [RegExp.prototype.exec] without the [g] and [y] flags: the start
    indices are tried from 0 upwards. *)
Fixpoint execFrom (r : regex) (i : nat) (s : chars) : option MatchState :=
  match matchAt r i s with
  | Some y => Some y
  | None =>
      match s with
      | _ :: s' => execFrom r (S i) s'
      | [] => None
      end
  end.

Definition exec (r : regex) (s : chars) : option MatchState := execFrom r 0 s.

(** [String.prototype.replace] with a [g] regular expression and a
    replacement text without [$] patterns.  [fuel] bounds the number of
    start indices visited. *)
Fixpoint replaceFrom (fuel : nat) (r : regex) (repl : chars) (i : nat) (s : chars)
    : chars :=
  match fuel with
  | O => s
  | S fuel' =>
      match matchAt r i s with
      | Some y =>
          if Nat.eqb (endIndex y) i then
            match s with
            | c :: s' => repl ++ c :: replaceFrom fuel' r repl (S i) s'
            | [] => repl
            end
          else repl ++ replaceFrom fuel' r repl (endIndex y) (rest y)
      | None =>
          match s with
          | c :: s' => c :: replaceFrom fuel' r repl (S i) s'
          | [] => []
          end
      end
  end.

Definition replaceAll (r : regex) (repl : string) (s : string) : string :=
  unstr (replaceFrom (S (List.length (str s))) r (str repl) 0 (str s)).

(** ** Fence stripping (services/geminiService.ts, lines 125-131) *)

Definition LF : ascii := ascii_of_nat 10.
Definition fence : chars := str "```".

(** [/^```(?:json)?\s*\n?([\s\S]*?)\n?\s*```$/] *)
Definition fenceTail : regex :=
  Seq (Opt (Lit LF)) (Seq (Star isWhiteSpace) (Seq (lit fence) Eol)).

Definition fenceRegex : regex :=
  Seq Bol
    (Seq (lit fence)
      (Seq (Opt (lit (str "json")))
        (Seq (Star isWhiteSpace)
          (Seq (Opt (Lit LF))
            (Seq (Group (LazyStar anyChar)) fenceTail))))).

(** Lines 127-131: [jsonStr.match(fenceRegex)], and [match[1].trim()]
    when there is a match whose group is not the empty string. *)
Definition unwrapFence (jsonStr : string) : string :=
  match exec fenceRegex (str jsonStr) with
  | Some y =>
      match capture1 y with
      | Some (c :: g) => trim (unstr (c :: g))
      | _ => jsonStr
      end
  | None => jsonStr
  end.

(** Lines 125-131, from the generated text to the text that is parsed. *)
Definition extractJsonText (content : string) : string :=
  unwrapFence (trim content).

Definition nl : string := String LF EmptyString.

(** The payload wrapped in an anchored fence, with the label [json] or
    without a label. *)
Definition wrapFence (label payload : string) : string :=
  "```" ++ label ++ nl ++ payload ++ nl ++ "```".

(** The double quote, and the two-line payload [{"a":1}\n{"b":2}]. *)
Definition dq : string := String (ascii_of_nat 34) EmptyString.
Definition twoLine : string :=
  "{" ++ dq ++ "a" ++ dq ++ ":1}" ++ nl ++ "{" ++ dq ++ "b" ++ dq ++ ":2}".

Local Open Scope string_scope.

(** ** JavaScript values

    The values that [JSON.parse] and [Response.json] produce, and
    [undefined], which a property read yields for a missing property. *)

(** A number: NaN, an infinity, or plus or minus [mantissa * 2^exponent]. *)
Inductive number : Type :=
| NaN
| Infinity (negative : bool)
| Finite (negative : bool) (mantissa : N) (exponent : Z).

#[warnings="-register-all"] Inductive value : Type :=
| VUndefined
| VNull
| VBool (b : bool)
| VNumber (n : number)
| VString (s : string)
| VArray (items : list value)
| VObject (props : list (string * value)).

Definition numberIsTruthy (n : number) : bool :=
  match n with
  | NaN => false
  | Infinity _ => true
  | Finite _ m _ => negb (N.eqb m 0)
  end.

Definition numberGtZero (n : number) : bool :=
  match n with
  | NaN => false
  | Infinity negative => negb negative
  | Finite negative m _ => negb negative && negb (N.eqb m 0)
  end.

(** [ToBoolean]: what [!v], [a && b], [a || b] and [if (v)] test. *)
Definition truthy (v : value) : bool :=
  match v with
  | VUndefined | VNull => false
  | VBool b => b
  | VNumber n => numberIsTruthy n
  | VString s => negb (String.eqb s "")
  | VArray _ | VObject _ => true
  end.

Definition isNullish (v : value) : bool :=
  match v with
  | VUndefined | VNull => true
  | _ => false
  end.

(** ** Exceptions and effects *)

(** An exception object: its [name] and its [message]. *)
Record JsError : Type := mkError { errName : string; errMessage : string }.

(** [new Error(message)] *)
Definition Error (message : string) : JsError := mkError "Error" message.

Inductive Completion (A : Type) : Type :=
| Return (a : A)
| Throw (e : JsError).
Arguments Return {A} a.
Arguments Throw {A} e.

(** A request as far as the model follows it: the URL and the key sent
    in the [Authorization: Bearer] header.  The body of a request is
    not modelled: what an endpoint answers is up to the [World]. *)
Record Request : Type := mkRequest { url : string; bearer : option string }.

Record Response : Type := mkResponse {
  status : nat;
  statusText : string;
  body : Completion string
}.

(** [Response.ok] *)
Definition ok (r : Response) : bool := Nat.leb 200 (status r) && Nat.leb (status r) 299.

(** What the promise of a [fetch] settles to. *)
Inductive FetchOutcome : Type :=
| Resolved (r : Response)
| Rejected (e : JsError).

(** The environment of a call: [process.env], the network, and for two
    requests in flight at once, which one settles first. *)
Record World : Type := mkWorld {
  OPENROUTER_API_KEY : option string;
  IMAGEROUTER_API_KEY : option string;
  fetch : Request -> FetchOutcome;
  reposSettleFirst : bool
}.

Inductive ParseResult : Type :=
| Parsed (v : value)
| SyntaxError (message : string).

(** What the language implementation decides: [JSON.parse] with the
    message of the [SyntaxError] it throws, the message of a
    [TypeError], [ToString] of a value that is not a string, and the
    comparison [v > 0] for a string, an array or an object. *)
Record Engine : Type := mkEngine {
  JSON_parse : string -> ParseResult;
  typeErrorMessage : value -> string -> string;
  toStringOther : value -> Completion string;
  gtZeroOther : value -> Completion bool
}.

(** The events a call leaves behind. *)
Inductive Event : Type :=
| PromptBuilt
| Fetch (req : Request).

(** A computation: the events so far, and how it completed. *)
Definition Eff (A : Type) : Type := list Event * Completion A.

Definition ret {A : Type} (a : A) : Eff A := ([], Return a).
Definition throw {A : Type} (e : JsError) : Eff A := ([], Throw e).
Definition emit (ev : Event) : Eff unit := ([ev], Return tt).
Definition lift {A : Type} (c : Completion A) : Eff A := ([], c).

Definition bind {A B : Type} (m : Eff A) (f : A -> Eff B) : Eff B :=
  match m with
  | (t, Return a) => let (t', c) := f a in ((t ++ t')%list, c)
  | (t, Throw e) => (t, Throw e)
  end.

(** [try { m } catch (error) { handler error }] *)
Definition tryCatch {A : Type} (m : Eff A) (handler : JsError -> Eff A) : Eff A :=
  match m with
  | (t, Return a) => (t, Return a)
  | (t, Throw e) => let (t', c) := handler e in ((t ++ t')%list, c)
  end.

Definition andThen {A B : Type} (c : Completion A) (f : A -> Completion B)
    : Completion B :=
  match c with
  | Return a => f a
  | Throw e => Throw e
  end.

Notation "'let?' x ':=' c 'in' k" := (andThen c (fun x => k))
  (at level 10, x name, c at level 100, k at level 200).
Notation "'let!' x ':=' m 'in' k" := (bind m (fun x => k))
  (at level 10, x name, m at level 100, k at level 200).
Notation "'do!' m 'in' k" := (bind m (fun _ => k))
  (at level 10, m at level 100, k at level 200).

(** ** Property reads and coercions *)

(** A number of the size of a status in a template literal: its
    decimal digits. *)
Definition natToString (n : nat) : string :=
  NilZero.string_of_uint (Nat.to_uint n).

Definition isDigit (c : ascii) : bool := existsb (Ascii.eqb c) (str "0123456789").

Fixpoint lookupProp (k : string) (props : list (string * value)) : value :=
  match props with
  | [] => VUndefined
  | (k', v) :: props' => if String.eqb k k' then v else lookupProp k props'
  end.

Definition typeError (E : Engine) (v : value) (k : string) : JsError :=
  mkError "TypeError" (typeErrorMessage E v k).

(** [v.k] on a value other than [null] and [undefined], for the
    property names the source reads ([choices], [message], [content],
    [characterName], [anime], [reason], [badgeColor], [image], [base64],
    [data], [length], [images], [jpg], [image_url]).  None of them is
    defined on a built-in prototype, so a read that finds no own
    property yields [undefined]. *)
Definition readProp (v : value) (k : string) : value :=
  match v with
  | VObject props => lookupProp k props
  | VArray items =>
      if String.eqb k "length"
      then VNumber (Finite false (N.of_nat (List.length items)) 0)
      else VUndefined
  | VString s =>
      if String.eqb k "length"
      then VNumber (Finite false (N.of_nat (String.length s)) 0)
      else VUndefined
  | _ => VUndefined
  end.

(** [v.k]: a read on [null] or [undefined] throws a [TypeError]. *)
Definition getProp (E : Engine) (v : value) (k : string) : Completion value :=
  if isNullish v then Throw (typeError E v k) else Return (readProp v k).

(** [v[i]] on a value other than [null] and [undefined]. *)
Definition readIndex (v : value) (i : nat) : value :=
  match v with
  | VObject props => lookupProp (natToString i) props
  | VArray items => nth i items VUndefined
  | VString s =>
      match String.get i s with
      | Some c => VString (String c EmptyString)
      | None => VUndefined
      end
  | _ => VUndefined
  end.

(** [v[i]] *)
Definition getIndex (E : Engine) (v : value) (i : nat) : Completion value :=
  if isNullish v then Throw (typeError E v (natToString i))
  else Return (readIndex v i).

(** [v?.k] *)
Definition getOptional (v : value) (k : string) : value :=
  if isNullish v then VUndefined else readProp v k.

(** [ToString], as in a template literal or a computed property key. *)
Definition toString (E : Engine) (v : value) : Completion string :=
  match v with
  | VString s => Return s
  | _ => toStringOther E v
  end.

(** [v > 0] *)
Definition gtZero (E : Engine) (v : value) : Completion bool :=
  match v with
  | VUndefined | VNull => Return false
  | VBool b => Return b
  | VNumber n => Return (numberGtZero n)
  | VString _ | VArray _ | VObject _ => gtZeroOther E v
  end.

(** [content.trim()]: the method exists on strings only. *)
Definition callTrim (E : Engine) (v : value) : Completion string :=
  match v with
  | VString s => Return (trim s)
  | _ => Throw (typeError E v "trim")
  end.

(** [response.text()] and [response.json()] *)
Definition text (r : Response) : Completion string := body r.

Definition json (E : Engine) (r : Response) : Completion value :=
  match body r with
  | Return t =>
      match JSON_parse E t with
      | Parsed v => Return v
      | SyntaxError m => Throw (mkError "SyntaxError" m)
      end
  | Throw e => Throw e
  end.

(** [await fetch(...)]: the call is recorded, and a rejection is thrown. *)
Definition awaitFetch (W : World) (req : Request) : Eff Response :=
  do! emit (Fetch req) in
  match fetch W req with
  | Resolved r => ret r
  | Rejected e => throw e
  end.

(** ** services/githubService.ts *)

Definition GITHUB_API_URL : string := "https://api.github.com".

Definition userRequest (username : string) : Request :=
  mkRequest (GITHUB_API_URL ++ "/users/" ++ username) None.

Definition reposRequest (username : string) : Request :=
  mkRequest (GITHUB_API_URL ++ "/users/" ++ username
               ++ "/repos?type=owner&sort=stars&per_page=10&direction=desc") None.

(** [Promise.all] of the two requests: both are issued, and the first
    rejection wins. *)
Definition fetchBoth (W : World) (username : string) : Eff (Response * Response) :=
  do! emit (Fetch (userRequest username)) in
  do! emit (Fetch (reposRequest username)) in
  match fetch W (userRequest username), fetch W (reposRequest username) with
  | Resolved u, Resolved r => ret (u, r)
  | Rejected e, Resolved _ => throw e
  | Resolved _, Rejected e => throw e
  | Rejected eu, Rejected er => throw (if reposSettleFirst W then er else eu)
  end.

(** What [getUserProfileData] returns: the two bodies as parsed. *)
Record ProfileData : Type := mkProfileData { userData : value; repoData : value }.

Definition rateLimitMarker : string := "API rate limit exceeded".

Definition notFoundMessage (username : string) : string :=
  "GitHub user not found: " ++ username ++ ".".

Definition rateLimitedMessage : string :=
  "GitHub API rate limit exceeded. Please wait and try again later.".

(** Lines 8-27, the [try] block. *)
Definition fetchProfile (W : World) (E : Engine) (username : string) : Eff ProfileData :=
  let! responses := fetchBoth W username in
  let (userResponse, reposResponse) := responses in
  if negb (ok userResponse) then
    if Nat.eqb (status userResponse) 404 then
      throw (Error (notFoundMessage username))
    else
      throw (Error ("Failed to fetch user data. Status: "
                      ++ natToString (status userResponse)))
  else if negb (ok reposResponse) then
    throw (Error ("Failed to fetch repository data. Status: "
                    ++ natToString (status reposResponse)))
  else
    let! parsedUser := lift (json E userResponse) in
    let! parsedRepos := lift (json E reposResponse) in
    ret (mkProfileData parsedUser parsedRepos).

(** Lines 6-36. *)
Definition getUserProfileData (W : World) (E : Engine) (username : string)
    : Eff ProfileData :=
  tryCatch (fetchProfile W E username)
    (fun error =>
       if includes (errMessage error) rateLimitMarker then
         throw (Error rateLimitedMessage)
       else throw error).

(** ** types.ts *)

Record GithubUser : Type := mkGithubUser {
  login : string;
  user_id : Z;
  avatar_url : string;
  html_url : string;
  name : option string;
  bio : option string;
  public_repos : Z;
  followers : Z
}.

Record GithubRepo : Type := mkGithubRepo {
  repo_id : Z;
  repo_name : string;
  full_name : string;
  description : option string;
  stargazers_count : Z;
  forks_count : Z;
  language : option string;
  repo_html_url : string;
  topics : list string
}.

Record UserProfile : Type := mkUserProfile {
  user : GithubUser;
  repos : list GithubRepo
}.

Record AnimeBadge : Type := mkAnimeBadge {
  characterName : string;
  anime : string;
  reason : string;
  badgeColor : string
}.

(** A badge of the declared type, as the object it is at run time. *)
Definition badgeValue (b : AnimeBadge) : value :=
  VObject [("characterName", VString (characterName b));
           ("anime", VString (anime b));
           ("reason", VString (reason b));
           ("badgeColor", VString (badgeColor b))].

(** ** services/geminiService.ts, shared parts *)

(** [/Bearer [^\s]+/g] *)
Definition bearerRegex : regex := Seq (lit (str "Bearer ")) (Plus notWhiteSpace).

(** [error.message?.replace(/Bearer [^\s]+/g, 'Bearer [REDACTED]') || 'Unknown error'] *)
Definition sanitize (message : string) : string :=
  let replaced := replaceAll bearerRegex "Bearer [REDACTED]" message in
  if String.eqb replaced "" then "Unknown error" else replaced.

Definition envKey (variable : option string) (what : string) : Completion string :=
  match variable with
  | Some key =>
      if String.eqb key "" then Throw (Error (what ++ " environment variable not set"))
      else Return key
  | None => Throw (Error (what ++ " environment variable not set"))
  end.

Definition invalidBadgeMessage : string := "Invalid badge data provided".

(** ** services/geminiService.ts, the OpenRouter variant (lines 1-221) *)

Module OpenRouter.

Definition getOpenRouterKey (W : World) : Completion string :=
  envKey (OPENROUTER_API_KEY W) "OPENROUTER_API_KEY".

Definition getImageRouterKey (W : World) : Completion string :=
  envKey (IMAGEROUTER_API_KEY W) "IMAGEROUTER_API_KEY".

Definition chatRequest (key : string) : Request :=
  mkRequest "https://openrouter.ai/api/v1/chat/completions" (Some key).

Definition imageRequest (key : string) : Request :=
  mkRequest "https://api.imagerouter.ai/v1/generate" (Some key).

Definition invalidStructureMessage : string :=
  "Invalid response structure from OpenRouter API".

Definition missingFieldsMessage : string :=
  "AI response is missing required fields.".

Definition timedOutMessage : string := "Request timed out. Please try again.".

Definition invalidResponseMessage : string :=
  "The AI returned an invalid response. Please try again.".

Definition badgeFailurePrefix : string := "Failed to get anime badge from OpenRouter: ".

(** Line 74, for a profile of the declared type: [repos] is an array,
    and [user.login] is falsy when it is the empty string. *)
Definition validProfile (profileData : UserProfile) : bool :=
  negb (String.eqb (login (user profileData)) "").

(** Lines 121-125: the check of the structure, then the read of
    [data.choices[0].message.content]. *)
Definition readContent (E : Engine) (data : value) : Completion value :=
  let? choices := getProp E data "choices" in
  if negb (truthy choices) then Throw (Error invalidStructureMessage) else
  let? first := getIndex E choices 0 in
  if negb (truthy first) then Throw (Error invalidStructureMessage) else
  let? message := getProp E first "message" in
  if negb (truthy message) then Throw (Error invalidStructureMessage) else
  getProp E message "content".

(** Lines 79-125, up to the read of the generated text.  For a profile
    of the declared type [generateUserPrompt] does not throw; its text
    goes into the body of the request. *)
Definition requestContent (W : World) (E : Engine) : Eff value :=
  do! emit PromptBuilt in
  let! key := lift (getOpenRouterKey W) in
  let! response := awaitFetch W (chatRequest key) in
  if negb (ok response) then
    let! errorText := lift (text response) in
    throw (Error ("OpenRouter API error: " ++ natToString (status response) ++ " "
                    ++ statusText response ++ " - " ++ errorText))
  else
    let! data := lift (json E response) in
    lift (readContent E data).

(** Lines 125-139: trim, fence stripping, [JSON.parse] and the check of
    the four fields. *)
Definition parseBadge (E : Engine) (content : value) : Completion value :=
  let? trimmed := callTrim E content in
  let jsonStr := unwrapFence trimmed in
  match JSON_parse E jsonStr with
  | SyntaxError m => Throw (mkError "SyntaxError" m)
  | Parsed parsedData =>
      let? name := getProp E parsedData "characterName" in
      if negb (truthy name) then Throw (Error missingFieldsMessage) else
      let? series := getProp E parsedData "anime" in
      if negb (truthy series) then Throw (Error missingFieldsMessage) else
      let? why := getProp E parsedData "reason" in
      if negb (truthy why) then Throw (Error missingFieldsMessage) else
      let? color := getProp E parsedData "badgeColor" in
      if negb (truthy color) then Throw (Error missingFieldsMessage) else
      Return parsedData
  end.

(** Lines 141-157, the [catch] block. *)
Definition badgeCatch (error : JsError) : Eff value :=
  if String.eqb (errName error) "AbortError" then throw (Error timedOutMessage)
  else if includes (errMessage error) "JSON.parse" then
    throw (Error invalidResponseMessage)
  else if includes (errMessage error) "environment variable" then throw error
  else throw (Error (badgeFailurePrefix ++ sanitize (errMessage error))).

(** Lines 72-158. *)
Definition getAnimeBadge (W : World) (E : Engine) (profileData : UserProfile)
    : Eff value :=
  if negb (validProfile profileData) then throw (Error "Invalid profile data provided")
  else
    tryCatch
      (let! content := requestContent W E in lift (parseBadge E content))
      badgeCatch.

(** The errors that leave [getAnimeBadge] for a valid profile: the
    timeout, the invalid response, a configuration error, and the
    wrapped failure. *)
Definition badgeError (e : JsError) : Prop :=
  e = Error timedOutMessage \/ e = Error invalidResponseMessage
  \/ includes (errMessage e) "environment variable" = true
  \/ exists m, e = Error (badgeFailurePrefix ++ m).

(** The three conditions of line 121, read without the guard. *)
Definition hasMessage (data : value) : bool :=
  truthy (readProp data "choices")
  && truthy (readIndex (readProp data "choices") 0)
  && truthy (readProp (readIndex (readProp data "choices") 0) "message").

(** The four conditions of line 135. *)
Definition hasAllFields (parsedData : value) : bool :=
  truthy (readProp parsedData "characterName")
  && truthy (readProp parsedData "anime")
  && truthy (readProp parsedData "reason")
  && truthy (readProp parsedData "badgeColor").

(** Line 162 *)
Definition invalidBadge (badge : value) : bool :=
  negb (truthy (getOptional badge "characterName"))
  || negb (truthy (getOptional badge "anime"))
  || negb (truthy (getOptional badge "badgeColor")).

(** Line 167, the template literal. *)
Definition avatarPrompt (E : Engine) (badge : value) : Completion string :=
  let? who := toString E (readProp badge "characterName") in
  let? series := toString E (readProp badge "anime") in
  let? color := toString E (readProp badge "badgeColor") in
  Return ("Create a visually stunning, anime-style avatar for a GitHub profile picture. The character is "
            ++ who ++ " from " ++ series
            ++ ". The avatar should be a circular headshot, vibrant, and capture their essence. The background should be simple and abstract, using thematic colors like "
            ++ color ++ ". The style should be modern anime, clean, and professional.").

(** Lines 166-205, the [try] block. *)
Definition requestImage (W : World) (E : Engine) (badge : value) : Eff string :=
  let! prompt := lift (avatarPrompt E badge) in
  do! emit PromptBuilt in
  let! key := lift (getImageRouterKey W) in
  let! response := awaitFetch W (imageRequest key) in
  if negb (ok response) then
    throw (Error ("ImageRouter API error: " ++ natToString (status response) ++ " "
                    ++ statusText response))
  else
    let! data := lift (json E response) in
    let! image := lift (getProp E data "image") in
    if negb (truthy image) then throw (Error "ImageRouter model did not return an image.")
    else
      let! base64 := lift (getProp E image "base64") in
      if negb (truthy base64) then
        throw (Error "ImageRouter model did not return an image.")
      else
        let! payload := lift (toString E base64) in
        ret ("data:image/jpeg;base64," ++ payload).

(** Lines 207-220, the [catch] block. *)
Definition avatarCatch (error : JsError) : Eff string :=
  if String.eqb (errName error) "AbortError" then
    throw (Error "Image generation request timed out. Please try again.")
  else if includes (errMessage error) "environment variable" then throw error
  else throw (Error ("Failed to generate the character avatar: "
                       ++ sanitize (errMessage error) ++ ". Please try again.")).

(** Lines 160-221. *)
Definition generateAvatar (W : World) (E : Engine) (badge : value) : Eff string :=
  if invalidBadge badge then throw (Error invalidBadgeMessage)
  else tryCatch (requestImage W E badge) avatarCatch.

End OpenRouter.

(** ** services/geminiService.ts, the lookup variant (lines 320-390) *)

Module Lookup.

(** What [generateAvatar] hands back: a value, or a member that the
    image table inherits from [Object.prototype]. *)
Inductive AvatarRef : Type :=
| Ref (v : value)
| Inherited (key : string).

Definition cdn (path : string) : string :=
  "https://cdn.myanimelist.net/images/characters/" ++ path.

Definition characterImages : gmap string string :=
  list_to_map
    [("Naruto", cdn "2/284121.jpg"); ("Sasuke", cdn "9/131317.jpg");
     ("Kakashi", cdn "7/284129.jpg"); ("Sakura", cdn "9/69275.jpg");
     ("Itachi", cdn "9/284167.jpg"); ("Gaara", cdn "8/284139.jpg");
     ("Rock Lee", cdn "11/253723.jpg"); ("Neji", cdn "2/284133.jpg");
     ("Shikamaru", cdn "3/284135.jpg"); ("Hinata", cdn "5/284137.jpg");
     ("Tanjiro", cdn "15/271763.jpg"); ("Nezuko", cdn "3/271765.jpg");
     ("Zenitsu", cdn "7/271767.jpg"); ("Inosuke", cdn "9/271769.jpg");
     ("Giyu", cdn "11/271771.jpg"); ("Rengoku", cdn "13/271773.jpg");
     ("Shinobu", cdn "5/271775.jpg"); ("Mitsuri", cdn "7/271777.jpg");
     ("Obanai", cdn "9/271779.jpg"); ("Tengen", cdn "11/271781.jpg")].

Definition fallbackImages : gmap string string :=
  list_to_map
    [("Naruto", cdn "2/284121.jpg"); ("Demon Slayer", cdn "15/271763.jpg")].

(** Line 388 *)
Definition defaultImage : string := cdn "2/284121.jpg".

(** The properties of [Object.prototype], which an object literal
    inherits; all of them are truthy. *)
Definition objectPrototypeKeys : list string :=
  ["constructor"; "hasOwnProperty"; "isPrototypeOf"; "propertyIsEnumerable";
   "toLocaleString"; "toString"; "valueOf"; "__proto__";
   "__defineGetter__"; "__defineSetter__"; "__lookupGetter__"; "__lookupSetter__"].

(** [table[key]] on an object literal: an own property, else a member
    of [Object.prototype], else [undefined]. *)
Definition lookupMember (table : gmap string string) (key : string) : AvatarRef :=
  match table !! key with
  | Some image => Ref (VString image)
  | None =>
      if bool_decide (key ∈ objectPrototypeKeys) then Inherited key
      else Ref VUndefined
  end.

Definition refTruthy (r : AvatarRef) : bool :=
  match r with
  | Ref v => truthy v
  | Inherited _ => true
  end.

Definition isUnreserved (c : ascii) : bool :=
  let n := N_of_ascii c in
  ((65 <=? n) && (n <=? 90) || (97 <=? n) && (n <=? 122)
   || (48 <=? n) && (n <=? 57))%N
  || existsb (Ascii.eqb c) (str "-_.!~*'()").

Definition hexDigit (n : N) : ascii :=
  nth (N.to_nat n) (str "0123456789ABCDEF") "0"%char.

Definition percent (byte : N) : chars :=
  ["%"%char; hexDigit (byte / 16); hexDigit (byte mod 16)].

(** [encodeURIComponent], on code units below 256: the UTF-8 bytes of
    a character that is not unreserved are percent-encoded. *)
Definition encodeChar (c : ascii) : chars :=
  let n := N_of_ascii c in
  if isUnreserved c then [c]
  else if (n <? 128)%N then percent n
  else (percent (192 + n / 64) ++ percent (128 + n mod 64))%list.

Definition encodeURIComponent (s : string) : string :=
  unstr (flat_map encodeChar (str s)).

Definition searchRequest (query : string) : Request :=
  mkRequest ("https://api.jikan.moe/v4/characters?q=" ++ encodeURIComponent query
               ++ "&limit=1") None.

(** Lines 372-374: [data.data && data.data.length > 0 &&
    data.data[0].images?.jpg?.image_url], and the value returned. *)
Definition searchResult (E : Engine) (data : value) : Completion (option value) :=
  let? found := getProp E data "data" in
  if negb (truthy found) then Return None else
  let? len := getProp E found "length" in
  let? some := gtZero E len in
  if negb some then Return None else
  let? first := getIndex E found 0 in
  let? images := getProp E first "images" in
  let image_url := getOptional (getOptional images "jpg") "image_url" in
  if truthy image_url then Return (Some image_url) else Return None.

(** Line 346 *)
Definition invalidBadge (badge : value) : bool :=
  negb (truthy (getOptional badge "characterName"))
  || negb (truthy (getOptional badge "anime")).

(** The search call fails: the request is rejected, or the status of
    the response is not a success. *)
Definition searchFails (W : World) (req : Request) : Prop :=
  match fetch W req with
  | Rejected _ => True
  | Resolved r => ok r = false
  end.

(** Lines 351-382, the [try] block. *)
Definition resolveImage (W : World) (E : Engine) (badge : value) : Eff AvatarRef :=
  let! key := lift (toString E (readProp badge "characterName")) in
  let characterImage := lookupMember characterImages key in
  if refTruthy characterImage then ret characterImage
  else
    let! who := lift (toString E (readProp badge "characterName")) in
    let! series := lift (toString E (readProp badge "anime")) in
    let! response := awaitFetch W (searchRequest (who ++ " " ++ series)) in
    if negb (ok response) then
      throw (Error ("Jikan API error: " ++ natToString (status response)))
    else
      let! data := lift (json E response) in
      let! hit := lift (searchResult E data) in
      match hit with
      | Some image_url => ret (Ref image_url)
      | None =>
          let! seriesKey := lift (toString E (readProp badge "anime")) in
          let image := lookupMember fallbackImages seriesKey in
          if refTruthy image then ret image
          else ret (lookupMember fallbackImages "Naruto")
      end.

(** Lines 344-390. *)
Definition generateAvatar (W : World) (E : Engine) (badge : value) : Eff AvatarRef :=
  if invalidBadge badge then throw (Error invalidBadgeMessage)
  else tryCatch (resolveImage W E badge) (fun error => ret (Ref (VString defaultImage))).

End Lookup.

(** ** The colour pattern of the specification

    [^#[0-9A-Fa-f]{6}$], the pattern that the specification gives for
    [badgeColor].  The source has no code for it. *)

Definition isHexDigit (c : ascii) : bool :=
  let n := N_of_ascii c in
  ((48 <=? n) && (n <=? 57) || (65 <=? n) && (n <=? 70)
   || (97 <=? n) && (n <=? 102))%N.

Definition isHexColor (v : value) : bool :=
  match v with
  | VString (String "#" digits) =>
      Nat.eqb (String.length digits) 6 && forallb isHexDigit (str digits)
  | _ => false
  end.

(** ** Fixtures

    Concrete engines, worlds and texts for the examples. *)

Definition quoted (s : string) : string := dq ++ s ++ dq.

Definition field (k v : string) : string := quoted k ++ ":" ++ quoted v.

Definition escapeChar (c : ascii) : string :=
  if Ascii.eqb c (ascii_of_nat 34) then "\" ++ dq
  else if Ascii.eqb c "\"%char then "\\"
  else if Ascii.eqb c LF then "\n"
  else String c EmptyString.

(** A text as a JSON string literal. *)
Definition jsonString (s : string) : string :=
  quoted (String.concat "" (map escapeChar (str s))).

(** The body of a chat completion whose generated text is [content],
    and the value it parses to. *)
Definition chatBody (content : string) : string :=
  "{" ++ quoted "choices" ++ ":[{" ++ quoted "message" ++ ":{"
    ++ quoted "content" ++ ":" ++ jsonString content ++ "}}]}".

Definition chatData (content : string) : value :=
  VObject [("choices", VArray [VObject [("message",
     VObject [("content", VString content)])]])].

(** An engine that is given by what [JSON.parse] does on the texts of
    an example, with the messages of V8. *)
Definition scriptedEngine (script : list (string * ParseResult)) : Engine :=
  mkEngine
    (fun t =>
       match find (fun entry => String.eqb t (fst entry)) script with
       | Some entry => snd entry
       | None => SyntaxError "Unexpected end of JSON input"
       end)
    (fun v k =>
       match v with
       | VNull => "Cannot read properties of null (reading '" ++ k ++ "')"
       | VUndefined => "Cannot read properties of undefined (reading '" ++ k ++ "')"
       | _ => "data.choices[0].message.content." ++ k ++ " is not a function"
       end)
    (fun v => Return "[object Object]")
    (fun v => Return false).

(** A world with both keys set in which every request gets the same
    outcome. *)
Definition constantWorld (outcome : FetchOutcome) : World :=
  mkWorld (Some "sk-or-test") (Some "sk-ir-test") (fun _ => outcome) false.

Definition okResponse (bodyText : string) : Response :=
  mkResponse 200 "OK" (Return bodyText).

(** The profile of simple-test.ts, without its repositories. *)
Definition sampleUserProfile : UserProfile :=
  mkUserProfile
    (mkGithubUser "testuser" 12345 "https://github.com/testuser.png"
       "https://github.com/testuser" (Some "Test User")
       (Some "Full-stack developer passionate about TypeScript and React")
       25 150)
    [].

(** A generated text whose [badgeColor] is not a hexadecimal colour. *)
Definition redBadgeText : string :=
  "{" ++ field "characterName" "Naruto" ++ "," ++ field "anime" "Naruto" ++ ","
    ++ field "reason" "Never gives up" ++ "," ++ field "badgeColor" "red" ++ "}".

Definition redBadge : value :=
  VObject [("characterName", VString "Naruto"); ("anime", VString "Naruto");
           ("reason", VString "Never gives up"); ("badgeColor", VString "red")].

(** A generated text without [badgeColor]. *)
Definition noColorText : string :=
  "{" ++ field "characterName" "Test" ++ "," ++ field "anime" "Naruto" ++ ","
    ++ field "reason" "Ships often" ++ "}".

Definition noColorBadge : value :=
  VObject [("characterName", VString "Test"); ("anime", VString "Naruto");
           ("reason", VString "Ships often")].

(** The generated text of the invalid-JSON test of debug-test.ts, and
    the message of V8 for it. *)
Definition invalidJsonText : string := "Invalid JSON content".

Definition v8Message : string := "Unexpected token I in JSON at position 0".

(** The engine and the world of an exchange that generates [content],
    which parses to [result]. *)
Definition chatEngine (content : string) (result : ParseResult) : Engine :=
  scriptedEngine [(chatBody content, Parsed (chatData content)); (content, result)].

Definition chatWorld (content : string) : World :=
  constantWorld (Resolved (okResponse (chatBody content))).

(** The reply of GitHub to a client that is over its quota. *)
Definition quotaBody : string :=
  "{" ++ field "message" "API rate limit exceeded for 203.0.113.7." ++ "}".

Definition quotaResponse : Response := mkResponse 403 "rate limit exceeded" (Return quotaBody).

Definition notFoundResponse : Response :=
  mkResponse 404 "Not Found" (Return ("{" ++ field "message" "Not Found" ++ "}")).

Definition networkError : JsError := mkError "TypeError" "Failed to fetch".

Definition plainEngine : Engine := scriptedEngine [].

(** A world in which the user request is answered with 404 and the
    repositories request is rejected. *)
Definition userMissingReposDown (username : string) : World :=
  mkWorld None None
    (fun req => if String.eqb (url req) (url (userRequest username))
                then Resolved notFoundResponse else Rejected networkError)
    false.

(** ** Further fixtures *)

(** The body of a user reply, and the value it parses to. *)
Definition userBodyText : string :=
  "{" ++ field "login" "octocat" ++ "}".

Definition userBodyValue : value := VObject [("login", VString "octocat")].

(** ** Further definitions *)

(** Line 116, the message of the error for a reply that is not a
    success. *)
Definition upstreamMessage (response : Response) (errorText : string) : string :=
  "OpenRouter API error: " ++ natToString (status response) ++ " "
    ++ statusText response ++ " - " ++ errorText.

(** The fence step without a regular expression: what is between an
    opening fence, with the label [json] when it is there, and a
    closing fence that does not overlap it. *)
Definition fencedBody (text : chars) : option chars :=
  if startsWithChars fence text then
    let afterOpen := skipn 3 text in
    let afterLabel :=
      if startsWithChars (str "json") afterOpen then skipn 4 afterOpen
      else afterOpen in
    if startsWithChars (rev fence) (rev afterLabel)
    then Some (firstn (List.length afterLabel - 3) afterLabel)
    else None
  else None.

(** The text is replaced by the body without the whitespace at its
    ends, unless there is no fence or nothing is left of the body. *)
Definition unwrapDirect (jsonStr : string) : string :=
  match fencedBody (str jsonStr) with
  | Some inner =>
      match trimChars inner with
      | [] => jsonStr
      | c :: core => unstr (c :: core)
      end
  | None => jsonStr
  end.

(** The body of a search reply with one result, and the value it
    parses to. *)
Definition searchBodyText : string :=
  "{" ++ quoted "data" ++ ":[{" ++ quoted "images" ++ ":{" ++ quoted "jpg" ++ ":{"
    ++ field "image_url" "https://cdn.example/muzan.jpg" ++ "}}}]}".

Definition searchBodyValue : value :=
  VObject [("data", VArray [VObject [("images",
     VObject [("jpg", VObject [("image_url", VString "https://cdn.example/muzan.jpg")])])]])].

(** The body of an image reply, and the value it parses to. *)
Definition imageBodyText : string :=
  "{" ++ quoted "image" ++ ":{" ++ field "base64" "QUJD" ++ "}}".

Definition imageBodyValue : value :=
  VObject [("image", VObject [("base64", VString "QUJD")])].

Definition dataUrlPrefix : string := "data:image/jpeg;base64,".

Definition noImageMessage : string := "ImageRouter model did not return an image.".

Definition avatarFailurePrefix : string := "Failed to generate the character avatar: ".

Definition avatarTimedOutMessage : string :=
  "Image generation request timed out. Please try again.".

(** The errors that leave the image-generation [generateAvatar] for a
    badge that passed line 162: the timeout, a configuration error, and
    the wrapped failure. *)
Definition avatarError (e : JsError) : Prop :=
  e = Error avatarTimedOutMessage
  \/ includes (errMessage e) "environment variable" = true
  \/ exists m, e = Error (avatarFailurePrefix ++ m ++ ". Please try again.").

(** ** generateUserPrompt

    [JSON.stringify] is a parameter: the prompt is the text around the
    serialized summary, and the summary is built as the object the
    source builds. *)

Definition optionalString (o : option string) : value :=
  match o with
  | Some s => VString s
  | None => VNull
  end.

(** A count of the profile as a number. *)
Definition numberOf (z : Z) : value := VNumber (Finite (z <? 0)%Z (Z.abs_N z) 0).

(** [text.slice(0, n)] *)
Definition sliceTo (n : nat) (s : string) : string := unstr (firstn n (str s)).

(** The OpenRouter variant, lines 26-70. *)
Module Prompt.

(** Lines 28-35, one repository. *)
Definition repoSummary (repo : GithubRepo) : value :=
  VObject [("name", VString (repo_name repo));
           ("description", optionalString (description repo));
           ("language", optionalString (language repo));
           ("stars", numberOf (stargazers_count repo));
           ("forks", numberOf (forks_count repo));
           ("topics", VArray (map VString (firstn 3 (topics repo))))].

(** Lines 37-42 *)
Definition userSummary (profile : UserProfile) : value :=
  VObject [("name", optionalString (name (user profile)));
           ("login", VString (login (user profile)));
           ("bio", optionalString (bio (user profile)));
           ("top_repos", VArray (map repoSummary (repos profile)))].

(** Lines 44-69: the text of the prompt before and after the summary. *)
Definition openRouterPromptHead : string :=
  String.concat nl
    ["";
     "    You are an expert GitHub profile analyst with a deep love for anime, specifically Naruto and Demon Slayer. Your task is to analyze the provided GitHub user's profile and their top repositories to assign them a character from either Naruto or Demon Slayer that best represents their coding style, impact, and overall persona.";
     "";
     "    Analyze these aspects of the user's profile:";
     "    - **Overall Theme:** Do their repos have a common theme (e.g., building foundational tools, creating beautiful UIs, data science, system-level programming)?";
     "    - **Primary Languages:** What do their most-used languages say about them (e.g., Rust for safety, Python for versatility, C for performance)?";
     "    - **Impact (Stars/Forks):** Is this user highly influential like a Kage or a Hashira, creating projects that many others rely on? Or are they a specialist with niche but powerful skills?";
     "    - **Bio/Persona:** Does their bio give any clues to their personality?";
     "";
     "    Based on your holistic analysis, choose a single character. Be creative and insightful.";
     "";
     "    **User Profile Data:**";
     "    ```json";
     "    "].

Definition openRouterPromptTail : string :=
  String.concat nl
    ["";
     "    ```";
     "";
     "    **Your output MUST be a single, valid JSON object with NO markdown formatting, matching this exact structure:**";
     "    ```json";
     "    {";
     "      " ++ dq ++ "characterName" ++ dq ++ ": " ++ dq ++ "string" ++ dq ++ ",";
     "      " ++ dq ++ "anime" ++ dq ++ ": " ++ dq ++ "Naruto" ++ dq ++ " | " ++ dq ++ "Demon Slayer" ++ dq ++ ",";
     "      " ++ dq ++ "reason" ++ dq ++ ": " ++ dq ++ "string (A creative, short explanation for your choice, max 2-3 sentences, explaining the connection to their code/profile)" ++ dq ++ ",";
     "      " ++ dq ++ "badgeColor" ++ dq ++ ": " ++ dq ++ "string (A hex color code that represents the character, e.g., '#FF7F00' for Naruto, '#107C80' for Tanjiro)" ++ dq;
     "    }";
     "    ```";
     "  "].

Definition generateUserPrompt (stringify : value -> string) (profile : UserProfile)
    : string :=
  openRouterPromptHead ++ stringify (userSummary profile) ++ openRouterPromptTail.

End Prompt.

(** ** services/geminiService.ts, the Gemini variant (lines 222-318) *)

Module Gemini.

(** What the SDK does: for a key and a prompt, the text of the
    response, or what [generateContent], [result.response] or
    [response.text()] throws. *)
Record Service : Type := mkService {
  GEMINI_API_KEY : option string;
  generateContent : string -> string -> Completion string
}.

Definition getGeminiKey (G : Service) : Completion string :=
  envKey (GEMINI_API_KEY G) "GEMINI_API_KEY".

(** Lines 240-244, one of the first three repositories. *)
Definition repoSummary (repo : GithubRepo) : value :=
  VObject [("name", VString (repo_name repo));
           ("lang", optionalString (language repo));
           ("stars", numberOf (stargazers_count repo))].

(** [profile.user.name || profile.user.login] *)
Definition displayName (u : GithubUser) : string :=
  match name u with
  | Some n => if String.eqb n "" then login u else n
  | None => login u
  end.

(** [profile.user.bio?.slice(0, 100) || ''] *)
Definition shortBio (u : GithubUser) : string :=
  match bio u with
  | Some b => sliceTo 100 b
  | None => ""
  end.

(** Lines 246-250 *)
Definition userSummary (profile : UserProfile) : value :=
  VObject [("name", VString (displayName (user profile)));
           ("bio", VString (shortBio (user profile)));
           ("repos", VArray (map repoSummary (firstn 3 (repos profile))))].

(** Lines 252-267: the text of the prompt before and after the summary. *)
Definition geminiPromptHead : string :=
  String.concat nl
    ["Analyze this GitHub user and assign them a Naruto or Demon Slayer character:";
     "";
     "User: "].

Definition geminiPromptTail : string :=
  String.concat nl
    ["";
     "";
     "Consider:";
     "- Coding style from languages/repos";
     "- Impact from stars";
     "- Bio personality";
     "";
     "Return JSON:";
     "{";
     "  " ++ dq ++ "characterName" ++ dq ++ ": " ++ dq ++ "string" ++ dq ++ ",";
     "  " ++ dq ++ "anime" ++ dq ++ ": " ++ dq ++ "Naruto" ++ dq ++ " | " ++ dq ++ "Demon Slayer" ++ dq ++ ",";
     "  " ++ dq ++ "reason" ++ dq ++ ": " ++ dq ++ "string (2 sentences max)" ++ dq ++ ",";
     "  " ++ dq ++ "badgeColor" ++ dq ++ ": " ++ dq ++ "string (hex color)" ++ dq;
     "}"].

Definition generateUserPrompt (stringify : value -> string) (profile : UserProfile)
    : string :=
  geminiPromptHead ++ stringify (userSummary profile) ++ geminiPromptTail.

Definition badgeFailurePrefix : string := "Failed to get anime badge from Gemini: ".

(** Lines 296-302, [JSON.parse] and the check of the four fields. *)
Definition parseBadge (E : Engine) (jsonStr : string) : Completion value :=
  match JSON_parse E jsonStr with
  | SyntaxError m => Throw (mkError "SyntaxError" m)
  | Parsed parsedData =>
      let? badgeName := getProp E parsedData "characterName" in
      if negb (truthy badgeName) then Throw (Error OpenRouter.missingFieldsMessage) else
      let? series := getProp E parsedData "anime" in
      if negb (truthy series) then Throw (Error OpenRouter.missingFieldsMessage) else
      let? why := getProp E parsedData "reason" in
      if negb (truthy why) then Throw (Error OpenRouter.missingFieldsMessage) else
      let? color := getProp E parsedData "badgeColor" in
      if negb (truthy color) then Throw (Error OpenRouter.missingFieldsMessage) else
      Return parsedData
  end.

(** Lines 304-317, the [catch] block. *)
Definition badgeCatch (error : JsError) : Completion value :=
  if includes (errMessage error) "JSON.parse" then
    Throw (Error OpenRouter.invalidResponseMessage)
  else if includes (errMessage error) "environment variable" then Throw error
  else Throw (Error (badgeFailurePrefix ++ sanitize (errMessage error))).

(** Lines 277-302, the [try] block. *)
Definition requestBadge (G : Service) (E : Engine) (stringify : value -> string)
    (profileData : UserProfile) : Completion value :=
  let prompt := generateUserPrompt stringify profileData in
  let? key := getGeminiKey G in
  let? generated := generateContent G key prompt in
  parseBadge E (trim generated).

(** Lines 270-318. *)
Definition getAnimeBadge (G : Service) (E : Engine) (stringify : value -> string)
    (profileData : UserProfile) : Completion value :=
  if negb (OpenRouter.validProfile profileData) then
    Throw (Error "Invalid profile data provided")
  else
    match requestBadge G E stringify profileData with
    | Return badge => Return badge
    | Throw error => badgeCatch error
    end.

End Gemini.

(** A service with a key that answers every prompt with the same
    outcome, and a serializer for the examples, which do not look at
    the prompt. *)
Definition constantService (outcome : Completion string) : Gemini.Service :=
  Gemini.mkService (Some "gm-test") (fun _ _ => outcome).

Definition noStringify (v : value) : string := "{}".

(** The characters that [encodeURIComponent] can give: the unreserved
    ones, which include the digits and the letters of a hexadecimal
    byte, and the percent sign. *)
Definition isUrlSafe (c : ascii) : bool := Lookup.isUnreserved c || Ascii.eqb c "%".

(** The profile of simple-test.ts with its two repositories. *)
Definition sampleRepos : list GithubRepo :=
  [mkGithubRepo 1 "awesome-react-app" "testuser/awesome-react-app"
     (Some "A modern React application with TypeScript") 45 12 (Some "TypeScript")
     "https://github.com/testuser/awesome-react-app"
     ["react"; "typescript"; "frontend"];
   mkGithubRepo 2 "node-api-server" "testuser/node-api-server"
     (Some "RESTful API server built with Node.js and Express") 23 8 (Some "JavaScript")
     "https://github.com/testuser/node-api-server"
     ["nodejs"; "express"; "api"]].


(** ** services/githubService.ts, the Gemini variant with the larger
    summary (lines 154-263) *)

Module Enhanced.

(** [text?.slice(0, n) || ''] *)
Definition shortText (n : nat) (o : option string) : string :=
  match o with
  | Some s => sliceTo n s
  | None => ""
  end.

(** Lines 171-178, one repository. *)
Definition repoSummary (repo : GithubRepo) : value :=
  VObject [("name", VString (repo_name repo));
           ("description", VString (shortText 80 (description repo)));
           ("language", optionalString (language repo));
           ("stars", numberOf (stargazers_count repo));
           ("forks", numberOf (forks_count repo));
           ("topics", VArray (map VString (firstn 2 (topics repo))))].

(** [.filter(Boolean)] on the languages: [null] and the empty string
    go. *)
Definition truthyLanguages (l : list GithubRepo) : list string :=
  flat_map (fun repo => match language repo with
                        | Some s => if String.eqb s "" then [] else [s]
                        | None => []
                        end) l.

(** [[...new Set(list)]]: the first occurrence of each element, in
    order. *)
Fixpoint distinctFrom (seen l : list string) : list string :=
  match l with
  | [] => []
  | x :: l' =>
      if existsb (String.eqb x) seen then distinctFrom seen l'
      else x :: distinctFrom (x :: seen) l'
  end.

Definition languages (profile : UserProfile) : list string :=
  distinctFrom [] (truthyLanguages (repos profile)).

(** [topRepos.reduce((sum, repo) => sum + repo.stars, 0)]; [plus] is
    the addition of the engine on numbers, which rounds the sum to a
    double. *)
Definition totalStars (plus : value -> value -> value) (profile : UserProfile) : value :=
  fold_left (fun sum repo => plus sum (numberOf (stargazers_count repo)))
            (repos profile) (numberOf 0).

(** Lines 180-187 *)
Definition userSummary (plus : value -> value -> value) (profile : UserProfile) : value :=
  VObject [("name", VString (Gemini.displayName (user profile)));
           ("login", VString (login (user profile)));
           ("bio", VString (shortText 120 (bio (user profile))));
           ("repos", VArray (map repoSummary (repos profile)));
           ("totalStars", totalStars plus profile);
           ("languages", VArray (map VString (languages profile)))].

(** Lines 189-212: the text of the prompt before and after the
    summary. *)
Definition promptHead : string :=
  String.concat nl
    ["You are an expert GitHub profile analyst with a deep love for anime, specifically Naruto and Demon Slayer. Your task is to analyze the provided GitHub user's profile and their top repositories to assign them a character from either Naruto or Demon Slayer that best represents their coding style, impact, and overall persona.";
     "";
     "    Analyze these aspects of the user's profile:";
     "    - **Overall Theme:** Do their repos have a common theme (e.g., building foundational tools, creating beautiful UIs, data science, system-level programming)?";
     "    - **Primary Languages:** What do their most-used languages say about them (e.g., Rust for safety, Python for versatility, C for performance)?";
     "    - **Impact (Stars/Forks):** Is this user highly influential like a Kage or a Hashira, creating projects that many others rely on? Or are they a specialist with niche but powerful skills?";
     "    - **Bio/Persona:** Does their bio give any clues to their personality?";
     "";
     "    Based on your holistic analysis, choose a single character. Be creative and insightful.";
     "";
     "    **User Profile Data:**";
     "    ```json";
     "    "].

Definition promptTail : string :=
  String.concat nl
    ["";
     "    ```";
     "";
     "    **Your output MUST be a single, valid JSON object with NO markdown formatting, matching this exact structure:**";
     "    ```json";
     "    {";
     "      " ++ dq ++ "characterName" ++ dq ++ ": " ++ dq ++ "string" ++ dq ++ ",";
     "      " ++ dq ++ "anime" ++ dq ++ ": " ++ dq ++ "Naruto" ++ dq ++ " | " ++ dq ++ "Demon Slayer" ++ dq ++ ",";
     "      " ++ dq ++ "reason" ++ dq ++ ": " ++ dq ++ "string (A creative, short explanation for your choice, max 2-3 sentences, explaining the connection to their code/profile)" ++ dq ++ ",";
     "      " ++ dq ++ "badgeColor" ++ dq ++ ": " ++ dq ++ "string (A hex color code that represents the character, e.g., '#FF7F00' for Naruto, '#107C80' for Tanjiro)" ++ dq;
     "    }";
     "    ```"].

Definition generateUserPrompt (plus : value -> value -> value)
    (stringify : value -> string) (profile : UserProfile) : string :=
  promptHead ++ stringify (userSummary plus profile) ++ promptTail.

End Enhanced.

Local Open Scope list_scope.

(** * Properties *)

(** ** Strings *)

Lemma str_unstr (l : chars) : str (unstr l) = l.
Proof. apply list_ascii_of_string_of_list_ascii. Qed.

Lemma unstr_str (s : string) : unstr (str s) = s.
Proof. apply string_of_list_ascii_of_string. Qed.

Lemma str_app (a b : string) : str (a ++ b) = str a ++ str b.
Proof. induction a as [|c a IH]; simpl; [reflexivity|]. now rewrite <- IH. Qed.

Lemma str_inj (a b : string) : str a = str b -> a = b.
Proof. intros H. rewrite <- (unstr_str a), <- (unstr_str b). now rewrite H. Qed.

Lemma startsWithChars_app (pre l : chars) : startsWithChars pre (pre ++ l) = true.
Proof.
  induction pre as [|c pre IH]; simpl; [reflexivity|].
  now rewrite Ascii.eqb_refl, IH.
Qed.

Lemma startsWithChars_inv (pre l : chars) :
  startsWithChars pre l = true -> exists l', l = pre ++ l'.
Proof.
  revert l. induction pre as [|c pre IH]; intros l H; simpl in *.
  - now exists l.
  - destruct l as [|d l]; [discriminate|].
    apply andb_prop in H as [Hc Hl]. apply Ascii.eqb_eq in Hc. subst d.
    destruct (IH _ Hl) as [l' ->]. now exists l'.
Qed.

(** ** Whitespace and [trim] *)

Lemma allWhite_app (a b : chars) : allWhite a -> allWhite b -> allWhite (a ++ b).
Proof. unfold allWhite. intros Ha Hb. now rewrite forallb_app, Ha, Hb. Qed.

Lemma trimStart_split (l : chars) :
  exists w, allWhite w /\ l = w ++ trimStartChars l /\
    (trimStartChars l = [] \/
     exists c l', trimStartChars l = c :: l' /\ isWhiteSpace c = false).
Proof.
  induction l as [|c l IH]; simpl.
  - exists []. repeat split; auto.
  - destruct (isWhiteSpace c) eqn:E.
    + destruct IH as (w & Hw & Hl & Hc). exists (c :: w). repeat split.
      * unfold allWhite in *. simpl. now rewrite E, Hw.
      * simpl. now rewrite <- Hl.
      * exact Hc.
    + exists []. repeat split; auto. right. now exists c, l.
Qed.

Lemma trimStart_keeps_last (l l' : chars) (c : ascii) :
  isWhiteSpace c = false -> l = l' ++ [c] ->
  exists l'', trimStartChars l = l'' ++ [c].
Proof.
  intros Hc. revert l. induction l' as [|d l' IH]; intros l ->; simpl.
  - rewrite Hc. now exists [].
  - destruct (isWhiteSpace d).
    + now apply IH.
    + now exists (d :: l').
Qed.

Lemma trimStart_id (c : ascii) (l : chars) :
  isWhiteSpace c = false -> trimStartChars (c :: l) = c :: l.
Proof. intros H. simpl. now rewrite H. Qed.

Lemma trimChars_split (l : chars) :
  exists w1 w2, allWhite w1 /\ allWhite w2 /\ l = w1 ++ trimChars l ++ w2 /\
    (trimChars l = [] \/ trimmed (trimChars l)).
Proof.
  destruct (trimStart_split l) as (w1 & Hw1 & Hl & Hhead).
  unfold trimChars, trimEndChars.
  set (m := trimStartChars l) in *.
  destruct (trimStart_split (rev m)) as (w2 & Hw2 & Hm & Hlast).
  set (e := trimStartChars (rev m)) in *.
  assert (Hm' : m = rev e ++ rev w2).
  { rewrite <- rev_app_distr, <- Hm. now rewrite rev_involutive. }
  exists w1, (rev w2). repeat split.
  - exact Hw1.
  - unfold allWhite in *. rewrite forallb_forall in *. intros x Hx.
    apply Hw2. now apply in_rev.
  - now rewrite <- Hm'.
  - destruct Hlast as [He | (c & e' & He & Hc)]; [left; now rewrite He|].
    right. split.
    + destruct Hhead as [Hnil | (d & m' & Hd & Hdw)].
      * rewrite Hnil, He in Hm. destruct w2; discriminate.
      * rewrite Hm' in Hd. destruct (rev e) as [|x re] eqn:Ere.
        -- apply (f_equal (@rev ascii)) in Ere. rewrite rev_involutive in Ere.
           rewrite He in Ere. discriminate.
        -- simpl in Hd. injection Hd as Hx _. subst x. now exists d, re.
    + rewrite He. simpl. now exists (rev e'), c.
Qed.

Lemma trimChars_trimmed (l : chars) : trimmed l -> trimChars l = l.
Proof.
  intros [(c & l1 & H1 & Hc) (l2 & d & H2 & Hd)].
  unfold trimChars, trimEndChars.
  rewrite H1, (trimStart_id _ _ Hc), <- H1, H2, rev_app_distr. simpl.
  rewrite Hd. simpl. now rewrite rev_involutive.
Qed.

(** ** The matcher *)

Lemma oneChar_sound (p : ascii -> bool) (k : Continuation) (x y : MatchState) :
  oneChar p k x = Some y ->
  exists c s', rest x = c :: s' /\ p c = true /\
    k (mkState (S (endIndex x)) s' (capture1 x)) = Some y.
Proof.
  unfold oneChar. destruct (rest x) as [|c s']; [discriminate|].
  destruct (p c) eqn:E; [|discriminate]. intros H. now exists c, s'.
Qed.

Lemma greedyStar_sound (p : ascii -> bool) (k : Continuation) (s : chars) :
  forall i cap y, greedyStar p k i s cap = Some y ->
  exists a s', s = a ++ s' /\ forallb p a = true /\
    k (mkState (i + List.length a) s' cap) = Some y.
Proof.
  induction s as [|c s IH]; intros i cap y H; simpl in H.
  - exists [], []. rewrite Nat.add_0_r. auto.
  - destruct (p c) eqn:E.
    + destruct (greedyStar p k (S i) s cap) as [y0|] eqn:G.
      * injection H as ->. destruct (IH _ _ _ G) as (a & s' & -> & Ha & Hk).
        exists (c :: a), s'. simpl. rewrite E, Ha.
        replace (i + S (List.length a)) with (S i + List.length a) by lia. auto.
      * exists [], (c :: s). rewrite Nat.add_0_r. auto.
    + exists [], (c :: s). rewrite Nat.add_0_r. auto.
Qed.

Lemma lazyStar_sound (p : ascii -> bool) (k : Continuation) (s : chars) :
  forall i cap y, lazyStar p k i s cap = Some y ->
  exists a s', s = a ++ s' /\ forallb p a = true /\
    k (mkState (i + List.length a) s' cap) = Some y.
Proof.
  induction s as [|c s IH]; intros i cap y H; simpl in H.
  - destruct (k (mkState i [] cap)) eqn:K; [|discriminate].
    exists [], []. rewrite Nat.add_0_r. simpl. now rewrite K.
  - destruct (k (mkState i (c :: s) cap)) eqn:K.
    + exists [], (c :: s). rewrite Nat.add_0_r. simpl. now rewrite K.
    + destruct (p c) eqn:E; [|discriminate].
      destruct (IH _ _ _ H) as (a & s' & -> & Ha & Hk).
      exists (c :: a), s'. simpl. rewrite E, Ha.
      replace (i + S (List.length a)) with (S i + List.length a) by lia. auto.
Qed.

(** A successful matcher consumed a prefix of the input, and the
    continuation succeeded on the rest. *)
Lemma run_sound (r : regex) :
  forall k x y, run r k x = Some y ->
  exists a x', rest x = a ++ rest x' /\
    endIndex x' = endIndex x + List.length a /\ k x' = Some y.
Proof.
  induction r; intros k x y H; simpl in H.
  - exists [], x. rewrite Nat.add_0_r. auto.
  - apply oneChar_sound in H as (d & s' & Hr & _ & Hk).
    exists [d], (mkState (S (endIndex x)) s' (capture1 x)).
    split; [exact Hr|]. split; [simpl; lia | exact Hk].
  - apply oneChar_sound in H as (d & s' & Hr & _ & Hk).
    exists [d], (mkState (S (endIndex x)) s' (capture1 x)).
    split; [exact Hr|]. split; [simpl; lia | exact Hk].
  - apply IHr1 in H as (a1 & x1 & Hr1 & Hi1 & H).
    apply IHr2 in H as (a2 & x2 & Hr2 & Hi2 & H).
    exists (a1 ++ a2), x2. rewrite Hr1, Hr2, <- app_assoc, length_app.
    split; [reflexivity|]. split; [lia | exact H].
  - destruct (run r k x) as [y0|] eqn:E.
    + injection H as ->. now apply IHr.
    + exists [], x. rewrite Nat.add_0_r. auto.
  - apply greedyStar_sound in H as (a & s' & Hs & _ & Hk).
    exists a, (mkState (endIndex x + List.length a) s' (capture1 x)).
    split; [exact Hs|]. split; [reflexivity | exact Hk].
  - apply lazyStar_sound in H as (a & s' & Hs & _ & Hk).
    exists a, (mkState (endIndex x + List.length a) s' (capture1 x)).
    split; [exact Hs|]. split; [reflexivity | exact Hk].
  - apply oneChar_sound in H as (d & s' & Hr & _ & Hk). simpl in Hk.
    apply greedyStar_sound in Hk as (a & s'' & Hs & _ & Hk).
    exists (d :: a), (mkState (S (endIndex x) + List.length a) s'' (capture1 x)).
    split; [rewrite Hr, Hs; reflexivity|].
    split; [|exact Hk]. simpl. lia.
  - apply IHr in H as (a & x1 & Hr & Hi & Hk).
    exists a, (mkState (endIndex x1) (rest x1)
                 (Some (firstn (endIndex x1 - endIndex x) (rest x)))).
    split; [exact Hr|]. split; [exact Hi | exact Hk].
  - destruct (Nat.eqb (endIndex x) 0); [|discriminate].
    exists [], x. rewrite Nat.add_0_r. auto.
  - destruct (rest x) eqn:E; [|discriminate].
    exists [], x. rewrite Nat.add_0_r, E. auto.
Qed.

Lemma run_lit_sound (l : chars) :
  forall k x y, run (lit l) k x = Some y ->
  exists s', rest x = l ++ s' /\
    k (mkState (endIndex x + List.length l) s' (capture1 x)) = Some y.
Proof.
  induction l as [|c l IH]; intros k x y H; simpl in H.
  - exists (rest x). rewrite Nat.add_0_r. destruct x. auto.
  - apply oneChar_sound in H as (d & s' & Hr & Hd & Hk).
    apply Ascii.eqb_eq in Hd. subst d.
    apply IH in Hk as (s'' & Hs & Hk). simpl in *. subst s'.
    exists s''. split; [exact Hr|].
    now replace (endIndex x + S (List.length l))
      with (S (endIndex x) + List.length l) by lia.
Qed.

Lemma run_lit_app (l : chars) :
  forall k i s cap,
  run (lit l) k (mkState i (l ++ s) cap) = k (mkState (i + List.length l) s cap).
Proof.
  induction l as [|c l IH]; intros k i s cap; simpl.
  - now rewrite Nat.add_0_r.
  - unfold oneChar. simpl. rewrite Ascii.eqb_refl, IH.
    now replace (S i + List.length l) with (i + S (List.length l)) by lia.
Qed.

Lemma greedyStar_skip (p : ascii -> bool) (k : Continuation) (w : chars) :
  forall i s cap y,
  forallb p w = true ->
  match s with c :: _ => p c = false | [] => True end ->
  k (mkState (i + List.length w) s cap) = Some y ->
  greedyStar p k i (w ++ s) cap = Some y.
Proof.
  induction w as [|c w IH]; intros i s cap y Hw Hs Hk; simpl in *.
  - rewrite Nat.add_0_r in Hk. destruct s as [|d s]; simpl; [exact Hk|].
    now rewrite Hs.
  - apply andb_prop in Hw as [Hc Hw]. rewrite Hc.
    rewrite (IH (S i) s cap y Hw Hs); [reflexivity|].
    now replace (S i + List.length w) with (i + S (List.length w)) by lia.
Qed.

Lemma lazyStar_first (k : Continuation) (a : chars) :
  forall i u cap y,
  k (mkState (i + List.length a) u cap) = Some y ->
  (forall a1 c a2, a = a1 ++ c :: a2 ->
     k (mkState (i + List.length a1) (c :: a2 ++ u) cap) = None) ->
  lazyStar anyChar k i (a ++ u) cap = Some y.
Proof.
  induction a as [|c a IH]; intros i u cap y Hk Hnone; simpl in *.
  - rewrite Nat.add_0_r in Hk. destruct u; simpl; now rewrite Hk.
  - pose proof (Hnone [] c a eq_refl) as H0. simpl in H0.
    rewrite Nat.add_0_r in H0. rewrite H0.
    apply IH.
    + now replace (S i + List.length a) with (i + S (List.length a)) by lia.
    + intros a1 d a2 ->.
      specialize (Hnone (c :: a1) d a2 eq_refl). simpl in Hnone.
      now replace (S i + List.length a1) with (i + S (List.length a1)) by lia.
Qed.

(** [replaceFrom] visits each start index at most once, so any fuel
    above the length of the text gives the same result. *)
Lemma replaceFrom_fuel (r : regex) (repl : chars) (n : nat) :
  forall s i fuel1 fuel2,
  List.length s <= n -> List.length s < fuel1 -> List.length s < fuel2 ->
  replaceFrom fuel1 r repl i s = replaceFrom fuel2 r repl i s.
Proof.
  induction n as [|n IH]; intros s i fuel1 fuel2 Hn H1 H2;
    (destruct fuel1 as [|fuel1]; [lia|]); (destruct fuel2 as [|fuel2]; [lia|]);
    cbn [replaceFrom].
  - destruct s; [|simpl in Hn; lia].
    destruct (matchAt r i []) as [y|] eqn:Hy; [|reflexivity].
    destruct (Nat.eqb (endIndex y) i) eqn:He; [reflexivity|].
    apply run_sound in Hy as (a & x' & Hr & Hi & Hk). injection Hk as <-.
    cbn [rest endIndex] in *. destruct a; [|discriminate].
    apply Nat.eqb_neq in He. simpl in Hi. lia.
  - destruct (matchAt r i s) as [y|] eqn:Hy.
    + apply run_sound in Hy as (a & x' & Hr & Hi & Hk). injection Hk as <-.
      cbn [rest endIndex] in *.
      destruct (Nat.eqb (endIndex x') i) eqn:He.
      * destruct s as [|c s]; [reflexivity|]. simpl in *.
        f_equal. f_equal. apply IH; lia.
      * apply Nat.eqb_neq in He. f_equal.
        assert (List.length (rest x') < List.length s).
        { rewrite Hr, length_app. destruct a; simpl in *; lia. }
        apply IH; lia.
    + destruct s as [|c s]; [reflexivity|]. simpl in *. f_equal. apply IH; lia.
Qed.

(** ** The fence pattern *)

(** Expose the first matcher of a sequence, with the matcher of the
    rest as its continuation. *)
Ltac seq_step :=
  change (run (Seq ?r1 ?r2) ?k ?x) with (run r1 (run r2 k) x).

Ltac seq_step_in H :=
  change (run (Seq ?r1 ?r2) ?k ?x) with (run r1 (run r2 k) x) in H.

Lemma fence_after_white (k : Continuation) (w : chars) (i : nat)
    (cap : option chars) (y : MatchState) :
  allWhite w ->
  k (mkState (i + List.length w + 3) [] cap) = Some y ->
  run (Seq (Star isWhiteSpace) (Seq (lit fence) Eol)) k
    (mkState i (w ++ fence) cap) = Some y.
Proof.
  intros Hw Hk. cbn [run endIndex rest capture1].
  apply greedyStar_skip; [exact Hw | reflexivity |].
  replace fence with (fence ++ []) by apply app_nil_r.
  rewrite run_lit_app. exact Hk.
Qed.

Lemma fenceTail_ok (k : Continuation) (w : chars) (i : nat)
    (cap : option chars) (y : MatchState) :
  allWhite w ->
  k (mkState (i + List.length w + 3) [] cap) = Some y ->
  run fenceTail k (mkState i (w ++ fence) cap) = Some y.
Proof.
  intros Hw Hk. unfold fenceTail.
  seq_step.
  cbn [run].
  pose proof (fence_after_white k w i cap y Hw Hk) as Hdirect.
  destruct (oneChar (Ascii.eqb LF) _ _) as [y0|] eqn:E; [|exact Hdirect].
  apply oneChar_sound in E as (c & s' & Hr & Hc & Hy0).
  cbn [endIndex rest capture1] in *.
  destruct w as [|d w']; simpl in Hr.
  - injection Hr as <- _. discriminate.
  - injection Hr as -> <-.
    unfold allWhite in Hw. simpl in Hw. apply andb_prop in Hw as [_ Hw'].
    assert (Hy : run (Seq (Star isWhiteSpace) (Seq (lit fence) Eol)) k
                   (mkState (S i) (w' ++ fence) cap) = Some y).
    { apply fence_after_white; [exact Hw'|]. simpl in Hk.
      now replace (S i + List.length w' + 3)
        with (i + S (List.length w') + 3) by lia. }
    cbn [run endIndex rest capture1] in Hy, Hy0. congruence.
Qed.

Lemma fenceTail_sound (k : Continuation) (x y : MatchState) :
  run fenceTail k x = Some y ->
  exists w, allWhite w /\ rest x = w ++ fence.
Proof.
  assert (Hrest : forall x', run (Seq (Star isWhiteSpace) (Seq (lit fence) Eol)) k x'
                    = Some y -> exists w, allWhite w /\ rest x' = w ++ fence).
  { intros x' H. cbn [run] in H.
    apply greedyStar_sound in H as (a & s' & Hs & Ha & H).
    apply run_lit_sound in H as (s'' & Hs' & H). cbn [run rest] in *.
    destruct s''; [|discriminate]. exists a. split; [exact Ha|].
    rewrite Hs, Hs'. now rewrite app_nil_r. }
  unfold fenceTail.
  seq_step.
  cbn [run]. destruct (oneChar (Ascii.eqb LF) _ _) as [y0|] eqn:E.
  - intros Hy. injection Hy as ->.
    apply oneChar_sound in E as (c & s' & Hr & Hc & Hy).
    apply Ascii.eqb_eq in Hc. subst c.
    apply Hrest in Hy as (w & Hw & Hs). cbn [rest] in Hs. subst s'.
    exists (LF :: w). split; [|exact Hr].
    unfold allWhite in *. simpl. exact Hw.
  - apply Hrest.
Qed.

Lemma last_of_suffix (a1 a2 l : chars) (c d : ascii) :
  a1 ++ c :: a2 = l ++ [d] -> exists l', c :: a2 = l' ++ [d].
Proof.
  intros H. destruct (exists_last (l := c :: a2)) as (l' & e & He); [discriminate|].
  exists l'. rewrite He in H. rewrite app_assoc in H.
  apply app_inj_tail in H as [_ ->]. exact He.
Qed.

Lemma fenceTail_none (k : Continuation) (i : nat) (cap : option chars)
    (a w2 : chars) (d : ascii) :
  isWhiteSpace d = false ->
  run fenceTail k (mkState i ((a ++ [d]) ++ w2 ++ LF :: fence) cap) = None.
Proof.
  intros Hd. destruct (run fenceTail k _) as [y|] eqn:E; [|reflexivity].
  apply fenceTail_sound in E as (w & Hw & Hr). cbn [rest] in Hr.
  exfalso.
  replace ((a ++ [d]) ++ w2 ++ LF :: fence)
    with ((a ++ [d] ++ w2 ++ [LF]) ++ fence) in Hr
    by (rewrite <- !app_assoc; reflexivity).
  apply app_inv_tail in Hr. subst w.
  unfold allWhite in Hw. rewrite forallb_app in Hw.
  apply andb_prop in Hw as [_ Hw]. simpl in Hw. now rewrite Hd in Hw.
Qed.

Lemma run_Opt_none (r : regex) (k : Continuation) (x : MatchState) :
  run r k x = None -> run (Opt r) k x = k x.
Proof. intros H. simpl. now rewrite H. Qed.

Lemma run_Opt_some (r : regex) (k : Continuation) (x y : MatchState) :
  run r k x = Some y -> run (Opt r) k x = Some y.
Proof. intros H. simpl. now rewrite H. Qed.

Lemma newline_none (k : Continuation) (i : nat) (cap : option chars)
    (c : ascii) (s : chars) :
  isWhiteSpace c = false -> run (Lit LF) k (mkState i (c :: s) cap) = None.
Proof.
  intros Hc. simpl. unfold oneChar. cbn [rest].
  destruct (Ascii.eqb LF c) eqn:E; [|reflexivity].
  apply Ascii.eqb_eq in E. subst c. discriminate.
Qed.

(** The match of the fence pattern on a fenced text whose payload is
    [w1 ++ core ++ w2], with [core] the payload without the whitespace at
    its ends: the group captures [core]. *)
Lemma fence_body_match (w1 core w2 : chars) (i : nat) :
  allWhite w1 -> allWhite w2 -> trimmed core ->
  exists n,
    run (Seq (Star isWhiteSpace)
          (Seq (Opt (Lit LF)) (Seq (Group (LazyStar anyChar)) fenceTail)))
      Some (mkState i (LF :: w1 ++ core ++ w2 ++ LF :: fence) None)
    = Some (mkState n [] (Some core)).
Proof.
  intros Hw1 Hw2 [(c & core' & Hcore & Hc) (pre & d & Hlast & Hd)].
  eexists.
  seq_step.
  change (run (Star ?p) ?k ?x)
    with (greedyStar p k (endIndex x) (rest x) (capture1 x)).
  cbn [endIndex rest capture1].
  change (LF :: w1 ++ core ++ w2 ++ LF :: fence)
    with ((LF :: w1) ++ core ++ w2 ++ LF :: fence).
  apply greedyStar_skip.
  - unfold allWhite in Hw1. simpl. exact Hw1.
  - rewrite Hcore. exact Hc.
  - change (run (Seq ?r1 ?r2) Some ?x) with (run r1 (run r2 Some) x).
    rewrite run_Opt_none by (rewrite Hcore; now apply newline_none).
    seq_step.
    change (run (Group (LazyStar ?p)) ?k ?x)
      with (lazyStar p
              (fun y => k (mkState (endIndex y) (rest y)
                             (Some (firstn (endIndex y - endIndex x) (rest x)))))
              (endIndex x) (rest x) (capture1 x)).
    cbn [endIndex rest capture1].
    apply lazyStar_first.
    + cbn [endIndex rest].
      replace (i + List.length (LF :: w1) + List.length core
                 - (i + List.length (LF :: w1))) with (List.length core) by lia.
      rewrite firstn_app, firstn_all, Nat.sub_diag, firstn_0, app_nil_r.
      replace (w2 ++ LF :: fence) with ((w2 ++ [LF]) ++ fence)
        by (rewrite <- app_assoc; reflexivity).
      apply fenceTail_ok; [|reflexivity].
      apply allWhite_app; [exact Hw2 | reflexivity].
    + intros a1 e a2 Hsplit. cbn [endIndex rest].
      rewrite Hlast in Hsplit. symmetry in Hsplit.
      apply last_of_suffix in Hsplit as (l' & Hl').
      change (e :: a2 ++ w2 ++ LF :: fence)
        with ((e :: a2) ++ w2 ++ LF :: fence).
      rewrite Hl'. now apply fenceTail_none.
Qed.

Lemma exec_first (r : regex) (s : chars) (y : MatchState) :
  matchAt r 0 s = Some y -> exec r s = Some y.
Proof. intros H. unfold exec. destruct s; simpl; now rewrite H. Qed.

Lemma fence_match (lbl w1 core w2 : chars) :
  lbl = [] \/ lbl = str "json" ->
  allWhite w1 -> allWhite w2 -> trimmed core ->
  exists n,
    exec fenceRegex (fence ++ lbl ++ LF :: w1 ++ core ++ w2 ++ LF :: fence)
    = Some (mkState n [] (Some core)).
Proof.
  intros Hlbl Hw1 Hw2 Hcore.
  assert (Hat : exists n,
    matchAt fenceRegex 0 (fence ++ lbl ++ LF :: w1 ++ core ++ w2 ++ LF :: fence)
    = Some (mkState n [] (Some core))).
  { unfold matchAt, fenceRegex.
    seq_step.
    change (run Bol ?k ?x) with (if Nat.eqb (endIndex x) 0 then k x else None).
    cbn [endIndex Nat.eqb].
    seq_step.
    rewrite run_lit_app.
    seq_step.
    destruct Hlbl as [-> | ->].
    - destruct (fence_body_match w1 core w2 (0 + List.length fence) Hw1 Hw2 Hcore)
        as (n & Hn).
      exists n. rewrite run_Opt_none; [exact Hn | reflexivity].
    - destruct (fence_body_match w1 core w2
                  (0 + List.length fence + List.length (str "json")) Hw1 Hw2 Hcore)
        as (n & Hn).
      exists n. apply run_Opt_some. rewrite run_lit_app. exact Hn. }
  destruct Hat as (n & Hn). exists n. now apply exec_first.
Qed.

Lemma execFrom_Bol_later (r : regex) (s : chars) :
  forall i, execFrom (Seq Bol r) (S i) s = None.
Proof. induction s as [|c s IH]; intros i; simpl; [reflexivity | apply IH]. Qed.

Lemma exec_Bol (r : regex) (s : chars) :
  exec (Seq Bol r) s = matchAt (Seq Bol r) 0 s.
Proof.
  unfold exec. destruct s as [|c s]; simpl execFrom.
  - now destruct (matchAt _ _ _).
  - destruct (matchAt _ _ _); [reflexivity | apply execFrom_Bol_later].
Qed.

(** Only a text that starts and ends with the fence matches. *)
Lemma exec_fence_inv (s : chars) (y : MatchState) :
  exec fenceRegex s = Some y -> exists m, s = fence ++ m ++ fence.
Proof.
  unfold fenceRegex. rewrite exec_Bol. unfold matchAt.
  seq_step.
  change (run Bol ?k ?x) with (if Nat.eqb (endIndex x) 0 then k x else None).
  cbn [endIndex Nat.eqb]. intros H.
  seq_step_in H.
  apply run_lit_sound in H as (s1 & Hs & H). cbn [rest] in Hs.
  seq_step_in H.
  apply run_sound in H as (a1 & x1 & Hr1 & _ & H). cbn [rest] in Hr1.
  seq_step_in H.
  apply run_sound in H as (a2 & x2 & Hr2 & _ & H).
  seq_step_in H.
  apply run_sound in H as (a3 & x3 & Hr3 & _ & H).
  seq_step_in H.
  apply run_sound in H as (a4 & x4 & Hr4 & _ & H).
  apply fenceTail_sound in H as (w & _ & Hw).
  exists (a1 ++ a2 ++ a3 ++ a4 ++ w).
  rewrite Hs, Hr1, Hr2, Hr3, Hr4, Hw. now rewrite <- !app_assoc.
Qed.

Lemma unwrapFence_nomatch (text : string) :
  exec fenceRegex (str text) = None -> unwrapFence text = text.
Proof. intros H. unfold unwrapFence. now rewrite H. Qed.

Lemma unwrapFence_changed (text : string) :
  unwrapFence text <> text ->
  startsWith text "```" = true /\ endsWith text "```" = true.
Proof.
  intros H. destruct (exec fenceRegex (str text)) as [y|] eqn:E.
  - apply exec_fence_inv in E as (m & Hm). unfold startsWith, endsWith.
    rewrite Hm. split.
    + apply startsWithChars_app.
    + rewrite app_assoc, rev_app_distr. apply startsWithChars_app.
  - now apply unwrapFence_nomatch in E.
Qed.

Lemma unwrapFence_wrap (label payload : string) :
  label = "" \/ label = "json" -> trim payload <> "" ->
  unwrapFence (wrapFence label payload) = trim payload.
Proof.
  intros Hlabel Hne.
  destruct (trimChars_split (str payload)) as (w1 & w2 & Hw1 & Hw2 & Hp & Hcore).
  destruct Hcore as [Hnil | Hcore].
  { exfalso. apply Hne. unfold trim. now rewrite Hnil. }
  destruct (fence_match (str label) w1 (trimChars (str payload)) w2) as (n & Hn);
    try assumption.
  { destruct Hlabel as [-> | ->]; [now left | now right]. }
  unfold unwrapFence, wrapFence.
  replace (str ("```" ++ label ++ nl ++ payload ++ nl ++ "```"))
    with (fence ++ str label ++ LF :: w1 ++ trimChars (str payload) ++ w2
            ++ LF :: fence).
  2:{ rewrite !str_app. rewrite Hp at 2.
      change (str nl) with [LF]. change (str "```") with fence.
      now rewrite <- !app_assoc. }
  rewrite Hn. cbn [capture1].
  destruct Hcore as [(c & l' & Hc & Hcw) Hlast].
  rewrite Hc. rewrite <- Hc.
  unfold trim at 1. rewrite str_unstr.
  rewrite trimChars_trimmed; [reflexivity|].
  split; [now exists c, l' | exact Hlast].
Qed.

(** The step on some texts. *)
Example unwrap_two_lines : unwrapFence (wrapFence "" twoLine) = twoLine.
Proof. reflexivity. Qed.

Example unwrap_plain : unwrapFence "{}" = "{}".
Proof. reflexivity. Qed.

Example unwrap_glued_label : unwrapFence "```jsonx```" = "x".
Proof. reflexivity. Qed.

Example unwrap_four_backticks : unwrapFence "````" = "````".
Proof. reflexivity. Qed.

Example unwrap_inner_fence :
  unwrapFence ("```a```" ++ nl ++ "```") = "a```".
Proof. reflexivity. Qed.

Lemma trim_wrapFence (label payload : string) :
  trim (wrapFence label payload) = wrapFence label payload.
Proof.
  unfold trim. rewrite trimChars_trimmed; [apply unstr_str|].
  unfold wrapFence. split.
  - rewrite str_app. now exists "`"%char, (str "``" ++ str (label ++ nl ++ payload ++ nl ++ "```")).
  - rewrite !str_app.
    exists (str "```" ++ str label ++ str nl ++ str payload ++ str nl ++ str "``"),
      "`"%char.
    split; [|reflexivity]. now rewrite <- !app_assoc.
Qed.

Lemma unwrapFence_stable (text : string) :
  startsWith text "```" = false -> unwrapFence text = text.
Proof.
  intros H. destruct (string_dec (unwrapFence text) text) as [Heq | Hne]; [exact Heq|].
  apply unwrapFence_changed in Hne as [Hs _]. congruence.
Qed.

(** C2, as the specification states it, fails: the payload is trimmed,
    so a payload with a leading space is not returned exactly; a fence
    around an empty payload is left as it is; a fence without line
    breaks is unwrapped too; and a fenced text whose payload is itself
    fenced is unwrapped once per application. *)
Lemma unwrapFence_not_exact :
  unwrapFence (wrapFence "json" " x") <> " x"
  /\ unwrapFence (wrapFence "json" "") <> ""
  /\ unwrapFence "```x```" <> "```x```"
  /\ unwrapFence (unwrapFence (wrapFence "json" (wrapFence "json" "x")))
       <> unwrapFence (wrapFence "json" (wrapFence "json" "x")).
Proof. repeat split; vm_compute; discriminate. Qed.

(** C2 (amended): a fenced text, with the label [json] or without a
    label, whose payload is not blank unwraps to the payload without
    the whitespace at its ends, also when the payload has line breaks
    (the two-line payload is returned exactly); a text that the step
    changes starts and ends with the fence; and unwrapping twice is
    unwrapping once when the unwrapped text does not start with a
    fence. *)
Theorem unwrapFence_fenced (label payload : string) :
  label = "" \/ label = "json" -> trim payload <> "" ->
  unwrapFence (wrapFence label payload) = trim payload
  /\ extractJsonText (wrapFence label payload) = trim payload
  /\ (forall text, unwrapFence text <> text ->
        startsWith text "```" = true /\ endsWith text "```" = true)
  /\ (forall text, startsWith (unwrapFence text) "```" = false ->
        unwrapFence (unwrapFence text) = unwrapFence text)
  /\ unwrapFence (wrapFence "json" twoLine) = twoLine.
Proof.
  intros Hlabel Hne.
  split; [now apply unwrapFence_wrap|].
  split.
  { unfold extractJsonText. rewrite trim_wrapFence. now apply unwrapFence_wrap. }
  split; [exact unwrapFence_changed|].
  split; [|reflexivity].
  intros text. apply unwrapFence_stable.
Qed.

Lemma unwrapFence_fenced_witness :
  unwrapFence (wrapFence "" twoLine) = trim twoLine.
Proof.
  refine (proj1 (unwrapFence_fenced "" twoLine (or_introl eq_refl) _)).
  vm_compute. discriminate.
Defined.

(** ** [includes] *)

Lemma startsWithChars_snoc (n l : chars) (d : ascii) :
  existsb (Ascii.eqb d) n = false ->
  startsWithChars n (l ++ [d]) = startsWithChars n l.
Proof.
  revert l. induction n as [|x n IH]; intros l Hd; [now destruct l|].
  simpl in Hd. apply orb_false_elim in Hd as [Hx Hn].
  destruct l as [|c l]; simpl.
  - rewrite Ascii.eqb_sym, Hx. reflexivity.
  - now rewrite IH.
Qed.

Lemma includesChars_snoc (x : ascii) (n l : chars) (d : ascii) :
  existsb (Ascii.eqb d) (x :: n) = false ->
  includesChars (x :: n) (l ++ [d]) = includesChars (x :: n) l.
Proof.
  intros Hd. induction l as [|c l IH].
  - pose proof (startsWithChars_snoc (x :: n) [] d Hd) as H0.
    cbn [app] in *. cbn [includesChars]. rewrite H0. reflexivity.
  - change ((c :: l) ++ [d]) with (c :: (l ++ [d])). cbn [includesChars].
    rewrite IH. change (c :: (l ++ [d])) with ((c :: l) ++ [d]).
    now rewrite (startsWithChars_snoc (x :: n) (c :: l) d Hd).
Qed.

Lemma includesChars_skip (x : ascii) (n pre l : chars) :
  existsb (Ascii.eqb x) pre = false ->
  includesChars (x :: n) (pre ++ l) = includesChars (x :: n) l.
Proof.
  induction pre as [|c pre IH]; intros Hx; [reflexivity|].
  simpl in Hx. apply orb_false_elim in Hx as [Hc Hpre].
  change ((c :: pre) ++ l) with (c :: (pre ++ l)). cbn [includesChars startsWithChars].
  rewrite Hc. cbn [andb orb]. now apply IH.
Qed.

Lemma includes_notFoundMessage (username : string) :
  includes (notFoundMessage username) rateLimitMarker
  = includes username rateLimitMarker.
Proof.
  unfold includes, notFoundMessage. rewrite !str_app.
  change (str rateLimitMarker) with ("A"%char :: str "PI rate limit exceeded").
  rewrite includesChars_skip by reflexivity.
  change (str ".") with ["."%char].
  now rewrite includesChars_snoc by reflexivity.
Qed.

(** ** getUserProfileData *)

Lemma ok_404 (r : Response) : status r = 404 -> ok r = false.
Proof. intros H. unfold ok. now rewrite H. Qed.

Lemma string_of_uint_digits (d : Decimal.uint) :
  forallb isDigit (str (NilEmpty.string_of_uint d)) = true.
Proof. induction d; cbn [NilEmpty.string_of_uint str list_ascii_of_string forallb]; auto. Qed.

Lemma natToString_digits (n : nat) : forallb isDigit (str (natToString n)) = true.
Proof.
  unfold natToString, NilZero.string_of_uint.
  destruct (Nat.to_uint n) eqn:E; try (rewrite <- E; apply string_of_uint_digits).
  reflexivity.
Qed.

Lemma natToString_without (x : ascii) (n : nat) :
  isDigit x = false -> existsb (Ascii.eqb x) (str (natToString n)) = false.
Proof.
  intros Hx. pose proof (natToString_digits n) as Hd.
  induction (str (natToString n)) as [|c l IH]; [reflexivity|].
  cbn [forallb existsb] in *. apply andb_prop in Hd as [Hc Hl].
  rewrite (IH Hl), orb_false_r.
  destruct (Ascii.eqb x c) eqn:Heq; [|reflexivity].
  apply Ascii.eqb_eq in Heq. congruence.
Qed.

Lemma status_message_unmarked (what : string) (n : nat) :
  existsb (Ascii.eqb "A") (str what) = false ->
  includes (what ++ natToString n) rateLimitMarker = false.
Proof.
  intros Hwhat. unfold includes. rewrite str_app.
  change (str rateLimitMarker) with ("A"%char :: str "PI rate limit exceeded").
  rewrite <- (app_nil_r (str (natToString n))), app_assoc.
  rewrite includesChars_skip; [reflexivity|].
  rewrite existsb_app, Hwhat. now apply natToString_without.
Qed.

(** A response of the user request with a status that is neither a
    success nor 404 gives the error with the status, whatever its body
    says: the rate-limit branch of the [catch] block is not taken. *)
Lemma status_error_not_rate_limited (W : World) (E : Engine) (username : string)
    (userResponse reposResponse : Response) :
  fetch W (userRequest username) = Resolved userResponse ->
  fetch W (reposRequest username) = Resolved reposResponse ->
  ok userResponse = false -> status userResponse <> 404 ->
  snd (getUserProfileData W E username)
  = Throw (Error ("Failed to fetch user data. Status: "
                    ++ natToString (status userResponse))%string).
Proof.
  intros Hu Hr Hok Hs. apply Nat.eqb_neq in Hs.
  unfold getUserProfileData, fetchProfile, fetchBoth.
  rewrite Hu, Hr. cbn [emit bind ret throw app].
  rewrite Hok, Hs. cbn [negb throw tryCatch errMessage Error].
  now rewrite status_message_unmarked.
Qed.

(** A rejected request whose message has the marker is what the
    rate-limit branch answers to. *)
Lemma marked_rejection_rate_limited (W : World) (E : Engine) (username : string)
    (e : JsError) (reposResponse : Response) :
  fetch W (userRequest username) = Rejected e ->
  fetch W (reposRequest username) = Resolved reposResponse ->
  includes (errMessage e) rateLimitMarker = true ->
  snd (getUserProfileData W E username) = Throw (Error rateLimitedMessage).
Proof.
  intros Hu Hr Hm. unfold getUserProfileData, fetchProfile, fetchBoth.
  rewrite Hu, Hr. cbn [emit bind ret throw app tryCatch]. now rewrite Hm.
Qed.

(** C7: the reply of GitHub to a client over its quota has status 403
    and a body with the marker; the body is never read, and the error
    is the one that carries the status. *)
Theorem quota_reply_not_rate_limited :
  snd (getUserProfileData (constantWorld (Resolved quotaResponse)) plainEngine "octocat")
  = Throw (Error "Failed to fetch user data. Status: 403")
  /\ includes quotaBody rateLimitMarker = true.
Proof. split; reflexivity. Qed.

(** C8, as stated, fails: when the repositories request is rejected,
    [Promise.all] rejects and the rejection is what the caller gets,
    whatever the status of the user response. *)
Lemma not_found_lost_on_rejection :
  fetch (userMissingReposDown "octocat") (userRequest "octocat")
    = Resolved notFoundResponse
  /\ status notFoundResponse = 404
  /\ snd (getUserProfileData (userMissingReposDown "octocat") plainEngine "octocat")
     = Throw networkError
  /\ networkError <> Error (notFoundMessage "octocat").
Proof. repeat split; try reflexivity. discriminate. Qed.

(** C8 (amended): when both requests are answered and the status of
    the user response is 404, the call fails with the not-found error
    that names the user, whatever the repositories response is, for a
    user name that does not contain the rate-limit marker. *)
Theorem not_found_before_repositories (W : World) (E : Engine) (username : string)
    (userResponse reposResponse : Response) :
  fetch W (userRequest username) = Resolved userResponse ->
  fetch W (reposRequest username) = Resolved reposResponse ->
  status userResponse = 404 ->
  includes username rateLimitMarker = false ->
  getUserProfileData W E username
  = ([Fetch (userRequest username); Fetch (reposRequest username)],
     Throw (Error (notFoundMessage username))).
Proof.
  intros Hu Hr Hs Hm.
  unfold getUserProfileData, fetchProfile, fetchBoth.
  rewrite Hu, Hr. cbn [emit bind ret throw app].
  rewrite (ok_404 _ Hs), Hs. cbn [negb Nat.eqb throw tryCatch].
  cbn [errMessage Error]. rewrite includes_notFoundMessage, Hm. reflexivity.
Qed.

Lemma not_found_before_repositories_witness :
  getUserProfileData (constantWorld (Resolved notFoundResponse)) plainEngine "octocat"
  = ([Fetch (userRequest "octocat"); Fetch (reposRequest "octocat")],
     Throw (Error (notFoundMessage "octocat"))).
Proof.
  apply (not_found_before_repositories (constantWorld (Resolved notFoundResponse))
           plainEngine "octocat" notFoundResponse notFoundResponse);
    reflexivity.
Defined.

(** ** getAnimeBadge *)

Import OpenRouter.

Example sanitize_redacts :
  sanitize "401 for Bearer sk-or-secret, retry" = "401 for Bearer [REDACTED] retry".
Proof. reflexivity. Qed.

Example sanitize_empty : sanitize "" = "Unknown error".
Proof. reflexivity. Qed.

Example upstream_429 :
  snd (getAnimeBadge
         (constantWorld (Resolved (mkResponse 429 "Too Many Requests" (Return "slow down"))))
         plainEngine sampleUserProfile)
  = Throw (Error (badgeFailurePrefix
                    ++ "OpenRouter API error: 429 Too Many Requests - slow down")).
Proof. reflexivity. Qed.

Example request_timed_out :
  snd (getAnimeBadge
         (constantWorld (Rejected (mkError "AbortError" "The operation was aborted.")))
         plainEngine sampleUserProfile)
  = Throw (Error timedOutMessage).
Proof. reflexivity. Qed.

Example missing_key_unwrapped :
  snd (getAnimeBadge (mkWorld None None (fun _ => Rejected networkError) false)
         plainEngine sampleUserProfile)
  = Throw (Error "OPENROUTER_API_KEY environment variable not set").
Proof. reflexivity. Qed.

Lemma truthy_not_nullish (v : value) : truthy v = true -> isNullish v = false.
Proof. now destruct v. Qed.

Lemma getProp_defined (E : Engine) (v : value) (k : string) :
  isNullish v = false -> getProp E v k = Return (readProp v k).
Proof. intros H. unfold getProp. now rewrite H. Qed.

Lemma getIndex_defined (E : Engine) (v : value) (i : nat) :
  isNullish v = false -> getIndex E v i = Return (readIndex v i).
Proof. intros H. unfold getIndex. now rewrite H. Qed.

Lemma badgeCatch_kinds (e : JsError) :
  exists e', badgeCatch e = ([], Throw e') /\ badgeError e'.
Proof.
  unfold badgeCatch, badgeError.
  destruct (String.eqb (errName e) "AbortError"); [eexists; split; [reflexivity|]; auto|].
  destruct (includes (errMessage e) "JSON.parse"); [eexists; split; [reflexivity|]; auto|].
  destruct (includes (errMessage e) "environment variable") eqn:Henv;
    eexists; (split; [reflexivity|]); eauto.
Qed.

Lemma parseBadge_Return (E : Engine) (content badge : value) :
  parseBadge E content = Return badge ->
  hasAllFields badge = true /\ isNullish badge = false.
Proof.
  unfold parseBadge, hasAllFields. destruct (callTrim E content) as [s|e]; [|discriminate].
  cbn [andThen]. destruct (JSON_parse E (unwrapFence s)) as [v|m]; [|discriminate].
  unfold getProp. destruct (isNullish v) eqn:Hv; [discriminate|]. cbn [andThen].
  destruct (truthy (readProp v "characterName")) eqn:H1; cbn [negb]; [|discriminate].
  destruct (truthy (readProp v "anime")) eqn:H2; cbn [negb]; [|discriminate].
  destruct (truthy (readProp v "reason")) eqn:H3; cbn [negb]; [|discriminate].
  destruct (truthy (readProp v "badgeColor")) eqn:H4; cbn [negb]; [|discriminate].
  intros H. injection H as <-. now rewrite H1, H2, H3, H4.
Qed.

Lemma parseBadge_missing (E : Engine) (content : string) (parsedData : value) :
  JSON_parse E (extractJsonText content) = Parsed parsedData ->
  isNullish parsedData = false -> hasAllFields parsedData = false ->
  parseBadge E (VString content) = Throw (Error missingFieldsMessage).
Proof.
  intros Hparse Hv Hmissing. unfold parseBadge. cbn [callTrim andThen].
  unfold extractJsonText in Hparse. rewrite Hparse.
  rewrite !(getProp_defined E parsedData _ Hv). unfold hasAllFields in Hmissing.
  cbn [andThen].
  destruct (truthy (readProp parsedData "characterName")); cbn [negb]; [|reflexivity].
  destruct (truthy (readProp parsedData "anime")); cbn [negb]; [|reflexivity].
  destruct (truthy (readProp parsedData "reason")); cbn [negb]; [|reflexivity].
  destruct (truthy (readProp parsedData "badgeColor")); [discriminate | reflexivity].
Qed.

Lemma parseBadge_syntax (E : Engine) (content message : string) :
  JSON_parse E (extractJsonText content) = SyntaxError message ->
  parseBadge E (VString content) = Throw (mkError "SyntaxError" message).
Proof.
  intros Hparse. unfold parseBadge. cbn [callTrim andThen].
  unfold extractJsonText in Hparse. now rewrite Hparse.
Qed.

Lemma hasMessage_not_nullish (data : value) :
  hasMessage data = true -> isNullish data = false.
Proof. now destruct data. Qed.

(** The generated text of a success reply that has the structure. *)
Lemma requestContent_reply (W : World) (E : Engine) (key : string)
    (response : Response) (bodyText : string) (data : value) :
  getOpenRouterKey W = Return key ->
  fetch W (chatRequest key) = Resolved response ->
  ok response = true ->
  body response = Return bodyText ->
  JSON_parse E bodyText = Parsed data ->
  hasMessage data = true ->
  requestContent W E
  = ([PromptBuilt; Fetch (chatRequest key)],
     Return (readProp (readProp (readIndex (readProp data "choices") 0) "message")
               "content")).
Proof.
  intros Hkey Hfetch Hok Hbody Hparse Hmsg.
  unfold requestContent, awaitFetch, json.
  rewrite Hkey. cbn [negb emit lift bind app]. rewrite Hfetch.
  cbn [ret bind app]. rewrite Hok, Hbody, Hparse. cbn [negb lift bind app].
  unfold readContent.
  rewrite (getProp_defined E data _ (hasMessage_not_nullish _ Hmsg)).
  unfold hasMessage in Hmsg.
  apply andb_prop in Hmsg as [Hmsg Hm]. apply andb_prop in Hmsg as [Hc Hf].
  cbn [andThen]. rewrite Hc. cbn [negb].
  rewrite (getIndex_defined E _ 0 (truthy_not_nullish _ Hc)). cbn [andThen].
  rewrite Hf. cbn [negb].
  rewrite (getProp_defined E _ "message" (truthy_not_nullish _ Hf)). cbn [andThen].
  rewrite Hm. cbn [negb].
  now rewrite (getProp_defined E _ "content" (truthy_not_nullish _ Hm)).
Qed.

Example requestContent_chat :
  requestContent (chatWorld noColorText) (chatEngine noColorText (Parsed noColorBadge))
  = ([PromptBuilt; Fetch (chatRequest "sk-or-test")], Return (VString noColorText)).
Proof. reflexivity. Qed.

(** What [getAnimeBadge] does once the generated text is there and the
    rest of the [try] block throws [e]. *)
Lemma getAnimeBadge_throws (W : World) (E : Engine) (profileData : UserProfile)
    (t : list Event) (content : value) (e : JsError) :
  validProfile profileData = true ->
  requestContent W E = (t, Return content) ->
  parseBadge E content = Throw e ->
  getAnimeBadge W E profileData = (t ++ fst (badgeCatch e), snd (badgeCatch e)).
Proof.
  intros Hvalid Hreq Hparse. unfold getAnimeBadge. rewrite Hvalid. cbn [negb].
  rewrite Hreq. cbn [bind]. rewrite Hparse. cbn [lift tryCatch].
  rewrite app_nil_r. now destruct (badgeCatch e).
Qed.

(** C1, as stated, fails: the colour is only tested for being truthy,
    and a badge whose [badgeColor] is [red] is returned. *)
Lemma badge_color_unchecked :
  validProfile sampleUserProfile = true
  /\ snd (getAnimeBadge (chatWorld redBadgeText)
            (chatEngine redBadgeText (Parsed redBadge)) sampleUserProfile)
     = Return redBadge
  /\ isHexColor (readProp redBadge "badgeColor") = false.
Proof. repeat split; reflexivity. Qed.

(** C1 (amended): for a valid profile, [getAnimeBadge] returns a value
    whose four fields are truthy, so not empty, or it fails with the
    timeout error, the invalid-response error, a configuration error or
    the wrapped failure; the colour is not matched against a
    pattern. *)
Theorem getAnimeBadge_badge_or_error (W : World) (E : Engine)
    (profileData : UserProfile) :
  validProfile profileData = true ->
  match snd (getAnimeBadge W E profileData) with
  | Return badge => hasAllFields badge = true
  | Throw e => badgeError e
  end.
Proof.
  intros Hvalid. unfold getAnimeBadge. rewrite Hvalid. cbn [negb].
  destruct (requestContent W E) as [t [content|e]]; cbn [bind].
  - destruct (parseBadge E content) as [badge|e] eqn:Hparse; cbn [lift tryCatch snd].
    + now apply parseBadge_Return in Hparse.
    + destruct (badgeCatch_kinds e) as (e' & -> & He'). exact He'.
  - cbn [tryCatch]. destruct (badgeCatch_kinds e) as (e' & -> & He'). exact He'.
Qed.

Lemma getAnimeBadge_badge_or_error_witness :
  match snd (getAnimeBadge (chatWorld redBadgeText)
               (chatEngine redBadgeText (Parsed redBadge)) sampleUserProfile) with
  | Return badge => hasAllFields badge = true
  | Throw e => badgeError e
  end.
Proof.
  apply (getAnimeBadge_badge_or_error (chatWorld redBadgeText)
           (chatEngine redBadgeText (Parsed redBadge)) sampleUserProfile).
  reflexivity.
Defined.

(** C5, as stated, fails: the error of a response without
    [badgeColor] has the fixed text of line 136 and does not name the
    field. *)
Lemma missing_field_not_named :
  snd (getAnimeBadge (chatWorld noColorText)
         (chatEngine noColorText (Parsed noColorBadge)) sampleUserProfile)
  = Throw (Error (badgeFailurePrefix ++ missingFieldsMessage))
  /\ includes (badgeFailurePrefix ++ missingFieldsMessage) "badgeColor" = false.
Proof. split; reflexivity. Qed.

(** C5 (amended): when the generated text parses to a value other
    than [null] in which one of the four fields is absent or empty,
    [getAnimeBadge] fails with the wrapped error whose text is
    [AI response is missing required fields.], whichever field is
    missing. *)
Theorem missing_fields_error (W : World) (E : Engine) (profileData : UserProfile)
    (t : list Event) (content : string) (parsedData : value) :
  validProfile profileData = true ->
  requestContent W E = (t, Return (VString content)) ->
  JSON_parse E (extractJsonText content) = Parsed parsedData ->
  isNullish parsedData = false ->
  hasAllFields parsedData = false ->
  getAnimeBadge W E profileData
  = (t, Throw (Error (badgeFailurePrefix ++ missingFieldsMessage))).
Proof.
  intros Hvalid Hreq Hparse Hv Hmissing.
  rewrite (getAnimeBadge_throws W E profileData t (VString content)
             (Error missingFieldsMessage) Hvalid Hreq).
  - change (badgeCatch (Error missingFieldsMessage))
      with (@nil Event, @Throw value (Error (badgeFailurePrefix ++ missingFieldsMessage))).
    cbn [fst snd]. now rewrite app_nil_r.
  - now apply (parseBadge_missing E content parsedData).
Qed.

Lemma missing_fields_error_witness :
  getAnimeBadge (chatWorld noColorText)
    (chatEngine noColorText (Parsed noColorBadge)) sampleUserProfile
  = ([PromptBuilt; Fetch (chatRequest "sk-or-test")],
     Throw (Error (badgeFailurePrefix ++ missingFieldsMessage))).
Proof.
  apply (missing_fields_error (chatWorld noColorText)
           (chatEngine noColorText (Parsed noColorBadge)) sampleUserProfile
           [PromptBuilt; Fetch (chatRequest "sk-or-test")] noColorText noColorBadge);
    reflexivity.
Defined.

(** A parse failure is recognised by the text [JSON.parse] in the
    message of the parser. *)
Lemma parse_failure_recognised (W : World) (E : Engine) (profileData : UserProfile)
    (t : list Event) (content message : string) :
  validProfile profileData = true ->
  requestContent W E = (t, Return (VString content)) ->
  JSON_parse E (extractJsonText content) = SyntaxError message ->
  includes message "JSON.parse" = true ->
  getAnimeBadge W E profileData = (t, Throw (Error invalidResponseMessage)).
Proof.
  intros Hvalid Hreq Hparse Hmsg.
  rewrite (getAnimeBadge_throws W E profileData t (VString content)
             (mkError "SyntaxError" message) Hvalid Hreq).
  - unfold badgeCatch. cbn [errName errMessage]. rewrite Hmsg.
    cbn [String.eqb Ascii.eqb Bool.eqb throw fst snd]. now rewrite app_nil_r.
  - now apply parseBadge_syntax.
Qed.

(** A parse failure whose message has neither [JSON.parse] nor
    [environment variable] in it comes out as the wrapped failure with
    the message of the parser inside. *)
Lemma parse_failure_unrecognised (W : World) (E : Engine) (profileData : UserProfile)
    (t : list Event) (content message : string) :
  validProfile profileData = true ->
  requestContent W E = (t, Return (VString content)) ->
  JSON_parse E (extractJsonText content) = SyntaxError message ->
  includes message "JSON.parse" = false ->
  includes message "environment variable" = false ->
  getAnimeBadge W E profileData
  = (t, Throw (Error (badgeFailurePrefix ++ sanitize message)%string)).
Proof.
  intros Hvalid Hreq Hparse Hmsg Henv.
  rewrite (getAnimeBadge_throws W E profileData t (VString content)
             (mkError "SyntaxError" message) Hvalid Hreq).
  - unfold badgeCatch. cbn [errName errMessage]. rewrite Hmsg, Henv.
    cbn [String.eqb Ascii.eqb Bool.eqb throw fst snd]. now rewrite app_nil_r.
  - now apply parseBadge_syntax.
Qed.

(** C6: on the generated text of the repository's invalid-JSON test,
    with the message of V8 for it, the error is the wrapped failure
    with the parser's message inside, not the invalid-response
    error. *)
Theorem parse_failure_leaks_parser_message :
  JSON_parse (chatEngine invalidJsonText (SyntaxError v8Message))
    (extractJsonText invalidJsonText) = SyntaxError v8Message
  /\ snd (getAnimeBadge (chatWorld invalidJsonText)
            (chatEngine invalidJsonText (SyntaxError v8Message)) sampleUserProfile)
     = Throw (Error (badgeFailurePrefix ++ v8Message))
  /\ includes (badgeFailurePrefix ++ v8Message) "invalid response" = false.
Proof. repeat split; reflexivity. Qed.

Lemma readContent_unstructured (E : Engine) (data : value) :
  isNullish data = false -> hasMessage data = false ->
  readContent E data = Throw (Error invalidStructureMessage).
Proof.
  intros Hdata Hmissing. unfold readContent, hasMessage in *.
  rewrite (getProp_defined E data _ Hdata). cbn [andThen].
  destruct (truthy (readProp data "choices")) eqn:Hc; cbn [negb]; [|reflexivity].
  rewrite (getIndex_defined E _ 0 (truthy_not_nullish _ Hc)). cbn [andThen].
  destruct (truthy (readIndex (readProp data "choices") 0)) eqn:Hf; cbn [negb];
    [|reflexivity].
  rewrite (getProp_defined E _ "message" (truthy_not_nullish _ Hf)). cbn [andThen].
  cbn [andb] in Hmissing. now rewrite Hmissing.
Qed.

Lemma readContent_reached (E : Engine) (data content : value) :
  readContent E data = Return content -> hasMessage data = true.
Proof.
  unfold readContent, hasMessage, getProp at 1.
  destruct (isNullish data); [discriminate|]. cbn [andThen].
  destruct (truthy (readProp data "choices")) eqn:Hc; cbn [negb]; [|discriminate].
  rewrite (getIndex_defined E _ 0 (truthy_not_nullish _ Hc)). cbn [andThen].
  destruct (truthy (readIndex (readProp data "choices") 0)) eqn:Hf; cbn [negb];
    [|discriminate].
  rewrite (getProp_defined E _ "message" (truthy_not_nullish _ Hf)). cbn [andThen].
  destruct (truthy (readProp (readIndex (readProp data "choices") 0) "message"));
    [reflexivity | discriminate].
Qed.

(** C9, as stated, fails: a success reply whose body is [null] has no
    [choices] either, but the read of [data.choices] in the check
    itself throws; the caller gets the wrapped TypeError, not the
    invalid-structure message. *)
Lemma null_reply_not_structure_error :
  getAnimeBadge (constantWorld (Resolved (okResponse "null")))
    (scriptedEngine [("null", Parsed VNull)]) sampleUserProfile
  = ([PromptBuilt; Fetch (chatRequest "sk-or-test")],
     Throw (Error (badgeFailurePrefix
                     ++ "Cannot read properties of null (reading 'choices')")))
  /\ hasMessage VNull = false
  /\ (badgeFailurePrefix ++ "Cannot read properties of null (reading 'choices')")%string
     <> (badgeFailurePrefix ++ invalidStructureMessage)%string.
Proof.
  split; [reflexivity|]. split; [reflexivity|].
  intros H. vm_compute in H. discriminate.
Qed.

(** C9 (amended): when the endpoint answers with success and a body
    that parses to a value other than [null] in which [choices],
    [choices[0]] or [choices[0].message] is missing, [getAnimeBadge]
    fails with the invalid-structure message inside the wrapper; and
    [content] is only read from a value that passed the check. *)
Theorem unstructured_reply_wrapped (W : World) (E : Engine) (profileData : UserProfile)
    (key : string) (response : Response) (bodyText : string) (data : value) :
  validProfile profileData = true ->
  getOpenRouterKey W = Return key ->
  fetch W (chatRequest key) = Resolved response ->
  ok response = true ->
  body response = Return bodyText ->
  JSON_parse E bodyText = Parsed data ->
  isNullish data = false ->
  hasMessage data = false ->
  getAnimeBadge W E profileData
  = ([PromptBuilt; Fetch (chatRequest key)],
     Throw (Error (badgeFailurePrefix ++ invalidStructureMessage)))
  /\ forall reply content, readContent E reply = Return content ->
       hasMessage reply = true.
Proof.
  intros Hvalid Hkey Hfetch Hok Hbody Hparse Hdata Hmissing.
  split; [|apply readContent_reached].
  unfold getAnimeBadge, requestContent, awaitFetch, json.
  rewrite Hvalid, Hkey. cbn [negb emit lift bind app]. rewrite Hfetch.
  cbn [ret bind app]. rewrite Hok, Hbody, Hparse. cbn [negb lift bind app].
  rewrite (readContent_unstructured E data Hdata Hmissing).
  reflexivity.
Qed.

Lemma unstructured_reply_wrapped_witness :
  getAnimeBadge (constantWorld (Resolved (okResponse "{}")))
    (scriptedEngine [("{}", Parsed (VObject []))]) sampleUserProfile
  = ([PromptBuilt; Fetch (chatRequest "sk-or-test")],
     Throw (Error (badgeFailurePrefix ++ invalidStructureMessage))).
Proof.
  refine (proj1 (unstructured_reply_wrapped
                   (constantWorld (Resolved (okResponse "{}")))
                   (scriptedEngine [("{}", Parsed (VObject []))]) sampleUserProfile
                   "sk-or-test" (okResponse "{}") "{}" (VObject [])
                   _ _ _ _ _ _ _ _));
    reflexivity.
Defined.

(** C10: the image-generation variant rejects a badge in which
    [characterName], [anime] or [badgeColor] is absent or empty with
    [Invalid badge data provided], before the prompt is built and
    before any request. *)
Theorem generateAvatar_rejects_incomplete (W : World) (E : Engine) (badge : value) :
  truthy (getOptional badge "characterName") = false
  \/ truthy (getOptional badge "anime") = false
  \/ truthy (getOptional badge "badgeColor") = false ->
  OpenRouter.generateAvatar W E badge = ([], Throw (Error invalidBadgeMessage)).
Proof.
  intros H. unfold OpenRouter.generateAvatar, OpenRouter.invalidBadge.
  destruct H as [-> | [-> | ->]]; cbn [negb orb]; rewrite ?orb_true_r; reflexivity.
Qed.

Lemma generateAvatar_rejects_incomplete_witness :
  OpenRouter.generateAvatar (constantWorld (Rejected networkError)) plainEngine
    (badgeValue (mkAnimeBadge "Tanjiro" "Demon Slayer" "Protects the team" ""))
  = ([], Throw (Error invalidBadgeMessage)).
Proof.
  apply (generateAvatar_rejects_incomplete (constantWorld (Rejected networkError))
           plainEngine
           (badgeValue (mkAnimeBadge "Tanjiro" "Demon Slayer" "Protects the team" ""))).
  right. right. reflexivity.
Defined.

(** ** generateAvatar, the lookup variant *)

Example search_query_encoded :
  Lookup.encodeURIComponent "Rock Lee Naruto" = "Rock%20Lee%20Naruto".
Proof. reflexivity. Qed.

Example lookup_mapped_without_request :
  Lookup.generateAvatar (constantWorld (Rejected networkError)) plainEngine
    (badgeValue (mkAnimeBadge "Naruto" "Naruto" "Never gives up" "#FF7F00"))
  = ([], Return (Lookup.Ref (VString (Lookup.cdn "2/284121.jpg")))).
Proof. reflexivity. Qed.

Example lookup_inherited_member :
  Lookup.generateAvatar (constantWorld (Rejected networkError)) plainEngine
    (badgeValue (mkAnimeBadge "constructor" "Naruto" "Builds things" "#FF7F00"))
  = ([], Return (Lookup.Inherited "constructor")).
Proof. reflexivity. Qed.

Example lookup_series_default :
  Lookup.generateAvatar (constantWorld (Resolved (okResponse "{}")))
    (scriptedEngine [("{}", Parsed (VObject []))])
    (badgeValue (mkAnimeBadge "Muzan" "Demon Slayer" "Plans ahead" "#000000"))
  = ([Fetch (Lookup.searchRequest "Muzan Demon Slayer")],
     Return (Lookup.Ref (VString (Lookup.cdn "15/271763.jpg")))).
Proof. reflexivity. Qed.

Lemma characterImages_entries (key image : string) :
  Lookup.characterImages !! key = Some image -> key <> "" /\ image <> "".
Proof.
  intros H. unfold Lookup.characterImages in H.
  apply elem_of_list_to_map_2 in H.
  repeat (apply elem_of_cons in H as [H|H];
          [injection H as -> ->; split; intros Hx; vm_compute in Hx; discriminate|]).
  now apply elem_of_nil in H.
Qed.

Lemma fallbackImages_entries (key image : string) :
  Lookup.fallbackImages !! key = Some image -> image <> "".
Proof.
  intros H. unfold Lookup.fallbackImages in H.
  apply elem_of_list_to_map_2 in H.
  repeat (apply elem_of_cons in H as [H|H];
          [injection H as -> ->; intros Hx; vm_compute in Hx; discriminate|]).
  now apply elem_of_nil in H.
Qed.

Lemma badge_fields_valid (b : AnimeBadge) :
  characterName b <> "" -> anime b <> "" ->
  Lookup.invalidBadge (badgeValue b) = false.
Proof.
  intros Hname Hanime. apply String.eqb_neq in Hname, Hanime.
  unfold Lookup.invalidBadge.
  cbn [badgeValue getOptional isNullish readProp lookupProp String.eqb Ascii.eqb
       Bool.eqb truthy].
  now rewrite Hname, Hanime.
Qed.

Lemma searchResult_truthy (E : Engine) (data image_url : value) :
  Lookup.searchResult E data = Return (Some image_url) -> truthy image_url = true.
Proof.
  unfold Lookup.searchResult.
  destruct (getProp E data "data") as [found|e]; [|discriminate]. cbn [andThen].
  destruct (truthy found); cbn [negb]; [|discriminate].
  destruct (getProp E found "length") as [len|e]; [|discriminate]. cbn [andThen].
  destruct (gtZero E len) as [[|]|e]; cbn [andThen negb]; try discriminate.
  destruct (getIndex E found 0) as [first|e]; [|discriminate]. cbn [andThen].
  destruct (getProp E first "images") as [images|e]; [|discriminate]. cbn [andThen].
  destruct (truthy (getOptional (getOptional images "jpg") "image_url")) eqn:Ht;
    [|discriminate].
  intros H. injection H as <-. exact Ht.
Qed.

(** The [try] block hands back nothing empty or missing. *)
Lemma resolveImage_truthy (W : World) (E : Engine) (badge : value)
    (t : list Event) (image : Lookup.AvatarRef) :
  Lookup.resolveImage W E badge = (t, Return image) ->
  Lookup.refTruthy image = true.
Proof.
  unfold Lookup.resolveImage, awaitFetch.
  destruct (toString E (readProp badge "characterName")) as [who|e];
    cbn [lift bind ret app]; [|discriminate].
  destruct (Lookup.refTruthy (Lookup.lookupMember Lookup.characterImages who)) eqn:Hc;
    cbn [ret].
  { intros H. now injection H as _ <-. }
  destruct (toString E (readProp badge "anime")) as [series|e];
    cbn [lift bind ret app emit]; [|discriminate].
  destruct (fetch W _) as [response|e]; cbn [ret throw bind app]; [|discriminate].
  destruct (ok response); cbn [negb throw app]; [|discriminate].
  destruct (json E response) as [data|e]; cbn [lift bind ret app]; [|discriminate].
  destruct (Lookup.searchResult E data) as [[hit|]|e] eqn:Hhit;
    cbn [lift bind ret app]; [| |discriminate].
  - intros H. injection H as _ <-. cbn [Lookup.refTruthy].
    now apply searchResult_truthy in Hhit.
  - destruct (Lookup.refTruthy (Lookup.lookupMember Lookup.fallbackImages series))
      eqn:Hf; cbn [ret app]; intros H; injection H as _ <-;
      [exact Hf | reflexivity].
Qed.

(** Where the image of a badge of the declared type comes from, when
    neither name is the name of an inherited member. *)
Lemma lookup_typed_result (W : World) (E : Engine) (b : AnimeBadge) :
  characterName b <> "" -> anime b <> "" ->
  characterName b ∉ Lookup.objectPrototypeKeys ->
  anime b ∉ Lookup.objectPrototypeKeys ->
  exists t v,
    Lookup.generateAvatar W E (badgeValue b) = (t, Return (Lookup.Ref v))
    /\ truthy v = true
    /\ ((exists image, Lookup.characterImages !! characterName b = Some image
                       /\ v = VString image)
        \/ (Lookup.characterImages !! characterName b = None
            /\ exists response data,
                 fetch W (Lookup.searchRequest (characterName b ++ " " ++ anime b))
                 = Resolved response
                 /\ ok response = true
                 /\ json E response = Return data
                 /\ Lookup.searchResult E data = Return (Some v))
        \/ (Lookup.characterImages !! characterName b = None
            /\ exists image, Lookup.fallbackImages !! anime b = Some image
                             /\ v = VString image)
        \/ (Lookup.characterImages !! characterName b = None
            /\ v = VString Lookup.defaultImage)).
Proof.
  intros Hname Hanime Hproto Hseries.
  assert (Hdefault : forall t,
             Lookup.characterImages !! characterName b = None ->
             exists (t' : list Event) v,
               (t, Return (Lookup.Ref (VString Lookup.defaultImage)))
               = (t', Return (Lookup.Ref v))
               /\ truthy v = true
               /\ ((exists image, Lookup.characterImages !! characterName b = Some image
                                  /\ v = VString image)
                   \/ (Lookup.characterImages !! characterName b = None
                       /\ exists response data,
                            fetch W (Lookup.searchRequest
                                       (characterName b ++ " " ++ anime b))
                            = Resolved response
                            /\ ok response = true
                            /\ json E response = Return data
                            /\ Lookup.searchResult E data = Return (Some v))
                   \/ (Lookup.characterImages !! characterName b = None
                       /\ exists image, Lookup.fallbackImages !! anime b = Some image
                                        /\ v = VString image)
                   \/ (Lookup.characterImages !! characterName b = None
                       /\ v = VString Lookup.defaultImage))).
  { intros t Hnone. exists t, (VString Lookup.defaultImage).
    split; [reflexivity|]. split; [reflexivity|]. right. right. right. now split. }
  unfold Lookup.generateAvatar. rewrite (badge_fields_valid b Hname Hanime).
  unfold Lookup.resolveImage, awaitFetch.
  cbn [badgeValue readProp lookupProp String.eqb Ascii.eqb Bool.eqb toString lift bind].
  destruct (Lookup.characterImages !! characterName b) as [image|] eqn:Htable.
  { assert (Hmember : Lookup.lookupMember Lookup.characterImages (characterName b)
                      = Lookup.Ref (VString image)).
    { unfold Lookup.lookupMember. now rewrite Htable. }
    destruct (characterImages_entries _ _ Htable) as [_ Himage].
    apply String.eqb_neq in Himage. rewrite Hmember. cbn [Lookup.refTruthy truthy].
    rewrite Himage. cbn [negb ret tryCatch].
    exists [], (VString image). split; [reflexivity|].
    split; [cbn [truthy]; now rewrite Himage|]. left. now exists image. }
  assert (Hmember : Lookup.lookupMember Lookup.characterImages (characterName b)
                    = Lookup.Ref VUndefined).
  { unfold Lookup.lookupMember. now rewrite Htable, (bool_decide_eq_false_2 _ Hproto). }
  rewrite Hmember. cbn [Lookup.refTruthy truthy emit bind app].
  destruct (fetch W _) as [response|e] eqn:Hfetch; cbn [ret throw bind tryCatch app].
  2:{ now apply Hdefault. }
  destruct (ok response) eqn:Hok; cbn [negb throw tryCatch app].
  2:{ now apply Hdefault. }
  destruct (json E response) as [data|e] eqn:Hjson; cbn [lift bind tryCatch ret app].
  2:{ now apply Hdefault. }
  destruct (Lookup.searchResult E data) as [[hit|]|e] eqn:Hhit;
    cbn [lift bind tryCatch ret app].
  - exists [Fetch (Lookup.searchRequest (characterName b ++ " " ++ anime b))], hit.
    split; [reflexivity|]. split; [now apply searchResult_truthy in Hhit|].
    right. left. split; [reflexivity|]. now exists response, data.
  - unfold Lookup.lookupMember.
    destruct (Lookup.fallbackImages !! anime b) as [image|] eqn:Himage.
    + pose proof (fallbackImages_entries _ _ Himage) as Hne.
      apply String.eqb_neq in Hne. cbn [Lookup.refTruthy truthy].
      rewrite Hne. cbn [negb ret tryCatch app].
      exists [Fetch (Lookup.searchRequest (characterName b ++ " " ++ anime b))],
             (VString image).
      split; [reflexivity|]. split; [cbn [truthy]; now rewrite Hne|].
      right. right. left. split; [reflexivity|]. now exists image.
    + rewrite (bool_decide_eq_false_2 _ Hseries).
      cbn [Lookup.refTruthy truthy ret tryCatch app]. now apply Hdefault.
  - now apply Hdefault.
Qed.

(** C3, as stated, fails: a badge of the declared type whose
    [characterName] is empty is rejected with an error, which reaches
    the caller. *)
Lemma lookup_rejects_empty_name :
  Lookup.generateAvatar (constantWorld (Rejected networkError)) plainEngine
    (badgeValue (mkAnimeBadge "" "Naruto" "Never gives up" "#FF7F00"))
  = ([], Throw (Error invalidBadgeMessage)).
Proof. reflexivity. Qed.

(** C3 (amended): for a badge whose [characterName] and [anime] are
    present and not empty, the lookup variant never fails, whatever
    the network and the engine do: it returns a value that is not
    empty or missing.  For a badge of the declared type, when neither
    name is the name of a member that objects inherit, that value is
    an image reference: the image the table has for the character;
    else the [image_url] of the first result of a search that
    succeeded; else the image [fallbackImages] has for the anime, or
    the default image.  A badge that lacks one of the two names is
    rejected with [Invalid badge data provided]. *)
Theorem lookup_never_fails (W : World) (E : Engine) (badge : value) :
  truthy (getOptional badge "characterName") = true ->
  truthy (getOptional badge "anime") = true ->
  (exists t image,
     Lookup.generateAvatar W E badge = (t, Return image)
     /\ Lookup.refTruthy image = true)
  /\ (forall b : AnimeBadge,
        badge = badgeValue b ->
        characterName b ∉ Lookup.objectPrototypeKeys ->
        anime b ∉ Lookup.objectPrototypeKeys ->
        exists t v,
          Lookup.generateAvatar W E badge = (t, Return (Lookup.Ref v))
          /\ truthy v = true
          /\ ((exists image, Lookup.characterImages !! characterName b = Some image
                             /\ v = VString image)
              \/ (Lookup.characterImages !! characterName b = None
                  /\ exists response data,
                       fetch W (Lookup.searchRequest (characterName b ++ " " ++ anime b))
                       = Resolved response
                       /\ ok response = true
                       /\ json E response = Return data
                       /\ Lookup.searchResult E data = Return (Some v))
              \/ (Lookup.characterImages !! characterName b = None
                  /\ exists image, Lookup.fallbackImages !! anime b = Some image
                                   /\ v = VString image)
              \/ (Lookup.characterImages !! characterName b = None
                  /\ v = VString Lookup.defaultImage)))
  /\ forall incomplete, Lookup.invalidBadge incomplete = true ->
       Lookup.generateAvatar W E incomplete = ([], Throw (Error invalidBadgeMessage)).
Proof.
  intros Hname Hanime. split; [|split].
  - unfold Lookup.generateAvatar, Lookup.invalidBadge. rewrite Hname, Hanime.
    cbn [negb orb].
    destruct (Lookup.resolveImage W E badge) as [t [image|e]] eqn:Hresolve;
      cbn [tryCatch ret].
    + exists t, image. split; [reflexivity|].
      exact (resolveImage_truthy W E badge t image Hresolve).
    + now exists (t ++ []), (Lookup.Ref (VString Lookup.defaultImage)).
  - intros b -> Hproto Hseries.
    apply lookup_typed_result; [| |exact Hproto|exact Hseries].
    + intros Hempty. rewrite <- String.eqb_eq in Hempty. revert Hname.
      cbn [badgeValue getOptional isNullish readProp lookupProp String.eqb Ascii.eqb
           Bool.eqb truthy].
      now rewrite Hempty.
    + intros Hempty. rewrite <- String.eqb_eq in Hempty. revert Hanime.
      cbn [badgeValue getOptional isNullish readProp lookupProp String.eqb Ascii.eqb
           Bool.eqb truthy].
      now rewrite Hempty.
  - intros incomplete H. unfold Lookup.generateAvatar. now rewrite H.
Qed.

Lemma lookup_never_fails_witness :
  exists t v,
    Lookup.generateAvatar (constantWorld (Rejected networkError)) plainEngine
      (badgeValue (mkAnimeBadge "Muzan" "Demon Slayer" "Plans ahead" "#000000"))
    = (t, Return (Lookup.Ref v))
    /\ truthy v = true.
Proof.
  destruct (proj1 (proj2 (lookup_never_fails
                            (constantWorld (Rejected networkError)) plainEngine
                            (badgeValue (mkAnimeBadge "Muzan" "Demon Slayer" "Plans ahead"
                                           "#000000"))
                            eq_refl eq_refl))
              (mkAnimeBadge "Muzan" "Demon Slayer" "Plans ahead" "#000000") eq_refl)
    as (t & v & Hrun & Hv & _).
  - apply (bool_decide_unpack _). vm_compute. exact I.
  - apply (bool_decide_unpack _). vm_compute. exact I.
  - exists t, v. now split.
Defined.

(** C4, as stated, fails: for a character that is not in the table and
    the series [Demon Slayer], a failing search gives the image of
    line 388, not the image that [fallbackImages] has for the
    series. *)
Lemma failed_search_skips_series_default :
  Lookup.characterImages !! "Muzan" = None
  /\ snd (Lookup.generateAvatar (constantWorld (Rejected networkError)) plainEngine
            (badgeValue (mkAnimeBadge "Muzan" "Demon Slayer" "Plans ahead" "#000000")))
     = Return (Lookup.Ref (VString Lookup.defaultImage))
  /\ Lookup.fallbackImages !! "Demon Slayer" = Some (Lookup.cdn "15/271763.jpg")
  /\ Lookup.cdn "15/271763.jpg" <> Lookup.defaultImage.
Proof. repeat split; try reflexivity. discriminate. Qed.

(** C4 (amended): for a badge whose [characterName] gives nothing in
    the character-image table, a failing search makes the lookup
    variant return the image of line 388 for every [anime], known or
    not, and nothing is raised; that image is the one
    [fallbackImages] has for [Naruto]. *)
Theorem failed_search_default (W : World) (E : Engine) (b : AnimeBadge) :
  characterName b <> "" -> anime b <> "" ->
  Lookup.characterImages !! characterName b = None ->
  characterName b ∉ Lookup.objectPrototypeKeys ->
  Lookup.searchFails W (Lookup.searchRequest (characterName b ++ " " ++ anime b)) ->
  Lookup.generateAvatar W E (badgeValue b)
  = ([Fetch (Lookup.searchRequest (characterName b ++ " " ++ anime b))],
     Return (Lookup.Ref (VString Lookup.defaultImage)))
  /\ Lookup.fallbackImages !! "Naruto" = Some Lookup.defaultImage.
Proof.
  intros Hname Hanime Htable Hproto Hfails. split; [|reflexivity].
  apply String.eqb_neq in Hname, Hanime.
  unfold Lookup.generateAvatar, Lookup.invalidBadge, Lookup.resolveImage, awaitFetch.
  cbn [badgeValue getOptional isNullish readProp lookupProp String.eqb Ascii.eqb
       Bool.eqb truthy toString lift bind].
  rewrite Hname, Hanime. unfold Lookup.lookupMember. rewrite Htable.
  rewrite (bool_decide_eq_false_2 _ Hproto).
  cbn [Lookup.refTruthy truthy negb orb bind emit app].
  unfold Lookup.searchFails in Hfails.
  destruct (fetch W _) as [response|e]; cbn [ret throw bind tryCatch app].
  - rewrite Hfails. reflexivity.
  - reflexivity.
Qed.

Lemma failed_search_default_witness :
  Lookup.generateAvatar (constantWorld (Rejected networkError)) plainEngine
    (badgeValue (mkAnimeBadge "Muzan" "Demon Slayer" "Plans ahead" "#000000"))
  = ([Fetch (Lookup.searchRequest "Muzan Demon Slayer")],
     Return (Lookup.Ref (VString Lookup.defaultImage))).
Proof.
  refine (proj1 (failed_search_default (constantWorld (Rejected networkError)) plainEngine
                   (mkAnimeBadge "Muzan" "Demon Slayer" "Plans ahead" "#000000")
                   _ _ _ _ _)).
  - discriminate.
  - discriminate.
  - reflexivity.
  - apply (bool_decide_unpack _). vm_compute. exact I.
  - exact I.
Defined.

(** * Further properties *)

(** ** getUserProfileData *)

(** X1: When both requests are answered with a success and both bodies
    parse, the result holds the two parsed bodies. *)
Theorem profile_fetched (W : World) (E : Engine) (username : string)
    (userResponse reposResponse : Response) (userText reposText : string)
    (parsedUser parsedRepos : value) :
  fetch W (userRequest username) = Resolved userResponse ->
  fetch W (reposRequest username) = Resolved reposResponse ->
  ok userResponse = true -> ok reposResponse = true ->
  body userResponse = Return userText -> body reposResponse = Return reposText ->
  JSON_parse E userText = Parsed parsedUser ->
  JSON_parse E reposText = Parsed parsedRepos ->
  getUserProfileData W E username
  = ([Fetch (userRequest username); Fetch (reposRequest username)],
     Return (mkProfileData parsedUser parsedRepos)).
Proof.
  intros Hu Hr Hou Hor Hbu Hbr Hpu Hpr.
  unfold getUserProfileData, fetchProfile, fetchBoth, json.
  rewrite Hu, Hr. cbn [emit bind ret throw app].
  rewrite Hou, Hor, Hbu, Hbr, Hpu, Hpr. reflexivity.
Qed.

Lemma profile_fetched_witness :
  getUserProfileData
    (mkWorld None None
       (fun req => if String.eqb (url req) (url (userRequest "octocat"))
                   then Resolved (okResponse userBodyText)
                   else Resolved (okResponse "[]"))
       false)
    (scriptedEngine [(userBodyText, Parsed userBodyValue); ("[]", Parsed (VArray []))])
    "octocat"
  = ([Fetch (userRequest "octocat"); Fetch (reposRequest "octocat")],
     Return (mkProfileData userBodyValue (VArray []))).
Proof.
  apply (profile_fetched _ _ "octocat" (okResponse userBodyText) (okResponse "[]")
           userBodyText "[]" userBodyValue (VArray [])); reflexivity.
Defined.

(** X2: Every call issues the two requests, once each and in this order,
    whatever the answers are: nothing is retried. *)
Theorem two_requests_always (W : World) (E : Engine) (username : string) :
  fst (getUserProfileData W E username)
  = [Fetch (userRequest username); Fetch (reposRequest username)].
Proof.
  unfold getUserProfileData, fetchProfile, fetchBoth, json.
  destruct (fetch W (userRequest username)) as [u|eu];
    destruct (fetch W (reposRequest username)) as [r|er];
    cbn [emit bind ret throw app tryCatch].
  - destruct (ok u); cbn [negb].
    + destruct (ok r); cbn [negb lift bind throw tryCatch app].
      * destruct (body u) as [tu|e]; cbn [bind tryCatch app].
        -- destruct (JSON_parse E tu); cbn [bind tryCatch app].
           ++ destruct (body r) as [tr|e]; cbn [bind tryCatch app].
              ** destruct (JSON_parse E tr); cbn [bind ret tryCatch app];
                   [reflexivity|].
                 now destruct (includes _ _).
              ** now destruct (includes _ _).
           ++ now destruct (includes _ _).
        -- now destruct (includes _ _).
      * now destruct (includes _ _).
    + destruct (Nat.eqb (status u) 404); cbn [throw tryCatch];
        now destruct (includes _ _).
  - now destruct (includes _ _).
  - now destruct (includes _ _).
  - now destruct (includes _ _).
Qed.

(** X3: When the user response is a success and the repositories response
    is not, the error carries the status of the repositories
    response, whatever that status and the bodies are. *)
Theorem repos_status_error (W : World) (E : Engine) (username : string)
    (userResponse reposResponse : Response) :
  fetch W (userRequest username) = Resolved userResponse ->
  fetch W (reposRequest username) = Resolved reposResponse ->
  ok userResponse = true -> ok reposResponse = false ->
  snd (getUserProfileData W E username)
  = Throw (Error ("Failed to fetch repository data. Status: "
                    ++ natToString (status reposResponse))%string).
Proof.
  intros Hu Hr Hou Hor.
  unfold getUserProfileData, fetchProfile, fetchBoth.
  rewrite Hu, Hr. cbn [emit bind ret throw app].
  rewrite Hou, Hor. cbn [negb throw tryCatch errMessage Error].
  now rewrite status_message_unmarked.
Qed.

Lemma repos_status_error_witness :
  snd (getUserProfileData
         (mkWorld None None
            (fun req => if String.eqb (url req) (url (userRequest "octocat"))
                        then Resolved (okResponse userBodyText)
                        else Resolved (mkResponse 500 "Internal Server Error" (Return "")))
            false)
         plainEngine "octocat")
  = Throw (Error "Failed to fetch repository data. Status: 500").
Proof.
  apply (repos_status_error _ plainEngine "octocat" (okResponse userBodyText)
           (mkResponse 500 "Internal Server Error" (Return ""))); reflexivity.
Defined.

Lemma status_error_not_rate_limited_witness :
  snd (getUserProfileData (constantWorld (Resolved quotaResponse)) plainEngine "octocat")
  = Throw (Error "Failed to fetch user data. Status: 403").
Proof.
  apply (status_error_not_rate_limited (constantWorld (Resolved quotaResponse))
           plainEngine "octocat" quotaResponse quotaResponse);
    try reflexivity.
  discriminate.
Defined.

Lemma marked_rejection_rate_limited_witness :
  snd (getUserProfileData
         (mkWorld None None
            (fun req => if String.eqb (url req) (url (userRequest "octocat"))
                        then Rejected (mkError "HttpError" "API rate limit exceeded for 203.0.113.7.")
                        else Resolved (okResponse "[]"))
            false)
         plainEngine "octocat")
  = Throw (Error rateLimitedMessage).
Proof.
  apply (marked_rejection_rate_limited _ plainEngine "octocat"
           (mkError "HttpError" "API rate limit exceeded for 203.0.113.7.")
           (okResponse "[]")); reflexivity.
Defined.

(** X5: For a user name that contains the marker, a 404 of the user
    request comes out as the rate-limit error: the not-found message
    quotes the name, and the [catch] block finds the marker in it. *)
Theorem marked_username_rate_limited (W : World) (E : Engine) (username : string)
    (userResponse reposResponse : Response) :
  fetch W (userRequest username) = Resolved userResponse ->
  fetch W (reposRequest username) = Resolved reposResponse ->
  status userResponse = 404 ->
  includes username rateLimitMarker = true ->
  snd (getUserProfileData W E username) = Throw (Error rateLimitedMessage).
Proof.
  intros Hu Hr Hs Hm.
  unfold getUserProfileData, fetchProfile, fetchBoth.
  rewrite Hu, Hr. cbn [emit bind ret throw app].
  rewrite (ok_404 _ Hs), Hs. cbn [negb Nat.eqb throw tryCatch].
  cbn [errMessage Error]. rewrite includes_notFoundMessage, Hm. reflexivity.
Qed.

Lemma marked_username_rate_limited_witness :
  snd (getUserProfileData (constantWorld (Resolved notFoundResponse)) plainEngine
         "API rate limit exceeded")
  = Throw (Error rateLimitedMessage).
Proof.
  apply (marked_username_rate_limited (constantWorld (Resolved notFoundResponse))
           plainEngine "API rate limit exceeded" notFoundResponse notFoundResponse);
    reflexivity.
Defined.

(** X6: A rejection of the user request whose message does not have the
    marker reaches the caller as the same error object, name and
    message unchanged. *)
Theorem rejection_passed_on (W : World) (E : Engine) (username : string)
    (e : JsError) (reposResponse : Response) :
  fetch W (userRequest username) = Rejected e ->
  fetch W (reposRequest username) = Resolved reposResponse ->
  includes (errMessage e) rateLimitMarker = false ->
  snd (getUserProfileData W E username) = Throw e.
Proof.
  intros Hu Hr Hm. unfold getUserProfileData, fetchProfile, fetchBoth.
  rewrite Hu, Hr. cbn [emit bind ret throw app tryCatch]. now rewrite Hm.
Qed.

Lemma rejection_passed_on_witness :
  snd (getUserProfileData
         (mkWorld None None
            (fun req => if String.eqb (url req) (url (userRequest "octocat"))
                        then Rejected networkError else Resolved (okResponse "[]"))
            false)
         plainEngine "octocat")
  = Throw networkError.
Proof.
  apply (rejection_passed_on _ plainEngine "octocat" networkError (okResponse "[]"));
    reflexivity.
Defined.

(** ** getAnimeBadge *)

(** The [catch] block throws, and issues no request. *)
Ltac catch_kinds :=
  match goal with
  | |- context [badgeCatch ?x] =>
      let e' := fresh "e'" in
      destruct (badgeCatch_kinds x) as (e' & -> & _); reflexivity
  end.

(** X7: A call issues at most one request, and only for a valid profile
    and with the key of the environment: for an invalid profile
    nothing happens, without a key the prompt is built and no request
    is sent, and otherwise there is the one request, never a second
    one. *)
Theorem badge_at_most_one_request (W : World) (E : Engine) (profileData : UserProfile) :
  (validProfile profileData = false /\ fst (getAnimeBadge W E profileData) = [])
  \/ (validProfile profileData = true
      /\ (exists e, getOpenRouterKey W = Throw e)
      /\ fst (getAnimeBadge W E profileData) = [PromptBuilt])
  \/ (exists key, validProfile profileData = true
      /\ OPENROUTER_API_KEY W = Some key /\ key <> ""
      /\ fst (getAnimeBadge W E profileData) = [PromptBuilt; Fetch (chatRequest key)]).
Proof.
  unfold getAnimeBadge. destruct (validProfile profileData); cbn [negb];
    [|left; auto].
  right. unfold requestContent, awaitFetch, getOpenRouterKey, envKey.
  destruct (OPENROUTER_API_KEY W) as [key|] eqn:Hkey.
  - destruct (String.eqb key "") eqn:Hk.
    + left. split; [reflexivity|]. split; [eauto|].
      cbn [emit lift bind app tryCatch]. catch_kinds.
    + right. exists key. apply String.eqb_neq in Hk. repeat split; auto.
      cbn [emit lift bind app].
      destruct (fetch W (chatRequest key)) as [response|e];
        cbn [ret throw bind app tryCatch].
      * destruct (ok response); cbn [negb].
        -- destruct (json E response) as [data|e]; cbn [lift bind app tryCatch].
           ++ destruct (readContent E data) as [content|e];
                cbn [lift bind app tryCatch].
              ** destruct (parseBadge E content); cbn [tryCatch]; [reflexivity|].
                 catch_kinds.
              ** catch_kinds.
           ++ catch_kinds.
        -- destruct (text response) as [errorText|e];
             cbn [lift bind throw app tryCatch]; catch_kinds.
      * catch_kinds.
  - left. split; [reflexivity|]. split; [eauto|].
    cbn [emit lift bind app tryCatch]. catch_kinds.
Qed.

(** X8: Without [OPENROUTER_API_KEY], or with an empty one, a valid
    profile gets the configuration error as it is, not wrapped, and no
    request is sent. *)
Theorem badge_missing_key (W : World) (E : Engine) (profileData : UserProfile) :
  validProfile profileData = true ->
  OPENROUTER_API_KEY W = None \/ OPENROUTER_API_KEY W = Some "" ->
  getAnimeBadge W E profileData
  = ([PromptBuilt], Throw (Error "OPENROUTER_API_KEY environment variable not set")).
Proof.
  intros Hvalid Hkey. unfold getAnimeBadge, requestContent, getOpenRouterKey, envKey.
  rewrite Hvalid. destruct Hkey as [-> | ->]; reflexivity.
Qed.

Lemma badge_missing_key_witness :
  getAnimeBadge (mkWorld (Some "") None (fun _ => Rejected networkError) false)
    plainEngine sampleUserProfile
  = ([PromptBuilt], Throw (Error "OPENROUTER_API_KEY environment variable not set")).
Proof.
  apply (badge_missing_key (mkWorld (Some "") None (fun _ => Rejected networkError) false)
           plainEngine sampleUserProfile); [reflexivity | now right].
Defined.

(** X9: A request that is rejected with an error named [AbortError] gives
    the timeout error, whatever the message of the rejection. *)
Theorem badge_timeout (W : World) (E : Engine) (profileData : UserProfile)
    (key : string) (e : JsError) :
  validProfile profileData = true ->
  getOpenRouterKey W = Return key ->
  fetch W (chatRequest key) = Rejected e ->
  errName e = "AbortError" ->
  getAnimeBadge W E profileData
  = ([PromptBuilt; Fetch (chatRequest key)], Throw (Error timedOutMessage)).
Proof.
  intros Hvalid Hkey Hfetch Hname.
  unfold getAnimeBadge, requestContent, awaitFetch.
  rewrite Hvalid, Hkey. cbn [negb emit lift bind app]. rewrite Hfetch.
  cbn [throw bind tryCatch app]. unfold badgeCatch. rewrite Hname. reflexivity.
Qed.

Lemma badge_timeout_witness :
  getAnimeBadge
    (constantWorld (Rejected (mkError "AbortError" "The operation was aborted.")))
    plainEngine sampleUserProfile
  = ([PromptBuilt; Fetch (chatRequest "sk-or-test")], Throw (Error timedOutMessage)).
Proof.
  apply (badge_timeout _ plainEngine sampleUserProfile "sk-or-test"
           (mkError "AbortError" "The operation was aborted.")); reflexivity.
Defined.

(** X10: The badge of a reply is the value that the generated text parses
    to, after the fence is stripped, when its four fields are there:
    it is returned as parsed, with nothing added or removed. *)
Theorem badge_returned_as_parsed (W : World) (E : Engine) (profileData : UserProfile)
    (key : string) (response : Response) (bodyText content : string)
    (data parsedData : value) :
  validProfile profileData = true ->
  getOpenRouterKey W = Return key ->
  fetch W (chatRequest key) = Resolved response ->
  ok response = true ->
  body response = Return bodyText ->
  JSON_parse E bodyText = Parsed data ->
  hasMessage data = true ->
  readProp (readProp (readIndex (readProp data "choices") 0) "message") "content"
    = VString content ->
  JSON_parse E (extractJsonText content) = Parsed parsedData ->
  hasAllFields parsedData = true ->
  getAnimeBadge W E profileData
  = ([PromptBuilt; Fetch (chatRequest key)], Return parsedData).
Proof.
  intros Hvalid Hkey Hfetch Hok Hbody Hparse Hmsg Hcontent Hbadge Hfields.
  unfold getAnimeBadge. rewrite Hvalid. cbn [negb].
  rewrite (requestContent_reply W E key response bodyText data
             Hkey Hfetch Hok Hbody Hparse Hmsg), Hcontent.
  cbn [bind]. unfold parseBadge. cbn [callTrim andThen].
  unfold extractJsonText in Hbadge. rewrite Hbadge.
  assert (Hv : isNullish parsedData = false) by now destruct parsedData.
  rewrite !(getProp_defined E parsedData _ Hv). cbn [andThen].
  unfold hasAllFields in Hfields.
  apply andb_prop in Hfields as [Hfields H4]. apply andb_prop in Hfields as [Hfields H3].
  apply andb_prop in Hfields as [H1 H2].
  rewrite H1, H2, H3, H4. reflexivity.
Qed.

Lemma badge_returned_as_parsed_witness :
  getAnimeBadge (chatWorld (wrapFence "json" redBadgeText))
    (scriptedEngine
       [(chatBody (wrapFence "json" redBadgeText),
         Parsed (chatData (wrapFence "json" redBadgeText)));
        (redBadgeText, Parsed redBadge)])
    sampleUserProfile
  = ([PromptBuilt; Fetch (chatRequest "sk-or-test")], Return redBadge).
Proof.
  apply (badge_returned_as_parsed _ _ sampleUserProfile "sk-or-test"
           (okResponse (chatBody (wrapFence "json" redBadgeText)))
           (chatBody (wrapFence "json" redBadgeText)) (wrapFence "json" redBadgeText)
           (chatData (wrapFence "json" redBadgeText)) redBadge); reflexivity.
Defined.

(** X11: A reply whose status is not a success fails with the wrapped
    error that carries the status, the status text and the body, with
    bearer tokens redacted. *)
Theorem badge_upstream_error (W : World) (E : Engine) (profileData : UserProfile)
    (key : string) (response : Response) (errorText : string) :
  validProfile profileData = true ->
  getOpenRouterKey W = Return key ->
  fetch W (chatRequest key) = Resolved response ->
  ok response = false ->
  body response = Return errorText ->
  includes (upstreamMessage response errorText) "JSON.parse" = false ->
  includes (upstreamMessage response errorText) "environment variable" = false ->
  getAnimeBadge W E profileData
  = ([PromptBuilt; Fetch (chatRequest key)],
     Throw (Error (badgeFailurePrefix
                     ++ sanitize (upstreamMessage response errorText))%string)).
Proof.
  intros Hvalid Hkey Hfetch Hok Hbody Hjson Henv.
  unfold getAnimeBadge, requestContent, awaitFetch, text.
  rewrite Hvalid, Hkey. cbn [negb emit lift bind app]. rewrite Hfetch.
  cbn [ret bind app]. rewrite Hok, Hbody. cbn [negb lift bind throw tryCatch app].
  unfold badgeCatch. cbn [errName errMessage Error].
  fold (upstreamMessage response errorText). rewrite Hjson, Henv. reflexivity.
Qed.

Lemma badge_upstream_error_witness :
  getAnimeBadge
    (constantWorld (Resolved (mkResponse 401 "Unauthorized"
                                (Return "bad key Bearer sk-or-test"))))
    plainEngine sampleUserProfile
  = ([PromptBuilt; Fetch (chatRequest "sk-or-test")],
     Throw (Error (badgeFailurePrefix
                     ++ "OpenRouter API error: 401 Unauthorized - bad key Bearer [REDACTED]"))).
Proof.
  apply (badge_upstream_error _ plainEngine sampleUserProfile "sk-or-test"
           (mkResponse 401 "Unauthorized" (Return "bad key Bearer sk-or-test"))
           "bad key Bearer sk-or-test"); reflexivity.
Defined.

(** X12: A reply whose status is not a success and whose body has the text
    [environment variable] in it is taken for a configuration error:
    the error is passed on as it is, not wrapped and with no token
    redacted. *)
Theorem badge_upstream_error_unredacted (W : World) (E : Engine)
    (profileData : UserProfile) (key : string) (response : Response)
    (errorText : string) :
  validProfile profileData = true ->
  getOpenRouterKey W = Return key ->
  fetch W (chatRequest key) = Resolved response ->
  ok response = false ->
  body response = Return errorText ->
  includes (upstreamMessage response errorText) "JSON.parse" = false ->
  includes (upstreamMessage response errorText) "environment variable" = true ->
  getAnimeBadge W E profileData
  = ([PromptBuilt; Fetch (chatRequest key)],
     Throw (Error (upstreamMessage response errorText))).
Proof.
  intros Hvalid Hkey Hfetch Hok Hbody Hjson Henv.
  unfold getAnimeBadge, requestContent, awaitFetch, text.
  rewrite Hvalid, Hkey. cbn [negb emit lift bind app]. rewrite Hfetch.
  cbn [ret bind app]. rewrite Hok, Hbody. cbn [negb lift bind throw tryCatch app].
  unfold badgeCatch. cbn [errName errMessage Error].
  fold (upstreamMessage response errorText). rewrite Hjson, Henv. reflexivity.
Qed.

Lemma badge_upstream_error_unredacted_witness :
  getAnimeBadge
    (constantWorld
       (Resolved (mkResponse 500 "Internal Server Error"
                    (Return "environment variable missing, got Bearer sk-or-test"))))
    plainEngine sampleUserProfile
  = ([PromptBuilt; Fetch (chatRequest "sk-or-test")],
     Throw (Error "OpenRouter API error: 500 Internal Server Error - environment variable missing, got Bearer sk-or-test")).
Proof.
  apply (badge_upstream_error_unredacted _ plainEngine sampleUserProfile "sk-or-test"
           (mkResponse 500 "Internal Server Error"
              (Return "environment variable missing, got Bearer sk-or-test"))
           "environment variable missing, got Bearer sk-or-test"); reflexivity.
Defined.

(** ** Redaction *)

Lemma run_lit_none (l : chars) (k : Continuation) (x : MatchState) :
  startsWithChars l (rest x) = false -> run (lit l) k x = None.
Proof.
  intros H. destruct (run (lit l) k x) as [y|] eqn:E; [|reflexivity].
  apply run_lit_sound in E as (s' & Hs & _). rewrite Hs, startsWithChars_app in H.
  discriminate.
Qed.

Lemma matchAt_bearer_none (i : nat) (s : chars) :
  startsWithChars (str "Bearer ") s = false -> matchAt bearerRegex i s = None.
Proof.
  intros H. unfold matchAt, bearerRegex. seq_step. now apply run_lit_none.
Qed.

Lemma replaceFrom_untouched (repl s : chars) :
  forall i fuel, List.length s < fuel ->
  includesChars (str "Bearer ") s = false ->
  replaceFrom fuel bearerRegex repl i s = s.
Proof.
  induction s as [|c s IH]; intros i fuel Hfuel Hinc;
    (destruct fuel as [|fuel]; [simpl in Hfuel; lia|]); cbn [replaceFrom].
  - now rewrite matchAt_bearer_none.
  - cbn [includesChars] in Hinc. apply orb_false_elim in Hinc as [Hstart Hrest].
    rewrite matchAt_bearer_none by exact Hstart.
    rewrite IH; [reflexivity | simpl in Hfuel; lia | exact Hrest].
Qed.

(** X13: A message without the text [Bearer ] in it goes through the
    redaction unchanged. *)
Theorem sanitize_without_bearer (message : string) :
  message <> "" -> includes message "Bearer " = false ->
  sanitize message = message.
Proof.
  intros Hne Hinc. unfold sanitize, replaceAll.
  rewrite replaceFrom_untouched; [|lia | exact Hinc].
  rewrite unstr_str. apply String.eqb_neq in Hne. now rewrite Hne.
Qed.

Lemma sanitize_without_bearer_witness :
  sanitize invalidStructureMessage = invalidStructureMessage.
Proof.
  apply (sanitize_without_bearer invalidStructureMessage); [discriminate | reflexivity].
Defined.

Lemma matchAt_bearer_token (i : nat) (tok post : chars) :
  tok <> [] -> forallb notWhiteSpace tok = true ->
  match post with c :: _ => isWhiteSpace c = true | [] => True end ->
  matchAt bearerRegex i (str "Bearer " ++ tok ++ post)
  = Some (mkState (i + 7 + List.length tok) post None).
Proof.
  intros Hne Htok Hpost. unfold matchAt, bearerRegex. seq_step.
  rewrite run_lit_app. destruct tok as [|c tok]; [contradiction|].
  cbn [forallb] in Htok. apply andb_prop in Htok as [Hc Htok].
  cbn [run]. unfold oneChar. cbn [rest app endIndex capture1]. rewrite Hc.
  rewrite (greedyStar_skip notWhiteSpace Some tok _ post None
             (mkState (i + 7 + List.length (c :: tok)) post None)).
  - reflexivity.
  - exact Htok.
  - destruct post as [|d post]; [exact I|]. unfold notWhiteSpace. now rewrite Hpost.
  - f_equal. f_equal. simpl. lia.
Qed.

Lemma replaceFrom_copy (repl pre : chars) :
  forall i fuel s, existsb (Ascii.eqb "B") pre = false ->
  List.length (pre ++ s) < fuel ->
  replaceFrom fuel bearerRegex repl i (pre ++ s)
  = pre ++ replaceFrom (fuel - List.length pre) bearerRegex repl (i + List.length pre) s.
Proof.
  induction pre as [|c pre IH]; intros i fuel s Hpre Hfuel.
  - cbn [app List.length]. now rewrite Nat.sub_0_r, Nat.add_0_r.
  - cbn [existsb] in Hpre. apply orb_false_elim in Hpre as [Hc Hpre].
    destruct fuel as [|fuel]; [simpl in Hfuel; lia|].
    cbn [app replaceFrom]. rewrite matchAt_bearer_none.
    + rewrite IH; [|exact Hpre | simpl in Hfuel; lia].
      cbn [List.length]. now replace (S i + List.length pre)
        with (i + S (List.length pre)) by lia.
    + change (str "Bearer ") with ("B"%char :: str "earer ").
      cbn [app startsWithChars]. now rewrite Hc.
Qed.

(** X14: A bearer token is replaced by [[REDACTED]] whatever the token is:
    nothing of it is left in the message.  Here the token is the first
    thing in the message that could start a match, and it ends at the
    end of the message or at a whitespace. *)
Theorem sanitize_redacts_token (pre tok post : string) :
  existsb (Ascii.eqb "B") (str pre) = false ->
  tok <> "" -> forallb notWhiteSpace (str tok) = true ->
  (post = "" \/ exists c rest, post = String c rest /\ isWhiteSpace c = true) ->
  includes post "Bearer " = false ->
  sanitize (pre ++ "Bearer " ++ tok ++ post)
  = (pre ++ "Bearer [REDACTED]" ++ post)%string.
Proof.
  intros Hpre Hne Htok Hpost Hinc.
  assert (Htok' : str tok <> []).
  { intros H. apply Hne. apply str_inj. exact H. }
  assert (Hpost' : match str post with c :: _ => isWhiteSpace c = true | [] => True end).
  { destruct Hpost as [-> | (c & rest & -> & Hc)]; [exact I | exact Hc]. }
  assert (Hall : replaceAll bearerRegex "Bearer [REDACTED]"
                   (pre ++ "Bearer " ++ tok ++ post)
                 = (pre ++ "Bearer [REDACTED]" ++ post)%string).
  { unfold replaceAll. rewrite !str_app. rewrite replaceFrom_copy; [|exact Hpre | lia].
    rewrite !length_app.
    replace (S (List.length (str pre) + (List.length (str "Bearer ")
               + (List.length (str tok) + List.length (str post))))
             - List.length (str pre))
      with (S (List.length (str "Bearer ") + (List.length (str tok)
               + List.length (str post)))) by lia.
    cbn [replaceFrom]. rewrite matchAt_bearer_token by assumption.
    cbn [endIndex rest].
    replace (Nat.eqb (0 + List.length (str pre) + 7 + List.length (str tok))
               (0 + List.length (str pre))) with false
      by (symmetry; apply Nat.eqb_neq; lia).
    rewrite replaceFrom_untouched; [|simpl; lia | exact Hinc].
    rewrite <- !str_app. apply unstr_str. }
  unfold sanitize. rewrite Hall.
  destruct (String.eqb _ "") eqn:E; [|reflexivity].
  apply String.eqb_eq in E. apply (f_equal str) in E. rewrite !str_app in E.
  destruct (str pre); discriminate.
Qed.

Lemma sanitize_redacts_token_witness :
  sanitize "401 for Bearer sk-or-secret, retry" = "401 for Bearer [REDACTED] retry".
Proof.
  apply (sanitize_redacts_token "401 for " "sk-or-secret," " retry");
    try reflexivity; [discriminate|].
  right. now exists " "%char, "retry".
Defined.

(** ** The fence step, in full *)

Lemma trimChars_idem (l : chars) : trimChars (trimChars l) = trimChars l.
Proof.
  destruct (trimChars_split l) as (_ & _ & _ & _ & _ & [-> | H]); [reflexivity|].
  now apply trimChars_trimmed.
Qed.

Lemma trim_idem (s : string) : trim (trim s) = trim s.
Proof. unfold trim. now rewrite str_unstr, trimChars_idem. Qed.

(** X15: The text that is handed to [JSON.parse] has no whitespace at
    either end, fenced or not. *)
Theorem extractJsonText_trimmed (content : string) :
  trim (extractJsonText content) = extractJsonText content.
Proof.
  unfold extractJsonText, unwrapFence.
  destruct (exec fenceRegex (str (trim content))) as [y|]; [|apply trim_idem].
  destruct (capture1 y) as [[|c g]|]; try apply trim_idem.
Qed.

Lemma fenceTail_none_any (k : Continuation) (i : nat) (cap : option chars)
    (a w2 : chars) (d : ascii) :
  isWhiteSpace d = false ->
  run fenceTail k (mkState i ((a ++ [d]) ++ w2 ++ fence) cap) = None.
Proof.
  intros Hd. destruct (run fenceTail k _) as [y|] eqn:E; [|reflexivity].
  apply fenceTail_sound in E as (w & Hw & Hr). cbn [rest] in Hr.
  exfalso.
  replace ((a ++ [d]) ++ w2 ++ fence) with ((a ++ [d] ++ w2) ++ fence) in Hr
    by (rewrite <- !app_assoc; reflexivity).
  apply app_inv_tail in Hr. subst w.
  unfold allWhite in Hw. rewrite forallb_app in Hw.
  apply andb_prop in Hw as [_ Hw]. simpl in Hw. now rewrite Hd in Hw.
Qed.

(** The body of the pattern on any text that ends with the fence: the
    group captures what is left of the text without the whitespace at
    its ends, which may be nothing. *)
Lemma fence_body_match_any (w1 core w2 : chars) (i : nat) :
  allWhite w1 -> allWhite w2 -> core = [] \/ trimmed core ->
  exists n,
    run (Seq (Star isWhiteSpace)
          (Seq (Opt (Lit LF)) (Seq (Group (LazyStar anyChar)) fenceTail)))
      Some (mkState i (w1 ++ core ++ w2 ++ fence) None)
    = Some (mkState n [] (Some core)).
Proof.
  intros Hw1 Hw2 Hcore.
  destruct Hcore as [-> | [(c & core' & Hcore & Hc) (pre & d & Hlast & Hd)]];
    eexists; seq_step;
    change (run (Star ?p) ?k ?x)
      with (greedyStar p k (endIndex x) (rest x) (capture1 x));
    cbn [endIndex rest capture1].
  - cbn [app]. rewrite app_assoc. apply greedyStar_skip.
    + now apply allWhite_app.
    + reflexivity.
    + seq_step. rewrite run_Opt_none by (now apply newline_none).
      seq_step.
      change (run (Group (LazyStar ?p)) ?k ?x)
        with (lazyStar p
                (fun y => k (mkState (endIndex y) (rest y)
                               (Some (firstn (endIndex y - endIndex x) (rest x)))))
                (endIndex x) (rest x) (capture1 x)).
      cbn [endIndex rest capture1].
      apply (lazyStar_first _ [] _ fence None).
      * cbn [endIndex rest List.length].
        rewrite Nat.add_0_r, Nat.sub_diag. cbn [firstn].
        apply (fenceTail_ok _ [] _ _ _); [reflexivity | reflexivity].
      * intros a1 e a2 H. destruct a1; discriminate.
  - apply greedyStar_skip.
    + exact Hw1.
    + rewrite Hcore. exact Hc.
    + seq_step.
      rewrite run_Opt_none by (rewrite Hcore; now apply newline_none).
      seq_step.
      change (run (Group (LazyStar ?p)) ?k ?x)
        with (lazyStar p
                (fun y => k (mkState (endIndex y) (rest y)
                               (Some (firstn (endIndex y - endIndex x) (rest x)))))
                (endIndex x) (rest x) (capture1 x)).
      cbn [endIndex rest capture1].
      apply lazyStar_first.
      * cbn [endIndex rest].
        replace (i + List.length w1 + List.length core - (i + List.length w1))
          with (List.length core) by lia.
        rewrite firstn_app, firstn_all, Nat.sub_diag, firstn_0, app_nil_r.
        apply fenceTail_ok; [exact Hw2 | reflexivity].
      * intros a1 e a2 Hsplit. cbn [endIndex rest].
        rewrite Hlast in Hsplit. symmetry in Hsplit.
        apply last_of_suffix in Hsplit as (l' & Hl').
        change (e :: a2 ++ w2 ++ fence) with ((e :: a2) ++ w2 ++ fence).
        rewrite Hl'. now apply fenceTail_none_any.
Qed.

(** The match on a text between two fences, with the label or
    without: the group is the body without the whitespace at its
    ends. *)
Lemma fence_match_any (afterOpen inner : chars) :
  (if startsWithChars (str "json") afterOpen then skipn 4 afterOpen else afterOpen)
    = inner ++ fence ->
  exists n,
    exec fenceRegex (fence ++ afterOpen) = Some (mkState n [] (Some (trimChars inner))).
Proof.
  intros Hinner.
  destruct (trimChars_split inner) as (w1 & w2 & Hw1 & Hw2 & Hsplit & Hcore).
  set (core := trimChars inner) in *. clearbody core. subst inner.
  assert (Hbody : forall i, exists n,
    run (Seq (Star isWhiteSpace)
          (Seq (Opt (Lit LF)) (Seq (Group (LazyStar anyChar)) fenceTail)))
      Some (mkState i ((w1 ++ core ++ w2) ++ fence) None)
    = Some (mkState n [] (Some core))).
  { intros i. rewrite <- !app_assoc. now apply fence_body_match_any. }
  assert (Hat : exists n, matchAt fenceRegex 0 (fence ++ afterOpen)
                          = Some (mkState n [] (Some core))).
  { unfold matchAt, fenceRegex. seq_step.
    change (run Bol ?k ?x) with (if Nat.eqb (endIndex x) 0 then k x else None).
    cbn [endIndex Nat.eqb]. seq_step. rewrite run_lit_app. seq_step.
    destruct (startsWithChars (str "json") afterOpen) eqn:Hlabel.
    - apply startsWithChars_inv in Hlabel as (r & ->).
      change (skipn 4 (str "json" ++ r)) with r in Hinner. subst r.
      destruct (Hbody (0 + List.length fence + List.length (str "json"))) as (n & Hn).
      exists n. apply run_Opt_some. rewrite run_lit_app. exact Hn.
    - subst afterOpen. destruct (Hbody (0 + List.length fence)) as (n & Hn).
      exists n. rewrite run_Opt_none; [exact Hn|]. now apply run_lit_none. }
  destruct Hat as (n & Hn). exists n. now apply exec_first.
Qed.

Lemma ends_after_label (r m0 : chars) :
  str "json" ++ r = m0 ++ fence -> exists m, r = m ++ fence.
Proof.
  intros H. destruct m0 as [|a [|b [|c [|d m]]]]; try discriminate.
  exists m. cbn in H. now injection H.
Qed.

Lemma ends_with_fence (l m : chars) :
  l = m ++ fence -> startsWithChars (rev fence) (rev l) = true.
Proof. intros ->. rewrite rev_app_distr. apply startsWithChars_app. Qed.

Lemma ends_with_fence_inv (l : chars) :
  startsWithChars (rev fence) (rev l) = true ->
  l = firstn (List.length l - 3) l ++ fence.
Proof.
  intros H. apply startsWithChars_inv in H as (x & Hx).
  apply (f_equal (@rev ascii)) in Hx. rewrite rev_involutive, rev_app_distr in Hx.
  rewrite rev_involutive in Hx. subst l.
  rewrite length_app. change (List.length fence) with 3.
  replace (List.length (rev x) + 3 - 3) with (List.length (rev x)) by lia.
  now rewrite firstn_app, firstn_all, Nat.sub_diag, firstn_0, app_nil_r.
Qed.

(** X16: The fence step is the direct function: a text between an opening
    fence, with or without the label [json], and a closing fence is
    replaced by what is between them without the whitespace at its
    ends, unless that is nothing; every other text is kept as it is. *)
Theorem unwrapFence_direct (jsonStr : string) :
  unwrapFence jsonStr = unwrapDirect jsonStr.
Proof.
  unfold unwrapDirect, fencedBody.
  destruct (startsWithChars fence (str jsonStr)) eqn:Hopen.
  2:{ now apply unwrapFence_stable. }
  apply startsWithChars_inv in Hopen as (afterOpen & Htext).
  rewrite Htext. change (skipn 3 (fence ++ afterOpen)) with afterOpen.
  set (afterLabel := if startsWithChars (str "json") afterOpen
                     then skipn 4 afterOpen else afterOpen).
  destruct (startsWithChars (rev fence) (rev afterLabel)) eqn:Hclose.
  - apply ends_with_fence_inv in Hclose.
    set (inner := firstn (List.length afterLabel - 3) afterLabel) in *.
    destruct (fence_match_any afterOpen inner Hclose) as (n & Hn).
    unfold unwrapFence. rewrite Htext, Hn. cbn [capture1].
    destruct (trimChars inner) as [|c core] eqn:Hcore; [reflexivity|].
    unfold trim. rewrite str_unstr, <- Hcore. now rewrite trimChars_idem.
  - apply unwrapFence_nomatch. rewrite Htext.
    destruct (exec fenceRegex (fence ++ afterOpen)) as [y|] eqn:E; [|reflexivity].
    exfalso. apply exec_fence_inv in E as (m0 & Hm0).
    apply app_inv_head in Hm0.
    assert (Hends : exists m, afterLabel = m ++ fence).
    { unfold afterLabel.
      destruct (startsWithChars (str "json") afterOpen) eqn:Hlabel; [|eauto].
      apply startsWithChars_inv in Hlabel as (r & ->).
      change (skipn 4 (str "json" ++ r)) with r.
      now apply (ends_after_label r m0). }
    destruct Hends as (m & Hm). rewrite (ends_with_fence _ m Hm) in Hclose.
    discriminate.
Qed.

Example unwrapDirect_fenced : unwrapDirect (wrapFence "json" twoLine) = twoLine.
Proof. reflexivity. Qed.

Example unwrapDirect_blank : unwrapDirect "``` ```" = "``` ```".
Proof. reflexivity. Qed.

(** ** generateAvatar, the lookup variant: the tiers *)

(** X17: A character of the table gets the image of the table, and no
    request is sent, whatever the series is. *)
Theorem mapped_character_no_request (W : World) (E : Engine) (b : AnimeBadge)
    (image : string) :
  Lookup.characterImages !! characterName b = Some image ->
  anime b <> "" ->
  Lookup.generateAvatar W E (badgeValue b) = ([], Return (Lookup.Ref (VString image))).
Proof.
  intros Htable Hanime.
  destruct (characterImages_entries _ _ Htable) as [Hname Himage].
  unfold Lookup.generateAvatar. rewrite (badge_fields_valid b Hname Hanime).
  unfold Lookup.resolveImage.
  cbn [badgeValue readProp lookupProp String.eqb Ascii.eqb Bool.eqb toString lift bind].
  unfold Lookup.lookupMember. rewrite Htable.
  apply String.eqb_neq in Himage. cbn [Lookup.refTruthy truthy]. now rewrite Himage.
Qed.

Lemma mapped_character_no_request_witness :
  Lookup.generateAvatar (constantWorld (Rejected networkError)) plainEngine
    (badgeValue (mkAnimeBadge "Rock Lee" "Naruto" "Trains hard" "#00AA00"))
  = ([], Return (Lookup.Ref (VString (Lookup.cdn "11/253723.jpg")))).
Proof.
  apply (mapped_character_no_request (constantWorld (Rejected networkError)) plainEngine
           (mkAnimeBadge "Rock Lee" "Naruto" "Trains hard" "#00AA00")
           (Lookup.cdn "11/253723.jpg")); [reflexivity | discriminate].
Defined.

(** X18: A call sends at most one request, and that request is a search
    request, without credentials. *)
Theorem lookup_at_most_one_request (W : World) (E : Engine) (badge : value) :
  fst (Lookup.generateAvatar W E badge) = []
  \/ exists query,
       fst (Lookup.generateAvatar W E badge) = [Fetch (Lookup.searchRequest query)]
       /\ bearer (Lookup.searchRequest query) = None.
Proof.
  unfold Lookup.generateAvatar.
  destruct (Lookup.invalidBadge badge); [now left|].
  unfold Lookup.resolveImage, awaitFetch.
  destruct (toString E (readProp badge "characterName")) as [who|e];
    cbn [lift bind tryCatch ret app]; [|now left].
  destruct (Lookup.refTruthy (Lookup.lookupMember Lookup.characterImages who));
    cbn [ret tryCatch]; [now left|].
  destruct (toString E (readProp badge "anime")) as [series|e];
    cbn [lift bind tryCatch ret app]; [|now left].
  right. exists (who ++ " " ++ series)%string. split; [|reflexivity].
  cbn [emit bind app].
  destruct (fetch W _) as [response|e]; cbn [ret throw bind tryCatch app];
    [|reflexivity].
  destruct (ok response); cbn [negb throw tryCatch app]; [|reflexivity].
  destruct (json E response) as [data|e]; cbn [lift bind tryCatch ret app];
    [|reflexivity].
  destruct (Lookup.searchResult E data) as [[hit|]|e];
    cbn [lift bind tryCatch ret app]; try reflexivity.
  destruct (Lookup.refTruthy _); reflexivity.
Qed.

(** X19: What is returned is never an empty or missing reference: it is
    truthy on every path. *)
Theorem lookup_reference_truthy (W : World) (E : Engine) (badge : value)
    (t : list Event) (image : Lookup.AvatarRef) :
  Lookup.generateAvatar W E badge = (t, Return image) ->
  Lookup.refTruthy image = true.
Proof.
  unfold Lookup.generateAvatar.
  destruct (Lookup.invalidBadge badge); [discriminate|].
  unfold Lookup.resolveImage, awaitFetch.
  destruct (toString E (readProp badge "characterName")) as [who|e];
    cbn [lift bind tryCatch ret app].
  2:{ intros H. now injection H as _ <-. }
  destruct (Lookup.refTruthy (Lookup.lookupMember Lookup.characterImages who)) eqn:Hc;
    cbn [ret tryCatch].
  { intros H. now injection H as _ <-. }
  destruct (toString E (readProp badge "anime")) as [series|e];
    cbn [lift bind tryCatch ret app emit].
  2:{ intros H. now injection H as _ <-. }
  destruct (fetch W _) as [response|e]; cbn [ret throw bind tryCatch app].
  2:{ intros H. now injection H as _ <-. }
  destruct (ok response); cbn [negb throw tryCatch app].
  2:{ intros H. now injection H as _ <-. }
  destruct (json E response) as [data|e]; cbn [lift bind tryCatch ret app].
  2:{ intros H. now injection H as _ <-. }
  destruct (Lookup.searchResult E data) as [[hit|]|e] eqn:Hhit;
    cbn [lift bind tryCatch ret app].
  - intros H. injection H as _ <-. cbn [Lookup.refTruthy].
    now apply searchResult_truthy in Hhit.
  - destruct (Lookup.refTruthy (Lookup.lookupMember Lookup.fallbackImages series))
      eqn:Hf; cbn [ret tryCatch app]; intros H; injection H as _ <-;
      [exact Hf | reflexivity].
  - intros H. now injection H as _ <-.
Qed.

Lemma lookup_reference_truthy_witness :
  Lookup.refTruthy (Lookup.Ref (VString Lookup.defaultImage)) = true.
Proof.
  apply (lookup_reference_truthy (constantWorld (Rejected networkError)) plainEngine
           (badgeValue (mkAnimeBadge "Muzan" "Demon Slayer" "Plans ahead" "#000000"))
           [Fetch (Lookup.searchRequest "Muzan Demon Slayer")]).
  reflexivity.
Defined.

(** X20: When the search is answered with a success and no result, the
    image is the one [fallbackImages] has for the series, and the
    image of [Naruto] for a series it does not have. *)
Theorem empty_search_series_default (W : World) (E : Engine) (b : AnimeBadge)
    (response : Response) (bodyText : string) (data : value) :
  characterName b <> "" -> anime b <> "" ->
  Lookup.characterImages !! characterName b = None ->
  characterName b ∉ Lookup.objectPrototypeKeys ->
  anime b ∉ Lookup.objectPrototypeKeys ->
  fetch W (Lookup.searchRequest (characterName b ++ " " ++ anime b)) = Resolved response ->
  ok response = true ->
  body response = Return bodyText ->
  JSON_parse E bodyText = Parsed data ->
  isNullish data = false ->
  truthy (readProp data "data") = false \/ readProp data "data" = VArray [] ->
  Lookup.generateAvatar W E (badgeValue b)
  = ([Fetch (Lookup.searchRequest (characterName b ++ " " ++ anime b))],
     Return (Lookup.Ref (VString (default Lookup.defaultImage
                                    (Lookup.fallbackImages !! anime b))))).
Proof.
  intros Hname Hanime Htable Hproto Hseries Hfetch Hok Hbody Hparse Hdata Hempty.
  unfold Lookup.generateAvatar. rewrite (badge_fields_valid b Hname Hanime).
  unfold Lookup.resolveImage, awaitFetch, json.
  cbn [badgeValue readProp lookupProp String.eqb Ascii.eqb Bool.eqb toString lift bind].
  unfold Lookup.lookupMember at 1. rewrite Htable, (bool_decide_eq_false_2 _ Hproto).
  cbn [Lookup.refTruthy truthy emit bind app]. rewrite Hfetch.
  cbn [ret bind app]. rewrite Hok, Hbody, Hparse. cbn [negb lift bind app].
  assert (Hnone : Lookup.searchResult E data = Return None).
  { unfold Lookup.searchResult. rewrite (getProp_defined E data _ Hdata).
    cbn [andThen]. destruct Hempty as [-> | ->]; reflexivity. }
  rewrite Hnone. cbn [bind lift app].
  unfold Lookup.lookupMember.
  destruct (Lookup.fallbackImages !! anime b) as [image|] eqn:Himage.
  - pose proof (fallbackImages_entries _ _ Himage) as Hne.
    apply String.eqb_neq in Hne. cbn [Lookup.refTruthy truthy default].
    now rewrite Hne.
  - rewrite (bool_decide_eq_false_2 _ Hseries). reflexivity.
Qed.

Lemma empty_search_series_default_witness :
  Lookup.generateAvatar (constantWorld (Resolved (okResponse "{}")))
    (scriptedEngine [("{}", Parsed (VObject []))])
    (badgeValue (mkAnimeBadge "Muzan" "Demon Slayer" "Plans ahead" "#000000"))
  = ([Fetch (Lookup.searchRequest "Muzan Demon Slayer")],
     Return (Lookup.Ref (VString (Lookup.cdn "15/271763.jpg")))).
Proof.
  refine (empty_search_series_default (constantWorld (Resolved (okResponse "{}")))
            (scriptedEngine [("{}", Parsed (VObject []))])
            (mkAnimeBadge "Muzan" "Demon Slayer" "Plans ahead" "#000000")
            (okResponse "{}") "{}" (VObject []) _ _ _ _ _ _ _ _ _ _ _);
    try reflexivity; try discriminate;
    try (apply (bool_decide_unpack _); vm_compute; exact I).
  now left.
Defined.

(** X21: When the search is answered with a success and its first result
    has an image URL, that URL is what is returned. *)
Theorem search_result_returned (W : World) (E : Engine) (b : AnimeBadge)
    (response : Response) (bodyText : string) (data first : value)
    (more : list value) :
  characterName b <> "" -> anime b <> "" ->
  Lookup.characterImages !! characterName b = None ->
  characterName b ∉ Lookup.objectPrototypeKeys ->
  fetch W (Lookup.searchRequest (characterName b ++ " " ++ anime b)) = Resolved response ->
  ok response = true ->
  body response = Return bodyText ->
  JSON_parse E bodyText = Parsed data ->
  readProp data "data" = VArray (first :: more) ->
  truthy (getOptional (getOptional (readProp first "images") "jpg") "image_url") = true ->
  Lookup.generateAvatar W E (badgeValue b)
  = ([Fetch (Lookup.searchRequest (characterName b ++ " " ++ anime b))],
     Return (Lookup.Ref
               (getOptional (getOptional (readProp first "images") "jpg") "image_url"))).
Proof.
  intros Hname Hanime Htable Hproto Hfetch Hok Hbody Hparse Hlist Himage.
  unfold Lookup.generateAvatar. rewrite (badge_fields_valid b Hname Hanime).
  unfold Lookup.resolveImage, awaitFetch, json.
  cbn [badgeValue readProp lookupProp String.eqb Ascii.eqb Bool.eqb toString lift bind].
  unfold Lookup.lookupMember at 1. rewrite Htable, (bool_decide_eq_false_2 _ Hproto).
  cbn [Lookup.refTruthy truthy emit bind app]. rewrite Hfetch.
  cbn [ret bind app]. rewrite Hok, Hbody, Hparse. cbn [negb lift bind app].
  assert (Hdata : isNullish data = false).
  { destruct data; try reflexivity; discriminate. }
  assert (Hfirst : isNullish first = false).
  { destruct first; try reflexivity; discriminate. }
  assert (Hsome : Lookup.searchResult E data
                  = Return (Some (getOptional (getOptional (readProp first "images") "jpg")
                                    "image_url"))).
  { unfold Lookup.searchResult. rewrite (getProp_defined E data _ Hdata), Hlist.
    cbn [andThen truthy negb].
    unfold getProp at 1. cbn [isNullish readProp String.eqb Ascii.eqb Bool.eqb
                                andThen gtZero numberGtZero negb andb List.length].
    destruct (N.of_nat (S (List.length more))) eqn:Hn; [lia|].
    cbn [N.eqb negb andThen getIndex isNullish readIndex nth].
    rewrite (getProp_defined E first _ Hfirst). cbn [andThen]. now rewrite Himage. }
  rewrite Hsome. reflexivity.
Qed.

Lemma search_result_returned_witness :
  Lookup.generateAvatar (constantWorld (Resolved (okResponse searchBodyText)))
    (scriptedEngine [(searchBodyText, Parsed searchBodyValue)])
    (badgeValue (mkAnimeBadge "Muzan" "Demon Slayer" "Plans ahead" "#000000"))
  = ([Fetch (Lookup.searchRequest "Muzan Demon Slayer")],
     Return (Lookup.Ref (VString "https://cdn.example/muzan.jpg"))).
Proof.
  refine (search_result_returned (constantWorld (Resolved (okResponse searchBodyText)))
            _ (mkAnimeBadge "Muzan" "Demon Slayer" "Plans ahead" "#000000")
            (okResponse searchBodyText) searchBodyText _
            (VObject [("images",
               VObject [("jpg", VObject [("image_url", VString "https://cdn.example/muzan.jpg")])])])
            [] _ _ _ _ _ _ _ _ _ _);
    try reflexivity; try discriminate.
  apply (bool_decide_unpack _). vm_compute. exact I.
Defined.

(** ** generateAvatar, the image-generation variant *)

Lemma avatarCatch_kinds (e : JsError) :
  exists e', avatarCatch e = ([], Throw e') /\ avatarError e'.
Proof.
  unfold avatarCatch, avatarError.
  destruct (String.eqb (errName e) "AbortError"); [eexists; split; [reflexivity|]; auto|].
  destruct (includes (errMessage e) "environment variable") eqn:Henv;
    eexists; (split; [reflexivity|]); eauto.
Qed.

Ltac avatar_kinds :=
  match goal with
  | |- context [avatarCatch ?x] =>
      let e' := fresh "e'" in
      let He' := fresh "He'" in
      destruct (avatarCatch_kinds x) as (e' & -> & He'); try reflexivity; try exact He'
  end.

Lemma startsWith_append (pre rest : string) : startsWith (pre ++ rest) pre = true.
Proof. unfold startsWith. rewrite str_app. apply startsWithChars_app. Qed.

(** X23: For a badge that passes the check of line 162, what is returned
    is a JPEG data URL, and what is thrown is the timeout error, a
    configuration error or the wrapped failure. *)
Theorem avatar_data_url_or_error (W : World) (E : Engine) (badge : value) :
  OpenRouter.invalidBadge badge = false ->
  match snd (OpenRouter.generateAvatar W E badge) with
  | Return image => startsWith image dataUrlPrefix = true
  | Throw e => avatarError e
  end.
Proof.
  intros Hvalid. unfold OpenRouter.generateAvatar. rewrite Hvalid.
  unfold requestImage, awaitFetch.
  destruct (avatarPrompt E badge) as [prompt|e]; cbn [lift bind tryCatch snd app];
    [|avatar_kinds].
  cbn [emit bind app].
  destruct (getImageRouterKey W) as [key|e]; cbn [lift bind tryCatch snd app];
    [|avatar_kinds].
  cbn [emit bind app].
  destruct (fetch W (imageRequest key)) as [response|e];
    cbn [ret throw bind tryCatch snd app]; [|avatar_kinds].
  destruct (ok response); cbn [negb throw tryCatch snd app]; [|avatar_kinds].
  destruct (json E response) as [data|e]; cbn [lift bind tryCatch snd app];
    [|avatar_kinds].
  destruct (getProp E data "image") as [image|e]; cbn [lift bind tryCatch snd app];
    [|avatar_kinds].
  destruct (truthy image); cbn [negb throw tryCatch snd app]; [|avatar_kinds].
  destruct (getProp E image "base64") as [base64|e]; cbn [lift bind tryCatch snd app];
    [|avatar_kinds].
  destruct (truthy base64); cbn [negb throw tryCatch snd app]; [|avatar_kinds].
  destruct (toString E base64) as [payload|e]; cbn [lift bind ret tryCatch snd app];
    [|avatar_kinds].
  apply startsWith_append.
Qed.

Lemma avatar_data_url_or_error_witness :
  match snd (OpenRouter.generateAvatar
               (constantWorld (Resolved (okResponse imageBodyText)))
               (scriptedEngine [(imageBodyText, Parsed imageBodyValue)])
               (badgeValue (mkAnimeBadge "Tanjiro" "Demon Slayer" "Protects the team"
                              "#107C80"))) with
  | Return image => startsWith image dataUrlPrefix = true
  | Throw e => avatarError e
  end.
Proof.
  apply (avatar_data_url_or_error (constantWorld (Resolved (okResponse imageBodyText)))
           (scriptedEngine [(imageBodyText, Parsed imageBodyValue)])
           (badgeValue (mkAnimeBadge "Tanjiro" "Demon Slayer" "Protects the team"
                          "#107C80"))).
  reflexivity.
Defined.

(** X24: A call sends at most one request, with the key of
    [IMAGEROUTER_API_KEY], and only after the prompt is built. *)
Theorem avatar_at_most_one_request (W : World) (E : Engine) (badge : value) :
  fst (OpenRouter.generateAvatar W E badge) = []
  \/ fst (OpenRouter.generateAvatar W E badge) = [PromptBuilt]
  \/ exists key, IMAGEROUTER_API_KEY W = Some key /\ key <> ""
       /\ fst (OpenRouter.generateAvatar W E badge)
          = [PromptBuilt; Fetch (imageRequest key)].
Proof.
  unfold OpenRouter.generateAvatar.
  destruct (OpenRouter.invalidBadge badge); [now left|].
  unfold requestImage, awaitFetch, getImageRouterKey, envKey.
  destruct (avatarPrompt E badge) as [prompt|e]; cbn [lift bind tryCatch app].
  2:{ left. avatar_kinds. }
  cbn [emit bind app]. right.
  destruct (IMAGEROUTER_API_KEY W) as [key|] eqn:Hkey.
  2:{ left. cbn [lift bind tryCatch app]. avatar_kinds. }
  destruct (String.eqb key "") eqn:Hk.
  { left. cbn [lift bind tryCatch app]. avatar_kinds. }
  right. exists key. apply String.eqb_neq in Hk. repeat split; auto.
  cbn [lift emit bind app].
  destruct (fetch W (imageRequest key)) as [response|e];
    cbn [ret throw bind tryCatch app]; [|avatar_kinds].
  destruct (ok response); cbn [negb throw tryCatch app]; [|avatar_kinds].
  destruct (json E response) as [data|e]; cbn [lift bind tryCatch app];
    [|avatar_kinds].
  destruct (getProp E data "image") as [image|e]; cbn [lift bind tryCatch app];
    [|avatar_kinds].
  destruct (truthy image); cbn [negb throw tryCatch app]; [|avatar_kinds].
  destruct (getProp E image "base64") as [base64|e]; cbn [lift bind tryCatch app];
    [|avatar_kinds].
  destruct (truthy base64); cbn [negb throw tryCatch app]; [|avatar_kinds].
  destruct (toString E base64) as [payload|e]; cbn [lift bind ret tryCatch app];
    [reflexivity | avatar_kinds].
Qed.

Lemma avatarPrompt_typed (E : Engine) (b : AnimeBadge) :
  exists prompt, avatarPrompt E (badgeValue b) = Return prompt.
Proof. eexists. reflexivity. Qed.

Lemma typed_badge_valid (b : AnimeBadge) :
  characterName b <> "" -> anime b <> "" -> badgeColor b <> "" ->
  OpenRouter.invalidBadge (badgeValue b) = false.
Proof.
  intros Hname Hanime Hcolor. apply String.eqb_neq in Hname, Hanime, Hcolor.
  unfold OpenRouter.invalidBadge.
  cbn [badgeValue getOptional isNullish readProp lookupProp String.eqb Ascii.eqb
       Bool.eqb truthy].
  now rewrite Hname, Hanime, Hcolor.
Qed.

(** X25: The image of a success reply is returned as a data URL: the
    prefix, then the base64 text of the reply unchanged. *)
Theorem avatar_image_returned (W : World) (E : Engine) (b : AnimeBadge)
    (key : string) (response : Response) (bodyText payload : string) (data : value) :
  characterName b <> "" -> anime b <> "" -> badgeColor b <> "" ->
  getImageRouterKey W = Return key ->
  fetch W (imageRequest key) = Resolved response ->
  ok response = true ->
  body response = Return bodyText ->
  JSON_parse E bodyText = Parsed data ->
  readProp (readProp data "image") "base64" = VString payload ->
  payload <> "" ->
  OpenRouter.generateAvatar W E (badgeValue b)
  = ([PromptBuilt; Fetch (imageRequest key)], Return (dataUrlPrefix ++ payload)%string).
Proof.
  intros Hname Hanime Hcolor Hkey Hfetch Hok Hbody Hparse Hbase Hpayload.
  unfold OpenRouter.generateAvatar.
  rewrite (typed_badge_valid b Hname Hanime Hcolor).
  unfold requestImage, awaitFetch, json.
  destruct (avatarPrompt_typed E b) as (prompt & ->).
  cbn [lift bind emit app]. rewrite Hkey. cbn [lift bind emit app]. rewrite Hfetch.
  cbn [ret bind app]. rewrite Hok, Hbody, Hparse. cbn [negb lift bind app].
  assert (Hdata : isNullish data = false).
  { destruct data; try reflexivity; discriminate. }
  assert (Himage : truthy (readProp data "image") = true).
  { destruct (readProp data "image"); try reflexivity; cbn in Hbase; discriminate. }
  rewrite (getProp_defined E data _ Hdata). cbn [bind lift app]. rewrite Himage.
  cbn [negb].
  rewrite (getProp_defined E _ "base64" (truthy_not_nullish _ Himage)), Hbase.
  cbn [bind lift app truthy toString]. apply String.eqb_neq in Hpayload.
  rewrite Hpayload. reflexivity.
Qed.

Lemma avatar_image_returned_witness :
  OpenRouter.generateAvatar (constantWorld (Resolved (okResponse imageBodyText)))
    (scriptedEngine [(imageBodyText, Parsed imageBodyValue)])
    (badgeValue (mkAnimeBadge "Tanjiro" "Demon Slayer" "Protects the team" "#107C80"))
  = ([PromptBuilt; Fetch (imageRequest "sk-ir-test")],
     Return "data:image/jpeg;base64,QUJD").
Proof.
  refine (avatar_image_returned (constantWorld (Resolved (okResponse imageBodyText)))
            (scriptedEngine [(imageBodyText, Parsed imageBodyValue)])
            (mkAnimeBadge "Tanjiro" "Demon Slayer" "Protects the team" "#107C80")
            "sk-ir-test" (okResponse imageBodyText) imageBodyText "QUJD" imageBodyValue
            _ _ _ _ _ _ _ _ _ _);
    try reflexivity; discriminate.
Defined.

(** X26: A success reply without an image fails with the wrapped error;
    its text has two full stops in a row, the one of the inner message
    and the one the wrapper adds. *)
Theorem avatar_no_image (W : World) (E : Engine) (b : AnimeBadge)
    (key : string) (response : Response) (bodyText : string) (data : value) :
  characterName b <> "" -> anime b <> "" -> badgeColor b <> "" ->
  getImageRouterKey W = Return key ->
  fetch W (imageRequest key) = Resolved response ->
  ok response = true ->
  body response = Return bodyText ->
  JSON_parse E bodyText = Parsed data ->
  isNullish data = false ->
  truthy (readProp (readProp data "image") "base64") = false ->
  OpenRouter.generateAvatar W E (badgeValue b)
  = ([PromptBuilt; Fetch (imageRequest key)],
     Throw (Error "Failed to generate the character avatar: ImageRouter model did not return an image.. Please try again.")).
Proof.
  intros Hname Hanime Hcolor Hkey Hfetch Hok Hbody Hparse Hdata Hnone.
  unfold OpenRouter.generateAvatar.
  rewrite (typed_badge_valid b Hname Hanime Hcolor).
  unfold requestImage, awaitFetch, json.
  destruct (avatarPrompt_typed E b) as (prompt & ->).
  cbn [lift bind emit app]. rewrite Hkey. cbn [lift bind emit app]. rewrite Hfetch.
  cbn [ret bind app]. rewrite Hok, Hbody, Hparse. cbn [negb lift bind app].
  rewrite (getProp_defined E data _ Hdata). cbn [bind lift app].
  destruct (truthy (readProp data "image")) eqn:Himage; cbn [negb];
    [|reflexivity].
  rewrite (getProp_defined E _ "base64" (truthy_not_nullish _ Himage)).
  cbn [bind lift app]. rewrite Hnone. reflexivity.
Qed.

Lemma avatar_no_image_witness :
  OpenRouter.generateAvatar (constantWorld (Resolved (okResponse "{}")))
    (scriptedEngine [("{}", Parsed (VObject []))])
    (badgeValue (mkAnimeBadge "Tanjiro" "Demon Slayer" "Protects the team" "#107C80"))
  = ([PromptBuilt; Fetch (imageRequest "sk-ir-test")],
     Throw (Error "Failed to generate the character avatar: ImageRouter model did not return an image.. Please try again.")).
Proof.
  refine (avatar_no_image (constantWorld (Resolved (okResponse "{}")))
            (scriptedEngine [("{}", Parsed (VObject []))])
            (mkAnimeBadge "Tanjiro" "Demon Slayer" "Protects the team" "#107C80")
            "sk-ir-test" (okResponse "{}") "{}" (VObject [])
            _ _ _ _ _ _ _ _ _ _);
    try reflexivity; discriminate.
Defined.

(** ** getAnimeBadge, the Gemini variant *)

(** X27: The badge is the value that the trimmed text of the response
    parses to, when its four fields are there. *)
Theorem gemini_badge_returned (G : Gemini.Service) (E : Engine)
    (stringify : value -> string) (profileData : UserProfile)
    (key generated : string) (parsedData : value) :
  validProfile profileData = true ->
  Gemini.getGeminiKey G = Return key ->
  Gemini.generateContent G key (Gemini.generateUserPrompt stringify profileData)
    = Return generated ->
  JSON_parse E (trim generated) = Parsed parsedData ->
  hasAllFields parsedData = true ->
  Gemini.getAnimeBadge G E stringify profileData = Return parsedData.
Proof.
  intros Hvalid Hkey Hgen Hparse Hfields.
  unfold Gemini.getAnimeBadge, Gemini.requestBadge, Gemini.parseBadge.
  rewrite Hvalid, Hkey. cbn [negb andThen]. rewrite Hgen. cbn [andThen].
  rewrite Hparse.
  assert (Hv : isNullish parsedData = false) by now destruct parsedData.
  rewrite !(getProp_defined E parsedData _ Hv). cbn [andThen].
  unfold hasAllFields in Hfields.
  apply andb_prop in Hfields as [Hfields H4]. apply andb_prop in Hfields as [Hfields H3].
  apply andb_prop in Hfields as [H1 H2].
  now rewrite H1, H2, H3, H4.
Qed.

Lemma gemini_badge_returned_witness :
  Gemini.getAnimeBadge (constantService (Return (" " ++ redBadgeText ++ nl)%string))
    (scriptedEngine [(redBadgeText, Parsed redBadge)]) noStringify sampleUserProfile
  = Return redBadge.
Proof.
  apply (gemini_badge_returned _ _ noStringify sampleUserProfile "gm-test"
           (" " ++ redBadgeText ++ nl)%string redBadge); reflexivity.
Defined.

(** The text is parsed as it is after trimming: a fence around it
    stays on.  When the parser rejects the fenced text, with a message
    the [catch] block does not recognise, the call fails with the
    wrapped error, whatever the payload inside the fence is. *)
Theorem gemini_fence_kept (G : Gemini.Service) (E : Engine)
    (stringify : value -> string) (profileData : UserProfile)
    (key label payload message : string) :
  validProfile profileData = true ->
  Gemini.getGeminiKey G = Return key ->
  Gemini.generateContent G key (Gemini.generateUserPrompt stringify profileData)
    = Return (wrapFence label payload) ->
  JSON_parse E (wrapFence label payload) = SyntaxError message ->
  includes message "JSON.parse" = false ->
  includes message "environment variable" = false ->
  Gemini.getAnimeBadge G E stringify profileData
  = Throw (Error (Gemini.badgeFailurePrefix ++ sanitize message)%string).
Proof.
  intros Hvalid Hkey Hgen Hparse Hjson Henv.
  unfold Gemini.getAnimeBadge, Gemini.requestBadge, Gemini.parseBadge.
  rewrite Hvalid, Hkey. cbn [negb andThen]. rewrite Hgen. cbn [andThen].
  rewrite trim_wrapFence, Hparse. unfold Gemini.badgeCatch. cbn [errMessage].
  now rewrite Hjson, Henv.
Qed.

Lemma gemini_fence_kept_witness :
  Gemini.getAnimeBadge (constantService (Return (wrapFence "json" redBadgeText)))
    (scriptedEngine
       [(redBadgeText, Parsed redBadge);
        (wrapFence "json" redBadgeText,
         SyntaxError "Unexpected token ` in JSON at position 0")])
    noStringify sampleUserProfile
  = Throw (Error (Gemini.badgeFailurePrefix
                    ++ "Unexpected token ` in JSON at position 0")%string).
Proof.
  apply (gemini_fence_kept _ _ noStringify sampleUserProfile "gm-test" "json"
           redBadgeText "Unexpected token ` in JSON at position 0"); reflexivity.
Defined.

(** X28: The Gemini variant has no timeout of its own: whatever the
    service does, the timeout error of the OpenRouter variant is never
    what it throws. *)
Theorem gemini_never_timeout_error (G : Gemini.Service) (E : Engine)
    (stringify : value -> string) (profileData : UserProfile) :
  Gemini.getAnimeBadge G E stringify profileData <> Throw (Error timedOutMessage).
Proof.
  unfold Gemini.getAnimeBadge.
  destruct (validProfile profileData); cbn [negb]; [|discriminate].
  destruct (Gemini.requestBadge G E stringify profileData) as [badge|e];
    [discriminate|].
  unfold Gemini.badgeCatch.
  destruct (includes (errMessage e) "JSON.parse"); [discriminate|].
  destruct (includes (errMessage e) "environment variable") eqn:Henv.
  - intros H. injection H as ->. vm_compute in Henv. discriminate.
  - intros H. injection H as H. discriminate.
Qed.

(** ** generateUserPrompt *)

(** The summary of the OpenRouter prompt has one entry for every
    repository of the profile, in the order of the profile, each with
    the name of its repository and with its first three topics at
    most. *)
Theorem summary_lists_every_repo (profile : UserProfile) :
  exists entries,
    readProp (Prompt.userSummary profile) "top_repos" = VArray entries
    /\ List.length entries = List.length (repos profile)
    /\ forall i repo, nth_error (repos profile) i = Some repo ->
         readProp (nth i entries VUndefined) "name" = VString (repo_name repo)
         /\ exists shown,
              readProp (nth i entries VUndefined) "topics" = VArray (map VString shown)
              /\ List.length shown <= 3
              /\ shown = firstn (List.length shown) (topics repo).
Proof.
  exists (map Prompt.repoSummary (repos profile)). split; [reflexivity|].
  split; [apply length_map|].
  intros i repo Hrepo.
  assert (Hnth : nth i (map Prompt.repoSummary (repos profile)) VUndefined
                 = Prompt.repoSummary repo).
  { apply nth_error_nth. now rewrite nth_error_map, Hrepo. }
  rewrite Hnth. split; [reflexivity|].
  exists (firstn 3 (topics repo)). split; [reflexivity|].
  split; [apply firstn_le_length|].
  rewrite length_firstn. destruct (Nat.min_spec 3 (List.length (topics repo)))
    as [[_ ->] | [Hle ->]]; [reflexivity|].
  now rewrite firstn_all, firstn_all2 by lia.
Qed.




(** ** The search URL *)

Lemma encodeChar_safe (c : ascii) : forallb isUrlSafe (Lookup.encodeChar c) = true.
Proof. destruct c as [[] [] [] [] [] [] [] []]; reflexivity. Qed.

(** X22: The query of the search URL has unreserved characters and percent
    signs only: whatever the name and the series are, no [&], [=], [#]
    or space of theirs reaches the URL, so the query cannot add a
    parameter of its own. *)
Theorem search_query_url_safe (query : string) :
  forallb isUrlSafe (str (Lookup.encodeURIComponent query)) = true
  /\ url (Lookup.searchRequest query)
     = ("https://api.jikan.moe/v4/characters?q=" ++ Lookup.encodeURIComponent query
          ++ "&limit=1")%string
  /\ isUrlSafe "&" = false /\ isUrlSafe "=" = false /\ isUrlSafe "#" = false
  /\ isUrlSafe " " = false.
Proof.
  split; [|repeat split].
  unfold Lookup.encodeURIComponent. rewrite str_unstr.
  induction (str query) as [|c l IH]; [reflexivity|].
  cbn [flat_map]. now rewrite forallb_app, encodeChar_safe, IH.
Qed.

(** ** The summary of the larger prompt *)

Lemma existsb_eqb_In (x : string) (l : list string) :
  existsb (String.eqb x) l = true <-> In x l.
Proof.
  rewrite existsb_exists. split.
  - intros (y & Hy & Heq). apply String.eqb_eq in Heq. now subst.
  - intros H. exists x. split; [exact H | apply String.eqb_refl].
Qed.

Lemma distinctFrom_In (l : list string) :
  forall seen x, In x (Enhanced.distinctFrom seen l) <-> In x l /\ ~ In x seen.
Proof.
  induction l as [|y l IH]; intros seen x; cbn [Enhanced.distinctFrom].
  - simpl. tauto.
  - destruct (existsb (String.eqb y) seen) eqn:Hy.
    + apply existsb_eqb_In in Hy. rewrite IH. simpl. split.
      * tauto.
      * intros [[-> | Hx] Hn]; [contradiction | tauto].
    + assert (Hny : ~ In y seen).
      { intros H. apply existsb_eqb_In in H. congruence. }
      simpl. rewrite IH. simpl. split.
      * intros [-> | [Hx Hn]]; [tauto|]. split; [tauto|]. intros H. apply Hn. tauto.
      * intros [[-> | Hx] Hn]; [tauto|].
        destruct (string_dec y x) as [-> | Hne]; [tauto|]. right. split; [exact Hx|].
        intros [H | H]; [contradiction | contradiction].
Qed.

Lemma distinctFrom_NoDup (l : list string) :
  forall seen, List.NoDup (Enhanced.distinctFrom seen l).
Proof.
  induction l as [|y l IH]; intros seen; cbn [Enhanced.distinctFrom].
  - constructor.
  - destruct (existsb (String.eqb y) seen); [apply IH|].
    constructor; [|apply IH]. rewrite distinctFrom_In. simpl. tauto.
Qed.

Lemma truthyLanguages_In (l : list GithubRepo) (s : string) :
  In s (Enhanced.truthyLanguages l)
  <-> s <> "" /\ exists repo, In repo l /\ language repo = Some s.
Proof.
  unfold Enhanced.truthyLanguages. rewrite in_flat_map. split.
  - intros (repo & Hrepo & Hs). destruct (language repo) as [s'|] eqn:Hl; [|contradiction].
    destruct (String.eqb s' "") eqn:He; [contradiction|].
    destruct Hs as [-> | []]. apply String.eqb_neq in He. eauto.
  - intros (Hne & repo & Hrepo & Hl). exists repo. split; [exact Hrepo|].
    rewrite Hl. apply String.eqb_neq in Hne. rewrite Hne. now left.
Qed.

(** X30: The languages of the summary are the languages of the
    repositories as a set: each one once, none of them empty, every
    one the language of a repository, and every language of a
    repository among them. *)
Theorem summary_languages_distinct (profile : UserProfile) :
  List.NoDup (Enhanced.languages profile)
  /\ forall s, In s (Enhanced.languages profile)
       <-> s <> "" /\ exists repo, In repo (repos profile) /\ language repo = Some s.
Proof.
  unfold Enhanced.languages. split; [apply distinctFrom_NoDup|].
  intros s. rewrite distinctFrom_In, truthyLanguages_In. simpl. tauto.
Qed.

Example summary_languages_sample :
  Enhanced.languages
    (mkUserProfile (user sampleUserProfile) (sampleRepos ++ sampleRepos))
  = ["TypeScript"; "JavaScript"].
Proof. reflexivity. Qed.

(** ** The rate-limit error *)

(** X4: The rate-limit error is what the caller gets exactly when the
    error of the [try] block has the marker in its message. *)
Theorem rate_limited_iff_marked (W : World) (E : Engine) (username : string) :
  snd (getUserProfileData W E username) = Throw (Error rateLimitedMessage)
  <-> exists e, snd (fetchProfile W E username) = Throw e
                /\ includes (errMessage e) rateLimitMarker = true.
Proof.
  unfold getUserProfileData.
  destruct (fetchProfile W E username) as [t [profile|e]]; cbn [tryCatch snd].
  - split; [discriminate | intros (e & H & _); discriminate].
  - destruct (includes (errMessage e) rateLimitMarker) eqn:Hm; cbn [throw snd].
    + split; [eauto | reflexivity].
    + split.
      * intros H. injection H as ->. vm_compute in Hm. discriminate.
      * intros (e' & H & Hm'). injection H as ->. congruence.
Qed.
